(** * bwmap: the lookups and the view state of the map front end
    (js/gpxmap.js) and the GPX to GeoJSON conversion (util/togj.js),
    embedded as functions.

    Conventions of the embedding.
    - JavaScript numbers that index arrays are integers far below 2^53; they
      are [Z] in [search], where [le] starts at [-1] and [>>] works on 32
      bits (its wrap-around is written out), and [nat] in togj.js, where
      indices only count upwards from zero.
    - A value that may be [undefined] is an [option].
    - An exception is a [Throw] in the [Result] monad; statements run in
      source order and the first exception wins.
    - A loop runs on fuel; running out of it is the outcome [OutOfFuel],
      which is no behaviour of the program: the facts below show where it
      cannot happen and where the program really loops for ever.
    - A plain object used as a set of keys is a [gmap]; what the DOM and
      Leaflet do stays outside: [Host] for the conversion, the walk and
      index of a popup for [walkPopup].  The additions of [distance] are
      those of the [Host]: exact in [planarHost], the additions of IEEE 754
      doubles in [doubleHost]. *)

From Stdlib Require Import PrimFloat.
From Stdlib Require Import ZArith Lia String Ascii Bool.
From stdpp Require Import base option list strings sorting gmap.

(** * Part I: the embedding *)

(** ** Results of computations that may throw *)

Inductive Error : Type :=
| AssertionError   (* a failed [assert] of node's assert module *)
| TypeError        (* a property read on [undefined] *)
| LeafletError     (* an [Error] thrown inside Leaflet *)
| OutOfFuel.       (* the loop budget of the model ran out *)

Inductive Result (A : Type) : Type :=
| Ok (a : A)
| Throw (e : Error).

Arguments Ok {A} a.
Arguments Throw {A} e.

#[global] Instance Result_ret : MRet Result := @Ok.
#[global] Instance Result_bind : MBind Result :=
  fun A B f m => match m with Ok a => f a | Throw e => Throw e end.

(** [assert(c)] and [assert.equal(a, b)] with the comparison already made. *)
Definition assert (c : bool) : Result unit :=
  if c then Ok tt else Throw AssertionError.

(** [array.slice(lo, hi)] for [0 <= lo] and [0 <= hi]. *)
Definition slice {A : Type} (lo hi : nat) (array : list A) : list A :=
  take (hi - lo) (drop lo array).

(** [flatMap] as the script's polyfill defines it: [map], then one [concat]. *)
Definition flatMap {A B : Type} (f : A -> Result (list B)) (array : list A)
    : Result (list B) :=
  r ← mapM f array; Ok (concat r).

(** ** js/gpxmap.js: [search] *)

Section Search.
Local Open Scope Z_scope.
Context {A : Type}.

(** ToInt32 of ECMAScript: reduction modulo 2^32 into [-2^31, 2^31). *)
Definition toInt32 (z : Z) : Z := (z + 2 ^ 31) mod 2 ^ 32 - 2 ^ 31.

(** [x >> n]: the left operand goes through ToInt32 and is shifted
    arithmetically by [n] modulo 32. *)
Definition sar (x n : Z) : Z := Z.shiftr (toInt32 x) (n mod 32).

(** [array[i]]: [undefined] for an index that is not an element's. *)
Definition get (array : list A) (i : Z) : option A :=
  if i <? 0 then None else array !! Z.to_nat i.

(** One evaluation of the loop test and body per unit of fuel:
<<
    while (1 + le !== ri) {
        const mi = le + ((ri - le) >> 1);
        if (pred(array[mi])) { ri = mi; } else { le = mi; }
    }
    return ri;
>>
    [pred] receives what [array[mi]] yields, an element or [undefined]. *)
Fixpoint search_loop (fuel : nat) (array : list A) (pred : option A -> bool)
    (le ri : Z) : Result Z :=
  match fuel with
  | O => Throw OutOfFuel
  | S fuel' =>
      if 1 + le =? ri then Ok ri
      else
        let mi := le + sar (ri - le) 1 in
        if pred (get array mi)
        then search_loop fuel' array pred le mi
        else search_loop fuel' array pred mi ri
  end.

(** [let le = -1, ri = array.length;] and then the loop. *)
Definition search (fuel : nat) (array : list A) (pred : option A -> bool)
    : Result Z :=
  search_loop fuel array pred (-1) (Z.of_nat (length array)).

(** The assumption of the source comment, with [!pred(-1)] and
    [pred(length)] virtual: [pred] is false on the elements before index
    [t] and true on those from [t] on. *)
Definition threshold (array : list A) (pred : option A -> bool) (t : Z)
    : Prop :=
  0 <= t <= Z.of_nat (length array) /\
  (forall i, 0 <= i < t -> pred (get array i) = false) /\
  (forall i, t <= i < Z.of_nat (length array) -> pred (get array i) = true).

End Search.

(** An array of 2^31 - 1 elements, as [new Array(2147483647)] makes one. *)
Definition huge : list unit := replicate (Z.to_nat 2147483647) tt.

(** A search as [walkPopup] makes it, [d => date <= d] over sorted numbers. *)
Definition atLeast (date : Z) (d : option Z) : bool :=
  match d with Some d => (date <=? d)%Z | None => false end.

(** ** util/togj.js: [forEachUniqueRange] *)

Section RangeGrouper.
Context {A B : Type}.
Variable equal : A -> A -> bool.

(** The inner loop, from [hi = 1 + lo] on:
<<
    for (...; hi !== array.length && equal(array[lo], array[hi]); ++hi) ;
>>
    Both callers pass an [equal] that reads a property of its arguments, so
    that an [undefined] element would raise a TypeError. *)
Fixpoint scan (fuel : nat) (array : list A) (lo hi : nat) : Result nat :=
  match fuel with
  | O => Throw OutOfFuel
  | S fuel' =>
      if hi =? length array then Ok hi
      else
        match array !! lo, array !! hi with
        | Some x, Some y =>
            if equal x y then scan fuel' array lo (S hi) else Ok hi
        | _, _ => Throw TypeError
        end
  end.

(** The outer loop, [for (let lo = 0, hi; lo !== array.length; lo = hi)],
    with [res.push(func(lo, hi, array))] as its last statement. *)
Fixpoint ranges_loop (fuel : nat) (array : list A)
    (func : nat -> nat -> list A -> Result B) (lo : nat) (res : list B)
    : Result (list B) :=
  match fuel with
  | O => Throw OutOfFuel
  | S fuel' =>
      if lo =? length array then Ok res
      else
        hi ← scan (length array) array lo (1 + lo);
        r ← func lo hi array;
        ranges_loop fuel' array func hi (res ++ [r])
  end.

Definition forEachUniqueRange (array : list A)
    (func : nat -> nat -> list A -> Result B) : Result (list B) :=
  ranges_loop (S (length array)) array func 0 [].

End RangeGrouper.

(** The index pairs that [forEachUniqueRange] hands to its callback. *)
Definition ranges {A : Type} (equal : A -> A -> bool) (array : list A)
    : list (nat * nat) :=
  match forEachUniqueRange equal array (fun lo hi _ => Ok (lo, hi)) with
  | Ok r => r
  | Throw _ => []
  end.

(** Consecutive half-open intervals from [from] up to [to]. *)
Fixpoint chain (from : nat) (runs : list (nat * nat)) (to : nat) : Prop :=
  match runs with
  | [] => from = to
  | (lo, hi) :: runs' => lo = from /\ lo < hi /\ chain hi runs' to
  end.

(** A run [lo, hi) of [array] under [equal]: it is not empty, every later
    element of it is [equal] to its first one, and the element that
    follows it, if there is one, is not. *)
Definition isRun {A : Type} (equal : A -> A -> bool) (array : list A)
    (r : nat * nat) : Prop :=
  r.1 < r.2 <= length array /\
  (forall i x y, r.1 < i < r.2 ->
     array !! r.1 = Some x -> array !! i = Some y -> equal x y = true) /\
  (forall x y,
     array !! r.1 = Some x -> array !! r.2 = Some y -> equal x y = false).

(** ** util/togj.js: features *)

(** [s.substr(0, 10)]: the calendar day of an ISO 8601 timestamp. *)
Definition day (s : string) : string := substring 0 10 s.

Definition sameDay (lhs rhs : string) : bool := String.eqb (day lhs) (day rhs).

(** [a === b] (and [==]) on values that are strings or [undefined]. *)
Definition eqStr (a b : option string) : bool :=
  match a, b with
  | Some x, Some y => String.eqb x y
  | None, None => true
  | _, _ => false
  end.

(** [a || b] on such values: the empty string is falsy. *)
Definition orElse (a b : option string) : option string :=
  match a with
  | Some s => if String.eqb s "" then b else a
  | None => b
  end.

(** [a < b] on such values: by code units; [undefined] compares false. *)
Definition ltStr (a b : option string) : bool :=
  match a, b with
  | Some x, Some y => String.ltb x y
  | _, _ => false
  end.

(** The points of a line, [Flat], or of the parts of a multi-part line,
    [Nested]: the [coordinates] of a LineString or of a MultiLineString,
    and the [latLngs] of a Polyline or of a MultiPolyline. *)
Inductive Lines (P : Type) : Type :=
| Flat (points : list P)
| Nested (parts : list (list P)).

Arguments Flat {P} points.
Arguments Nested {P} parts.

Section Features.
Context {num : Type}.

(** The property bag as a record of the properties the script reads or
    writes, each optional; [rest] holds what it only copies along ([name],
    [desc], ...).  [T] is the shape of [coordTimes]. *)
Record Properties (T : Type) : Type := mkProperties {
  time : option string;
  coordTimes : option T;
  date : option string;
  gpxFileName : option string;
  distance : option num;
  rest : list (string * string)
}.

Arguments mkProperties {T}.
Arguments time {T}.
Arguments coordTimes {T}.
Arguments date {T}.
Arguments gpxFileName {T}.
Arguments distance {T}.
Arguments rest {T}.

(** A position: two or three numbers, longitude first. *)
Local Abbreviation Coord := (list num).

Inductive OtherType : Type :=
| Point | MultiPoint | Polygon | MultiPolygon | GeometryCollection.

(** A GeoJSON feature, tagged by [geometry.type].  togeojson nests
    [coordTimes] like the coordinates: one timestamp array for a
    LineString, one array per part for a MultiLineString; the embedding
    covers the features of that shape.  The [type] member is always
    ['Feature'] ([gpxToJson] asserts it and every later stage writes it), so
    that the [assert.equal(feature.type, 'Feature')] lines cannot fail and
    are left out. *)
Inductive Feature : Type :=
| LineFeature (bbox : option (list (option num)))
    (properties : Properties (list string)) (coordinates : list Coord)
| MultiLineFeature (bbox : option (list (option num)))
    (properties : Properties (list (list string)))
    (coordinates : list (list Coord))
| OtherFeature (type : OtherType) (properties : Properties unit).

Definition featureTime (f : Feature) : option string :=
  match f with
  | LineFeature _ p _ => time p
  | MultiLineFeature _ p _ => time p
  | OtherFeature _ p => time p
  end.

Definition featureDate (f : Feature) : option string :=
  match f with
  | LineFeature _ p _ => date p
  | MultiLineFeature _ p _ => date p
  | OtherFeature _ p => date p
  end.

(** Whether the feature has a [coordTimes] property. *)
Definition hasCoordTimes (f : Feature) : bool :=
  match f with
  | LineFeature _ p _ => bool_decide (is_Some (coordTimes p))
  | MultiLineFeature _ p _ => bool_decide (is_Some (coordTimes p))
  | OtherFeature _ p => bool_decide (is_Some (coordTimes p))
  end.

Definition featureBbox (f : Feature) : option (list (option num)) :=
  match f with
  | LineFeature b _ _ => b
  | MultiLineFeature b _ _ => b
  | OtherFeature _ _ => None
  end.

Definition featureDistance (f : Feature) : option num :=
  match f with
  | LineFeature _ p _ => distance p
  | MultiLineFeature _ p _ => distance p
  | OtherFeature _ p => distance p
  end.

(** ['LineString' === feature.geometry.type] *)
Definition isLineString (f : Feature) : bool :=
  match f with LineFeature _ _ _ => true | _ => false end.

(** [Object.assign({}, properties)] with [coordTimes] and [time] replaced. *)
Definition withTimes {T U : Type} (p : Properties T) (ct : option U)
    (t : option string) : Properties U :=
  mkProperties t ct (date p) (gpxFileName p) (distance p) (rest p).

(** [Object.assign({}, properties, { 'date': d })] *)
Definition withDate {T : Type} (p : Properties T) (d : string) : Properties T :=
  mkProperties (time p) (coordTimes p) (Some d) (gpxFileName p) (distance p)
    (rest p).

(** *** [multiSplit] *)

(** The callback of [feature.geometry.coordinates.map] for part [i]:
<<
    const properties = Object.assign({}, feature.properties);
    if (properties.coordTimes) {
        assert(i < properties.coordTimes.length);
        assert.equal(properties.coordTimes[i].length, coordinates.length);
        assert.equal(properties.time, properties.coordTimes[0][0]);
        properties.coordTimes = properties.coordTimes[i];
        properties.time = properties.coordTimes[0];
    }
    return { 'type': 'Feature', properties,
             'geometry': { 'type': 'LineString', coordinates } };
>> *)
Definition splitPart (p : Properties (list (list string))) (i : nat)
    (coordinates : list Coord) : Result Feature :=
  match coordTimes p with
  | Some tss =>
      match tss !! i with
      | None => Throw AssertionError      (* assert(i < coordTimes.length) *)
      | Some ts =>
          _ ← assert (length ts =? length coordinates);
          _ ← assert (eqStr (time p) (tss !! 0 ≫= head));
          Ok (LineFeature None (withTimes p (Some ts) (head ts)) coordinates)
      end
  | None => Ok (LineFeature None (withTimes p None (time p)) coordinates)
  end.

(** [array.map((x, i) => f(x, i))] for an [f] that may throw. *)
Fixpoint mapi_from {X Y : Type} (i : nat) (f : nat -> X -> Result Y)
    (l : list X) : Result (list Y) :=
  match l with
  | [] => Ok []
  | x :: l' => y ← f i x; k ← mapi_from (S i) f l'; Ok (y :: k)
  end.

Definition multiSplit (feature : Feature) : Result (list Feature) :=
  match feature with
  | MultiLineFeature _ p coordinates => mapi_from 0 (splitPart p) coordinates
  | _ => Ok [feature]
  end.

(** *** [dateSplit] *)

(** [(properties.time || properties.gpxFileName).substr(0, 10)] *)
Definition fileDate {T : Type} (p : Properties T) : Result string :=
  match orElse (time p) (gpxFileName p) with
  | Some s => Ok (day s)
  | None => Throw TypeError
  end.

(** The first branch of [dateSplit]: one feature, with a [date]. *)
Definition dated (feature : Feature) : Result (list Feature) :=
  match feature with
  | LineFeature _ p c => d ← fileDate p; Ok [LineFeature None (withDate p d) c]
  | MultiLineFeature _ p c =>
      d ← fileDate p; Ok [MultiLineFeature None (withDate p d) c]
  | OtherFeature ty p => d ← fileDate p; Ok [OtherFeature ty (withDate p d)]
  end.

(** The callback that [dateSplit] passes to [forEachUniqueRange]:
<<
    properties.coordTimes = properties.coordTimes.slice(lo, hi);
    properties.time = properties.coordTimes[0];
    properties.date = properties.time.substr(0, 10);
    const coordinates = feature.geometry.coordinates.slice(lo, hi);
>> *)
Definition daySegment (p : Properties (list string)) (ts : list string)
    (coordinates : list Coord) (lo hi : nat) : Result Feature :=
  let cts := slice lo hi ts in
  match head cts with
  | None => Throw TypeError                 (* [undefined.substr] *)
  | Some t =>
      Ok (LineFeature None
            (withDate (withTimes p (Some cts) (Some t)) (day t))
            (slice lo hi coordinates))
  end.

(** The first branch is taken when
<<
    'LineString' !== feature.geometry.type ||
    !feature.properties || !feature.properties.coordTimes ||
    feature.properties.coordTimes.length !== feature.geometry.coordinates.length
>>
    (the property bag is always there, and an array is truthy). *)
Definition dateSplit (feature : Feature) : Result (list Feature) :=
  match feature with
  | LineFeature _ p coordinates =>
      match coordTimes p with
      | Some ts =>
          if negb (length ts =? length coordinates) then dated feature
          else
            (* the [assert.equal] of the two lengths holds here *)
            forEachUniqueRange sameDay ts
              (fun lo hi _ => daySegment p ts coordinates lo hi)
      | None => dated feature
      end
  | _ => dated feature
  end.

(** [g] is the day segment of [r]: the slices of the timestamps and of the
    positions between the bounds of [r], the first of these timestamps as
    [time], its day as [date] and as the day of every timestamp of the
    slice, and the other properties of [p]. *)
Definition isDaySegment (p : Properties (list string)) (ts : list string)
    (coordinates : list Coord) (g : Feature) (r : nat * nat) : Prop :=
  exists t, ts !! r.1 = Some t /\
    g = LineFeature None
          (mkProperties (Some t) (Some (slice r.1 r.2 ts)) (Some (day t))
             (gpxFileName p) (distance p) (rest p))
          (slice r.1 r.2 coordinates) /\
    Forall (fun t' => day t' = day t) (slice r.1 r.2 ts).

(** *** [timeCompare] and the sort *)

Definition timeCompare (lhs rhs : Feature) : Z :=
  let time0 := orElse (featureTime lhs) (featureDate lhs) in
  let time1 := orElse (featureTime rhs) (featureDate rhs) in
  if ltStr time0 time1 then (-1)%Z else if ltStr time1 time0 then 1%Z else 0%Z.

(** [Array.prototype.sort] with a comparator, as a stable insertion sort. *)
Fixpoint insertSorted {X : Type} (cmp : X -> X -> Z) (x : X) (l : list X)
    : list X :=
  match l with
  | [] => [x]
  | y :: l' =>
      if (cmp x y <=? 0)%Z then x :: y :: l' else y :: insertSorted cmp x l'
  end.

Definition sort {X : Type} (cmp : X -> X -> Z) (l : list X) : list X :=
  foldr (insertSorted cmp) [] l.

(** *** [mergeLines] *)

Definition asLine (f : Feature)
    : option (Properties (list string) * list Coord) :=
  match f with LineFeature _ p c => Some (p, c) | _ => None end.

(** The positions and the timestamps of a LineString feature. *)
Definition lineCoordinates (f : Feature) : list Coord :=
  match asLine f with Some (_, c) => c | None => [] end.

Definition lineTimes (f : Feature) : list string :=
  match asLine f with Some (p, _) => default [] (coordTimes p) | None => [] end.

(** The callback of [slice.map] that collects the [coordTimes]. *)
Definition walkTimes (walk : Properties (list string) * list Coord)
    : Result (list string) :=
  match coordTimes walk.1 with
  | None => Throw TypeError                 (* [undefined.length] *)
  | Some ts => _ ← assert (length ts =? length walk.2); Ok ts
  end.

(** [mergeLines(lo, hi, features)]: [features[lo]], possibly [undefined],
    when [hi - lo <= 1]; else the slice must be LineStrings, and
<<
    const properties = { 'date': slice[0].properties.date };
    if (slice[0].properties.coordTimes) {
        properties.coordTimes = slice.map(function (walk) { ... });
        properties.time = properties.coordTimes[0][0];
    }
    const coordinates = slice.map(walk => walk.geometry.coordinates);
>> *)
Definition mergeLines (lo hi : nat) (features : list Feature)
    : Result (option Feature) :=
  if hi - lo <=? 1 then Ok (features !! lo)
  else
    match mapM asLine (slice lo hi features) with
    | None => Throw AssertionError          (* assert(slice.every(...)) *)
    | Some [] => Throw TypeError            (* [slice[0].properties] *)
    | Some (first :: others) =>
        let walks := first :: others in
        let coordinates := walks.*2 in
        match coordTimes first.1 with
        | Some _ =>
            tss ← mapM walkTimes walks;
            Ok (Some (MultiLineFeature None
                  (mkProperties (tss !! 0 ≫= head) (Some tss) (date first.1)
                     None None [])
                  coordinates))
        | None =>
            Ok (Some (MultiLineFeature None
                  (mkProperties None None (date first.1) None None [])
                  coordinates))
        end
    end.

(** *** [distance] and [addBbox]: what comes from outside the script *)

(** What the script takes from Leaflet, and the arithmetic of JavaScript
    numbers that it applies to the results.  These are IEEE 754 doubles
    and trigonometric library code; the embedding leaves them abstract. *)
Record Host : Type := mkHost {
  LatLng : Type;
  (* L.GeoJSON.coordsToLatLng, which throws on an invalid position *)
  coordsToLatLng : Coord -> Result LatLng;
  (* L.polyline(latLngs).getBounds(): the south-west and north-east
     corners, [None] for the bounds of no point at all *)
  getBounds : Lines LatLng -> option (LatLng * LatLng);
  lat : LatLng -> num;
  lng : LatLng -> num;
  alt : LatLng -> option num;
  (* L.CRS.Earth.distance *)
  Earth_distance : LatLng -> LatLng -> num;
  zero : num;
  plus : num -> num -> num;
  Math_round : num -> num
}.

Section WithHost.
Variable host : Host.

(** The body of the [reduce] callback:
<<
    if (1 < seg.length) {
        for (i = seg.length - 1, p = seg[i]; 0 <= i; p = q, --i) {
            q = seg[i];
            dist += Earth.distance(p, q);
        }
    }
    return dist;
>>
    [i] runs from the last index down to [0] with [p] trailing [q] by one
    step (and [p = q] in the first round). *)
Definition addSegment (dist : num) (seg : list (LatLng host)) : num :=
  if 1 <? length seg then
    match reverse seg with
    | [] => dist
    | last :: _ =>
        (foldl (fun '(d, p) q => (plus host d (Earth_distance host p q), q))
           (dist, last) (reverse seg)).1
    end
  else dist.

(** [distance(latLngs)]: [0] for no element at all; a flat array (its
    first element has no own [length]) is wrapped into one part. *)
Definition distanceOf (latLngs : Lines (LatLng host)) : num :=
  match latLngs with
  | Flat [] | Nested [] => zero host          (* 0 === latLngs.length *)
  | Flat points => foldl addSegment (zero host) [points]
  | Nested parts => foldl addSegment (zero host) parts
  end.

(** [bbox.splice(2, 0, sw.alt); bbox.splice(5, 0, ne.alt)] when the first
    position has three members, else the assertion that it has two. *)
Definition bboxOf (sw ne : LatLng host) (first : Coord)
    : Result (list (option num)) :=
  let bbox := [Some (lng host sw); Some (lat host sw);
               Some (lng host ne); Some (lat host ne)] in
  if length first =? 3 then
    Ok (take 2 bbox ++ alt host sw :: drop 2 bbox ++ [alt host ne])
  else
    _ ← assert (length first =? 2); Ok bbox.

(** The properties of the feature that [addBbox] returns:
<<
    const properties = {
        'date': feature.properties.date,
        'distance':  Math.round(distance(latLngs)),
    };
>> *)
Definition enriched {T U : Type} (p : Properties T)
    (latLngs : Lines (LatLng host)) : Properties U :=
  mkProperties None None (date p) None
    (Some (Math_round host (distanceOf latLngs))) [].

(** [geometry.coordinates] of a feature whose [geometry.type] ends with
    ['LineString'], by its depth; [None] for another geometry. *)
Definition positions (f : Feature) : option (Lines Coord) :=
  match f with
  | LineFeature _ _ c => Some (Flat c)
  | MultiLineFeature _ _ c => Some (Nested c)
  | OtherFeature _ _ => None
  end.

(** [L.GeoJSON.coordsToLatLngs(geometry.coordinates, depth)] *)
Definition coordsToLatLngs (cs : Lines Coord) : Result (Lines (LatLng host)) :=
  match cs with
  | Flat c => points ← mapM (coordsToLatLng host) c; Ok (Flat points)
  | Nested c => parts ← mapM (mapM (coordsToLatLng host)) c; Ok (Nested parts)
  end.

(** [depth ? geometry.coordinates[0][0] : geometry.coordinates[0]] *)
Definition firstOf (cs : Lines Coord) : option Coord :=
  match cs with
  | Flat c => c !! 0
  | Nested c => c !! 0 ≫= (.!! 0)
  end.

(** [{ 'type': 'Feature', bbox, properties, geometry }] *)
Definition enrich (f : Feature) (bbox : list (option num))
    (latLngs : Lines (LatLng host)) : Feature :=
  match f with
  | LineFeature _ p c => LineFeature (Some bbox) (enriched p latLngs) c
  | MultiLineFeature _ p c => MultiLineFeature (Some bbox) (enriched p latLngs) c
  | OtherFeature _ _ => f
  end.

(** [addBbox(feature)]: the argument is an element of what
    [forEachUniqueRange] returned, possibly [undefined]. *)
Definition addBbox (feature : option Feature) : Result Feature :=
  match feature with
  | None => Throw TypeError                   (* [undefined.type] *)
  | Some f =>
      match positions f with
      | None => Ok f
      | Some cs =>
          latLngs ← coordsToLatLngs cs;
          match getBounds host latLngs with
          | None => Throw TypeError           (* [undefined.lng] *)
          | Some (sw, ne) =>
              match firstOf cs with
              | None => Throw TypeError       (* [undefined.length] *)
              | Some first =>
                  bbox ← bboxOf sw ne first; Ok (enrich f bbox latLngs)
              end
          end
      end
  end.

(** *** The script's main part, from the features that [gpxToJson] read
    up to the features of the collection it prints. *)
Definition pipeline (features : list Feature) : Result (list Feature) :=
  parts ← flatMap multiSplit features;
  days ← flatMap dateSplit (filter (fun f => isLineString f = true) parts);
  let walks := sort timeCompare days in
  merged ← forEachUniqueRange
             (fun lhs rhs => eqStr (featureDate lhs) (featureDate rhs))
             walks mergeLines;
  mapM addBbox merged.

End WithHost.
End Features.

Arguments Properties num T : clear implicits.
Arguments Feature num : clear implicits.
Arguments Host num : clear implicits.
Arguments mkProperties {num T}.
Arguments time {num T}.
Arguments coordTimes {num T}.
Arguments date {num T}.
Arguments gpxFileName {num T}.
Arguments distance {num T}.
Arguments rest {num T}.

(** ** Inputs on which the embedding is run *)

(** Sorted dates as the front end searches them, as day numbers. *)
Definition someDates : list Z := [1; 3; 5; 7]%Z.

(** A planar stand-in for Leaflet over integer positions, to run
    [addBbox] and [pipeline] on examples: positions need two members at
    least, bounds are minima and maxima without altitude (as Leaflet's
    LatLngBounds keeps none), distances are taxicab. *)
Definition planarBounds (l : Lines (Z * Z * option Z))
    : option ((Z * Z * option Z) * (Z * Z * option Z)) :=
  let points := match l with Flat p => p | Nested ps => concat ps end in
  match points with
  | [] => None
  | (la, ln, _) :: r =>
      Some ((foldr Z.min la (r.*1.*1), foldr Z.min ln (r.*1.*2), None),
            (foldr Z.max la (r.*1.*1), foldr Z.max ln (r.*1.*2), None))
  end.

Definition planarHost : Host Z :=
  {| LatLng := Z * Z * option Z;
     coordsToLatLng c :=
       match c with
       | ln :: la :: r => Ok (la, ln, head r)
       | _ => Throw LeafletError
       end;
     getBounds := planarBounds;
     lat p := p.1.1;
     lng p := p.1.2;
     alt p := p.2;
     Earth_distance p q := (Z.abs (p.1.1 - q.1.1) + Z.abs (p.1.2 - q.1.2))%Z;
     zero := 0%Z;
     plus := Z.add;
     Math_round d := d |}.

(** The properties of a track as [gpxToJson] returns them. *)
Definition track (t : option string) (ct : option (list string))
    (file : string) : Properties Z (list string) :=
  mkProperties t ct None (Some file) None [("name", "walk")].

(** One recording that runs over midnight. *)
Definition overnight : Feature Z :=
  LineFeature None
    (track (Some "2017-06-10T23:50:00Z")
       (Some ["2017-06-10T23:50:00Z"; "2017-06-10T23:55:00Z";
              "2017-06-11T00:05:00Z"; "2017-06-11T00:10:00Z"])
       "overnight.gpx")
    [[0; 0]; [1; 0]; [1; 1]; [2; 1]]%Z.

(** A LineString of two positions with a single timestamp. *)
Definition shortTimes : Feature Z :=
  LineFeature None
    (track (Some "2017-06-10T10:00:00Z") (Some ["2017-06-10T10:00:00Z"])
       "short.gpx")
    [[0; 0]; [3; 4]]%Z.

(** A MultiLineString whose second part has one timestamp for two
    positions. *)
Definition shortPart : Feature Z :=
  MultiLineFeature None
    (mkProperties (Some "2017-06-10T10:00:00Z")
       (Some [["2017-06-10T10:00:00Z"; "2017-06-10T10:05:00Z"];
              ["2017-06-10T11:00:00Z"]])
       None (Some "parts.gpx") None [])
    [[[0; 0]; [1; 0]]; [[1; 1]; [2; 1]]]%Z.

(** A LineString whose first position is 2-D and whose second is 3-D. *)
Definition mixedDims : Feature Z :=
  LineFeature None (track None None "2017-06-10-loop.gpx")
    [[0; 0]; [1; 1; 5]]%Z.

(** A LineString whose first position has four members. *)
Definition fourDims : Feature Z :=
  LineFeature None (track None None "2017-06-10-loop.gpx")
    [[0; 0; 0; 0]; [1; 1]]%Z.

(** Two day segments of one date, both with timestamps. *)
Definition morning : Properties Z (list string) * list (list Z) :=
  (mkProperties (Some "2017-06-10T08:00:00Z")
     (Some ["2017-06-10T08:00:00Z"; "2017-06-10T08:30:00Z"])
     (Some "2017-06-10") (Some "morning.gpx") None [],
   [[0; 0]; [0; 2]]%Z).

Definition evening : Properties Z (list string) * list (list Z) :=
  (mkProperties (Some "2017-06-10T18:00:00Z")
     (Some ["2017-06-10T18:00:00Z"; "2017-06-10T18:30:00Z"])
     (Some "2017-06-10") (Some "evening.gpx") None [],
   [[5; 5]; [6; 5]]%Z).

Definition sameDate : list (Feature Z) :=
  [LineFeature None morning.1 morning.2; LineFeature None evening.1 evening.2].

(** ** More of util/togj.js *)

(** *** [gpxToJson] *)

(** [s.lastIndexOf(c)] for a single character: the index of its last
    occurrence, [-1] when there is none. *)
Fixpoint lastIndexFrom (c : ascii) (s : string) (i found : Z) : Z :=
  match s with
  | EmptyString => found
  | String a s' =>
      lastIndexFrom c s' (i + 1) (if Ascii.eqb a c then i else found)
  end.

Definition lastIndexOf (c : ascii) (s : string) : Z := lastIndexFrom c s 0 (-1).

(** [s.substr(start)] for [0 <= start]: the rest of [s] from [start] on. *)
Definition substrFrom (start : nat) (s : string) : string :=
  substring start (String.length s - start) s.

(** [gpxFileName.substr(1 + gpxFileName.lastIndexOf('/'))] *)
Definition baseName (gpxFileName : string) : string :=
  substrFrom (Z.to_nat (1 + lastIndexOf "/" gpxFileName)) gpxFileName.

(** How a call of [gpxToJson] ends: with the array it returns, with an
    exception of the script itself, or with the exception that
    [fs.readFileSync], the XML parser or togeojson threw inside it. *)
Inductive Loaded (A : Type) : Type :=
| Returned (a : A)
| Thrown (e : Error)
| LibraryThrown (what : string).

Arguments Returned {A} a.
Arguments Thrown {A} e.
Arguments LibraryThrown {A} what.

Section Ingest.
Context {num : Type}.

(** What [togeojson.gpx] returns for the file's text: its [type] and, for
    each of its features, the feature's [type] and the rest of the
    feature. *)
Record Gpx : Type := mkGpx {
  gpxType : string;
  gpxFeatures : list (string * Feature num)
}.

(** [{ 'type': 'Feature', properties, 'geometry': feature.geometry }] with
    [properties = Object.assign({}, feature.properties, { gpxFileName })]. *)
Definition withFileName (name : string) (f : Feature num) : Feature num :=
  match f with
  | LineFeature _ p c =>
      LineFeature None
        (mkProperties (time p) (coordTimes p) (date p) (Some name)
           (distance p) (rest p)) c
  | MultiLineFeature _ p c =>
      MultiLineFeature None
        (mkProperties (time p) (coordTimes p) (date p) (Some name)
           (distance p) (rest p)) c
  | OtherFeature ty p =>
      OtherFeature ty
        (mkProperties (time p) (coordTimes p) (date p) (Some name)
           (distance p) (rest p))
  end.

(** What [togeojson.gpx(new DOMParser().parseFromString(
    fs.readFileSync(gpxFileName, 'utf8')))] ends in: the exception that
    reading or parsing threw, or the parsed collection. *)
Inductive Parsed : Type :=
| ParseThrows (what : string)
| ParsedGpx (gpx : Gpx).

(** The script's own part of [gpxToJson], once the file is parsed:
<<
    assert.equal(gpx.type, 'FeatureCollection');
    return gpx.features.map(function (feature) {
        assert.equal(feature.type, 'Feature');
        ...
    });
>> *)
Definition fileFeatures (gpxFileName : string) (gpx : Gpx)
    : Result (list (Feature num)) :=
  _ ← assert (String.eqb (gpxType gpx) "FeatureCollection");
  mapM (fun tf : string * Feature num =>
          _ ← assert (String.eqb tf.1 "Feature");
          Ok (withFileName (baseName gpxFileName) tf.2))
       (gpxFeatures gpx).

(** [gpxToJson(gpxFileName)]: what reading and parsing throw leaves the
    function as it is; the parsed collection goes through the assertions
    and the [map]. *)
Definition gpxToJson (gpxFileName : string) (parsed : Parsed)
    : Loaded (list (Feature num)) :=
  match parsed with
  | ParseThrows what => LibraryThrown what
  | ParsedGpx gpx =>
      match fileFeatures gpxFileName gpx with
      | Ok features => Returned features
      | Throw e => Thrown e
      end
  end.

Definition featureFileName (f : Feature num) : option string :=
  match f with
  | LineFeature _ p _ => gpxFileName p
  | MultiLineFeature _ p _ => gpxFileName p
  | OtherFeature _ p => gpxFileName p
  end.

(** [feature.properties.time || feature.properties.date], the value that
    [timeCompare] compares. *)
Definition timeKey (f : Feature num) : option string :=
  orElse (featureTime f) (featureDate f).

(** The LineString that [multiSplit] makes of a part and its timestamps. *)
Definition partWithTimes (p : Properties num (list (list string)))
    (coordinates : list (list num)) (ts : list string) : Feature num :=
  LineFeature None
    (mkProperties (head ts) (Some ts) (date p) (gpxFileName p) (distance p)
       (rest p))
    coordinates.

(** The same for a feature without [coordTimes]. *)
Definition partWithoutTimes (p : Properties num (list (list string)))
    (coordinates : list (list num)) : Feature num :=
  LineFeature None
    (mkProperties (time p) None (date p) (gpxFileName p) (distance p)
       (rest p))
    coordinates.

End Ingest.

Arguments Gpx num : clear implicits.
Arguments Parsed num : clear implicits.

(** What [dateSplit] makes of a LineString: a LineString that has a key
    to sort by, with the day of the key as [date]. *)
Definition isDay {num : Type} (g : Feature num) : Prop :=
  isLineString g = true /\
  exists k, timeKey g = Some k /\ featureDate g = Some (day k).

(** The lines of a feature's geometry: one for a LineString, the parts of
    a MultiLineString. *)
Definition partsOf {num : Type} (f : Feature num) : list (list (list num)) :=
  match f with
  | LineFeature _ _ c => [c]
  | MultiLineFeature _ _ c => c
  | OtherFeature _ _ => []
  end.

(** The order that the sort establishes: both features have a key, and
    the first key is not above the second. *)
Definition keyLe {num : Type} (a b : Feature num) : Prop :=
  exists x y, timeKey a = Some x /\ timeKey b = Some y /\
              String.leb x y = true.

(** Whether the character [c] occurs in [s]. *)
Fixpoint contains (c : ascii) (s : string) : bool :=
  match s with
  | EmptyString => false
  | String a s' => Ascii.eqb a c || contains c s'
  end.

(** The terms that the loop of [distance] adds for one part, in the order
    in which it adds them: the first pairs the last point with itself. *)
Definition steps {num : Type} (host : Host num) (seg : list (LatLng host))
    : list num :=
  match reverse seg with
  | [] => []
  | last :: before =>
      zip_with (Earth_distance host) (last :: last :: before) (last :: before)
  end.

(** ** More of js/gpxmap.js *)

(** *** [search] with a callback that may throw *)

Section SearchThrowing.
Local Open Scope Z_scope.
Context {A : Type}.

(** The loop of [search] again, for a callback that throws on some
    arguments, as [walk => date < walk.dates[0]] does on [undefined]. *)
Fixpoint search_loop_throwing (fuel : nat) (array : list A)
    (pred : option A -> Result bool) (le ri : Z) : Result Z :=
  match fuel with
  | O => Throw OutOfFuel
  | S fuel' =>
      if 1 + le =? ri then Ok ri
      else
        let mi := le + sar (ri - le) 1 in
        b ← pred (get array mi);
        if b : bool
        then search_loop_throwing fuel' array pred le mi
        else search_loop_throwing fuel' array pred mi ri
  end.

Definition search_throwing (fuel : nat) (array : list A)
    (pred : option A -> Result bool) : Result Z :=
  search_loop_throwing fuel array pred (-1) (Z.of_nat (length array)).

End SearchThrowing.

(** *** [yearColour] *)

(** The three numbers that [yearColour] joins into ['hsl(h,s%,l%)'], for
    an integer [idx]:
<<
    170 + 45 * (idx >> 1), ',', 100, '%,', 27 * (1 + idx % 2), '%)'
>>
    [%] is the remainder of the division that truncates. *)
Definition yearColour (idx : Z) : Z * Z * Z :=
  (170 + 45 * sar idx 1, 100, 27 * (1 + Z.rem idx 2))%Z.

(** *** [walkPopup] and [renderSummary] *)

(** An entry of the index of walks, with the members that the lookup of
    a date reads. *)
Record Walk : Type := mkWalk {
  title : string;
  dates : list string;
  distances : list Z
}.

(** [d => date <= d]: a comparison with [undefined] is false. *)
Definition notBefore (date : string) (d : option string) : bool :=
  match d with Some d => String.leb date d | None => false end.

(** [walkPopup(date, walk)] up to the popup that it builds: [None] for the
    [return;] that follows the [console.log], else the walk and the index
    into its [dates] and [distances] from which the title and the text of
    the popup are taken.
<<
    const idx = search(walk.dates, d => date <= d);
    if (walk.dates[idx] !== date) { console.log(...); return; }
>> *)
Definition walkPopup (fuel : nat) (date : string) (walk : option Walk)
    : Result (option (Walk * Z)) :=
  match walk with
  | None => Throw TypeError                   (* [undefined.dates] *)
  | Some w =>
      idx ← search fuel (dates w) (notBefore date);
      if eqStr (get (dates w) idx) (Some date) then Ok (Some (w, idx))
      else Ok None
  end.

(** [walk => date < walk.dates[0]] *)
Definition startsAfter (date : string) (walk : option Walk) : Result bool :=
  match walk with
  | Some w => Ok (ltStr (Some date) (dates w !! 0))
  | None => Throw TypeError                   (* [undefined.dates] *)
  end.

(** What [renderSummary] hands to [renderDetails]: the popup of a walk or
    the summary pane. *)
Inductive Details : Type :=
| WalkDetails (walk : Walk) (idx : Z)
| SummaryDetails.

(** [renderSummary()] with [date] what [selected()] returned:
<<
    if (date) {
        const idx = search(walks, walk => date < walk.dates[0]) - 1;
        const popup = walkPopup(date, walks[idx]);
        if (popup) { return renderDetails(popup); }
    }
    return renderDetails({ 'title': options.title, ... });
>> *)
Definition renderSummary (fuel : nat) (walks : list Walk)
    (date : option string) : Result Details :=
  match date with
  | None => Ok SummaryDetails
  | Some date =>
      if String.eqb date "" then Ok SummaryDetails
      else
        i ← search_throwing fuel walks (startsAfter date);
        popup ← walkPopup fuel date (get walks (i - 1));
        match popup with
        | Some (w, idx) => Ok (WalkDetails w idx)
        | None => Ok SummaryDetails
        end
  end.

(** *** The corners of a bounding box *)

(** The callback of the [flatMap] that collects the bounds of the map:
<<
    const l = bbox.length >> 1;
    [ [ bbox[0], bbox[1] ], [ bbox[l], bbox[1 + l] ] ]
>> *)
Definition corners {V : Type} (bbox : list V) : list (list (option V)) :=
  let l := sar (Z.of_nat (length bbox)) 1 in
  [[get bbox 0; get bbox 1]; [get bbox l; get bbox (1 + l)]%Z].

(** *** [hiddenYear] *)

(** The order of [.sort()] without comparator on strings. *)
Definition compareStrings (a b : string) : Z :=
  if String.ltb a b then (-1)%Z else if String.ltb b a then 1%Z else 0%Z.

(** [[].concat(locationState()['y'] || [])], where the [y] of the state is
    [undefined] or an array of strings, as [hiddenYear] stores it. *)
Definition hiddenYears (y : option (list string)) : list string :=
  default [] y.

(** [hiddenYear(year)]: [0 <= state.indexOf(`${year}`)] *)
Definition hiddenYear (y : option (list string)) (year : string) : bool :=
  bool_decide (year ∈ hiddenYears y).

(** [h[k] = v] on an object that [{}] made, for a boolean [v]: the key
    ['__proto__'] is the accessor of the prototype, and assigning a boolean
    to it adds no property. *)
Definition assign (k : string) (v : bool) (h : gmap string bool)
    : gmap string bool :=
  if String.eqb k "__proto__" then h else <[k := v]> h.

(** [hiddenYear(year, hidden)]: the [y] that it stores.
<<
    const years = state.reduce((h, k) => (h[k] = true, h), {});
    years[year] = hidden;
    const newState = Object.keys(years).filter(k => years[k]).sort();
    locationState({ 'y': newState.length ? newState : void 0 });
>>
    The order in which [Object.keys] lists the keys is left open: the list
    is sorted next. *)
Definition setHiddenYear (y : option (list string)) (year : string)
    (hidden : bool) : option (list string) :=
  let years : gmap string bool :=
    assign year hidden
      (foldl (fun h k => assign k true h) ∅ (hiddenYears y)) in
  let newState :=
    sort compareStrings
      (filter (fun k => years !! k = Some true) (map_to_list years).*1) in
  match newState with [] => None | _ => Some newState end.

(** What [hiddenYear] keeps in the state: nothing, or a list of years
    that is not empty and ascends strictly. *)
Definition storedYears (y : option (list string)) : Prop :=
  match y with
  | None => True
  | Some l => l <> [] /\ StronglySorted (fun a b => String.ltb a b = true) l
  end.

(** An index of two walks, the first of two days. *)
Definition someWalks : list Walk :=
  [mkWalk "Coast" ["2017-06-10"; "2017-06-11"] [12000; 9000]%Z;
   mkWalk "Hills" ["2018-01-01"] [15000]%Z].

(** ** Further inputs *)

(** A run of two LineStrings of one date: the first with timestamps, the
    second with a [time] and without [coordTimes]. *)
Definition afternoon : Properties Z (list string) * list (list Z) :=
  (mkProperties (Some "2017-06-10T15:00:00Z") None (Some "2017-06-10")
     (Some "afternoon.gpx") None [],
   [[3; 3]; [4; 3]]%Z).

Definition timedThenUntimed : list (Feature Z) :=
  [LineFeature None morning.1 morning.2;
   LineFeature None afternoon.1 afternoon.2].

(** The same two recordings as [gpxToJson] returns them. *)
Definition timedAndUntimed : list (Feature Z) :=
  [LineFeature None
     (track (Some "2017-06-10T08:00:00Z")
        (Some ["2017-06-10T08:00:00Z"; "2017-06-10T08:30:00Z"])
        "morning.gpx")
     [[0; 0]; [0; 2]]%Z;
   LineFeature None (track (Some "2017-06-10T15:00:00Z") None "afternoon.gpx")
     [[3; 3]; [4; 3]]%Z].



(** * Part II: facts *)

(** ** [search] *)

Section SearchFacts.
Local Open Scope Z_scope.
Context {A : Type}.
Implicit Types (array : list A) (pred : option A -> bool).

Lemma toInt32_small z : - 2 ^ 31 <= z < 2 ^ 31 -> toInt32 z = z.
Proof.
  intros Hz. unfold toInt32.
  rewrite Z.mod_small by lia. lia.
Qed.

Lemma sar_1_small z : - 2 ^ 31 <= z < 2 ^ 31 -> sar z 1 = z / 2.
Proof.
  intros Hz. unfold sar. rewrite toInt32_small by exact Hz.
  change (1 mod 32) with 1.
  rewrite Z.shiftr_div_pow2 by lia. reflexivity.
Qed.

(** The midpoint lies strictly inside the open interval (le, ri) as long as
    the interval is wider than one and its width fits 31 bits. *)
Lemma mi_between le ri :
  1 + le <> ri -> le < ri -> ri - le < 2 ^ 31 ->
  le < le + sar (ri - le) 1 < ri.
Proof.
  intros Hne Hlt Hw. rewrite sar_1_small by lia.
  assert (1 <= (ri - le) / 2) by (apply Z.div_le_lower_bound; lia).
  assert ((ri - le) / 2 < ri - le) by (apply Z.div_lt; lia).
  lia.
Qed.

Lemma search_loop_returns array pred fuel : forall le ri,
  le < ri -> ri - le < 2 ^ 31 -> ri - le <= Z.of_nat fuel ->
  exists i, search_loop fuel array pred le ri = Ok i /\ le < i <= ri.
Proof.
  induction fuel as [|fuel IH]; intros le ri Hlt Hw Hf; [lia|].
  cbn [search_loop]. destruct (Z.eqb_spec (1 + le) ri) as [E|Hne].
  - exists ri. split; [reflexivity | lia].
  - pose proof (mi_between le ri Hne Hlt Hw) as Hmi.
    cbv zeta. destruct (pred _).
    + destruct (IH le (le + sar (ri - le) 1)) as (i & Hi & Hb); [lia..|].
      exists i. split; [exact Hi | lia].
    + destruct (IH (le + sar (ri - le) 1) ri) as (i & Hi & Hb); [lia..|].
      exists i. split; [exact Hi | lia].
Qed.

Lemma search_loop_threshold array pred t fuel : forall le ri,
  threshold array pred t ->
  -1 <= le < t -> t <= ri <= Z.of_nat (length array) ->
  ri - le < 2 ^ 31 -> ri - le <= Z.of_nat fuel ->
  search_loop fuel array pred le ri = Ok t.
Proof.
  induction fuel as [|fuel IH]; intros le ri Ht Hle Hri Hw Hf; [lia|].
  cbn [search_loop]. destruct (Z.eqb_spec (1 + le) ri) as [E|Hne].
  - f_equal. lia.
  - pose proof (mi_between le ri Hne ltac:(lia) Hw) as Hmi.
    cbv zeta. pose proof Ht as (Hb & Hlo & Hhi).
    destruct (Z_lt_le_dec (le + sar (ri - le) 1) t) as [Hm|Hm].
    + rewrite Hlo by lia. apply IH; [exact Ht|lia..].
    + rewrite Hhi by lia. apply IH; [exact Ht|lia..].
Qed.

End SearchFacts.

Section SearchBounds.
Local Open Scope Z_scope.

(** With [pred] constantly true and [le = -1], a right end below [-1] never
    comes back: [(ri - le) >> 1] stays negative, and [-1 >> 1] is [-1]. *)
Lemma search_loop_stuck (array : list unit) fuel : forall ri : Z,
  (- 2 ^ 31 <= ri + 1) -> (ri < -1) ->
  search_loop fuel array (fun _ => true) (-1) ri = Throw OutOfFuel.
Proof.
  induction fuel as [|fuel IH]; intros ri Hlo Hhi; [reflexivity|].
  cbn [search_loop]. destruct (Z.eqb_spec (1 + -1) ri) as [E|_]; [lia|].
  cbv zeta. rewrite sar_1_small by lia.
  assert (- 2 ^ 31 <= (ri - -1) / 2) by (apply Z.div_le_lower_bound; lia).
  assert ((ri - -1) / 2 < 0) by (apply Z.div_lt_upper_bound; lia).
  apply IH; lia.
Qed.

Lemma huge_length : Z.of_nat (length huge) = 2147483647.
Proof. unfold huge. rewrite length_replicate. apply Z2Nat.id. lia. Qed.

(** On 2^31 - 1 elements the first width, 2^31, wraps to -2^31 under [>>];
    the first midpoint is -1073741825 and the loop never ends. *)
Lemma search_huge_diverges fuel :
  search fuel huge (fun _ => true) = Throw OutOfFuel.
Proof.
  destruct fuel as [|fuel]; [reflexivity|].
  unfold search. rewrite huge_length. cbn [search_loop].
  change (1 + -1 =? 2147483647) with false. cbv iota zeta.
  change (sar (2147483647 - -1) 1) with (-1073741824).
  apply search_loop_stuck; lia.
Qed.

(** X25: on an array of fewer than 2^31 - 1 elements whose elements make
    [pred] false below index [t] and true from [t] on, [search] returns
    [t] (with any fuel above the length): [pred] holds at the returned
    index unless it is [array.length], fails just before it unless it is
    0, and no other index is such a threshold. *)
Theorem search_finds_threshold {A : Type} (array : list A)
    (pred : option A -> bool) (t : Z) (fuel : nat) :
  (Z.of_nat (length array) < 2 ^ 31 - 1) ->
  threshold array pred t ->
  (length array < fuel)%nat ->
  search fuel array pred = Ok t /\
  (t = Z.of_nat (length array) \/ pred (get array t) = true) /\
  (t = 0 \/ pred (get array (t - 1)) = false) /\
  (forall t', threshold array pred t' -> t' = t).
Proof.
  intros Hlen Ht Hfuel.
  assert (Hs : forall t', threshold array pred t' ->
            search fuel array pred = Ok t').
  { intros t' Ht'. pose proof Ht' as (Hb & _ & _).
    apply search_loop_threshold; [exact Ht'|lia..]. }
  split; [apply Hs, Ht|].
  destruct Ht as (Hb & Hlo & Hhi).
  split; [|split].
  - destruct (Z.eq_dec t (Z.of_nat (length array))); [left; assumption|].
    right. apply Hhi. lia.
  - destruct (Z.eq_dec t 0); [left; assumption|].
    right. apply Hlo. lia.
  - intros t' Ht'. apply Hs in Ht'.
    rewrite (Hs t (conj Hb (conj Hlo Hhi))) in Ht'.
    congruence.
Qed.

Lemma search_finds_threshold_witness :
  search 5 someDates (atLeast 4) = Ok 2.
Proof.
  apply (search_finds_threshold someDates (atLeast 4) 2 5%nat).
  - vm_compute. reflexivity.
  - split; [cbn; lia|]. split; intros i Hi.
    + assert (i = 0 \/ i = 1) as [-> | ->] by lia; reflexivity.
    + cbn in Hi. assert (i = 2 \/ i = 3) as [-> | ->] by lia; reflexivity.
  - cbn. lia.
Defined.

(** C1: the code misses what the claim and the comment on [search] say
    ("we find 0 <= i <= array.length such that !pred(i - 1) && pred(i)"):
    [new Array(2147483647)] with a predicate that is true everywhere has
    the threshold 0, and [search] never returns it: [(ri - le) >> 1] takes
    the first width, 2^31, for -2^31, and the loop runs for ever. *)
Lemma search_misses_threshold_of_huge :
  threshold huge (fun _ => true) 0 /\
  ~ (exists fuel, search fuel huge (fun _ => true) = Ok 0).
Proof.
  split.
  - split; [rewrite huge_length; lia|]. split; [intros i Hi; lia|reflexivity].
  - intros [fuel H]. rewrite search_huge_diverges in H. discriminate.
Qed.

(** X26: on an array of fewer than 2^31 - 1 elements and for any
    predicate at all, [search] returns (with any fuel above the length)
    some [i] with [0 <= i <= array.length], because the midpoint lies
    strictly between [le] and [ri] in every round. *)
Theorem search_terminates {A : Type} (array : list A)
    (pred : option A -> bool) :
  (Z.of_nat (length array) < 2 ^ 31 - 1) ->
  (forall fuel, (length array < fuel)%nat ->
     exists i, search fuel array pred = Ok i /\
               (0 <= i <= Z.of_nat (length array))) /\
  (forall le ri : Z,
     (-1 <= le) -> (ri <= Z.of_nat (length array)) -> (le < ri) ->
     (1 + le) <> ri ->
     (le < le + sar (ri - le) 1 < ri)).
Proof.
  intros Hlen. split.
  - intros fuel Hfuel.
    destruct (search_loop_returns array pred fuel (-1) (Z.of_nat (length array)))
      as (i & Hi & Hb); [lia..|].
    exists i. split; [exact Hi | lia].
  - intros le ri Hle Hri Hlt Hne. apply mi_between; lia.
Qed.

Lemma search_terminates_witness :
  exists i, search 5 someDates (fun _ => false) = Ok i /\ (0 <= i <= 4).
Proof.
  refine (proj1 (search_terminates someDates (fun _ => false) _) 5%nat _).
  - vm_compute. reflexivity.
  - cbn. lia.
Defined.

(** C10: the code misses the termination that the claim and the comment
    on [search] say ("we find 0 <= i <= array.length"): on
    [new Array(2147483647)] with a predicate that is true everywhere no
    amount of fuel lets [search] return an index, by the same 32-bit [>>]
    in the midpoint as for C1. *)
Lemma search_loops_on_huge :
  ~ (exists fuel i, search fuel huge (fun _ => true) = Ok i /\
                    (0 <= i <= Z.of_nat (length huge))).
Proof.
  intros (fuel & i & H & _). rewrite search_huge_diverges in H. discriminate.
Qed.

End SearchBounds.

(** ** The [Result] monad *)

Lemma mapM_Result_cons {X Y : Type} (f : X -> Result Y) (x : X) (l : list X) :
  mapM f (x :: l) = (y ← f x; k ← mapM f l; Ok (y :: k)).
Proof. reflexivity. Qed.

Lemma bind_Ok {X Y : Type} (x : X) (k : X -> Result Y) : (Ok x ≫= k) = k x.
Proof. reflexivity. Qed.

Lemma bind_Throw {X Y : Type} (e : Error) (k : X -> Result Y) :
  (Throw e ≫= k) = Throw e.
Proof. reflexivity. Qed.

(** ** [forEachUniqueRange] *)

Section RangeFacts.
Context {A : Type} (equal : A -> A -> bool).
Implicit Types (array : list A) (runs : list (nat * nat)).

Lemma slice_length array lo hi :
  lo <= hi <= length array -> length (slice lo hi array) = hi - lo.
Proof.
  intros H. unfold slice. rewrite length_take, length_drop. lia.
Qed.

Lemma slice_app array lo mid hi :
  lo <= mid <= hi ->
  slice lo mid array ++ slice mid hi array = slice lo hi array.
Proof.
  intros H. unfold slice.
  replace (drop mid array) with (drop (mid - lo) (drop lo array))
    by (rewrite drop_drop; f_equal; lia).
  rewrite take_take_drop. f_equal. lia.
Qed.

Lemma slice_all array : slice 0 (length array) array = array.
Proof. unfold slice. rewrite drop_0. apply take_ge. lia. Qed.

Lemma slice_lookup array lo hi i :
  i < hi - lo -> slice lo hi array !! i = array !! (lo + i).
Proof.
  intros H. unfold slice. rewrite lookup_take_lt by exact H.
  apply lookup_drop.
Qed.

Lemma chain_le runs : forall from to, chain from runs to -> from <= to.
Proof.
  induction runs as [|[lo hi] runs IH]; intros from to H; cbn in H.
  - lia.
  - destruct H as (-> & Hlt & H). apply IH in H. lia.
Qed.

Lemma chain_concat array runs : forall from to,
  chain from runs to ->
  concat (map (fun r => slice r.1 r.2 array) runs) = slice from to array.
Proof.
  induction runs as [|[lo hi] runs IH]; intros from to H; cbn in H.
  - subst to. unfold slice. rewrite Nat.sub_diag. reflexivity.
  - destruct H as (-> & Hlt & H). cbn.
    rewrite (IH _ _ H). apply slice_app.
    apply chain_le in H. lia.
Qed.

(** Where the [k]-th interval of a chain lies, and what follows it. *)
Lemma chain_lookup runs : forall from to k r,
  chain from runs to -> runs !! k = Some r ->
  from <= r.1 /\ r.1 < r.2 /\ r.2 <= to /\ chain r.2 (drop (S k) runs) to.
Proof.
  induction runs as [|[lo hi] runs IH]; intros from to k r H Hk;
    [discriminate|].
  cbn in H. destruct H as (-> & Hlt & H).
  destruct k as [|k]; cbn in Hk.
  - injection Hk as <-. cbn. pose proof (chain_le _ _ _ H).
    rewrite drop_0. repeat split; try lia. exact H.
  - destruct (IH _ _ _ _ H Hk) as (H1 & H2 & H3 & H4).
    repeat split; try lia. exact H4.
Qed.

(** The intervals of a chain cover each index once. *)
Lemma chain_cover runs : forall from to i,
  chain from runs to -> from <= i < to ->
  exists k r, runs !! k = Some r /\ r.1 <= i < r.2.
Proof.
  induction runs as [|[lo hi] runs IH]; intros from to i H Hi; cbn in H.
  - lia.
  - destruct H as (-> & Hlt & H).
    destruct (decide (i < hi)) as [Hlo|Hhi].
    + exists 0, (from, hi). split; [reflexivity | cbn; lia].
    + destruct (IH hi to i H ltac:(lia)) as (k & r & Hk & Hr).
      exists (S k), r. split; assumption.
Qed.

Lemma chain_disjoint runs from to k k' r r' i :
  chain from runs to ->
  runs !! k = Some r -> runs !! k' = Some r' ->
  r.1 <= i < r.2 -> r'.1 <= i < r'.2 -> k = k'.
Proof.
  intros H Hk Hk' Hi Hi'.
  assert (Hord : forall a b ra rb, a < b ->
            runs !! a = Some ra -> runs !! b = Some rb -> ra.2 <= rb.1).
  { intros a b ra rb Hab Ha Hb.
    destruct (chain_lookup _ _ _ _ _ H Ha) as (_ & _ & _ & Hc).
    assert (Hb' : drop (S a) runs !! (b - S a) = Some rb).
    { rewrite lookup_drop. rewrite <- Hb. f_equal. lia. }
    destruct (chain_lookup _ _ _ _ _ Hc Hb') as (Hle & _). exact Hle. }
  destruct (Nat.lt_trichotomy k k') as [Hlt|[Heq|Hgt]]; [|exact Heq|].
  - pose proof (Hord _ _ _ _ Hlt Hk Hk'). lia.
  - pose proof (Hord _ _ _ _ Hgt Hk' Hk). lia.
Qed.

(** The inner loop stops at the end of the run that starts at [lo]. *)
Lemma scan_run array lo fuel : forall hi,
  lo < hi <= length array -> length array - hi < fuel ->
  (forall i x y, lo < i < hi ->
     array !! lo = Some x -> array !! i = Some y -> equal x y = true) ->
  exists hi', scan equal fuel array lo hi = Ok hi' /\ hi <= hi' /\
              isRun equal array (lo, hi').
Proof.
  induction fuel as [|fuel IH]; intros hi Hhi Hfuel Heq; [lia|].
  cbn [scan]. destruct (Nat.eqb_spec hi (length array)) as [E|Hne].
  - exists hi. split; [reflexivity|]. split; [lia|].
    split; [cbn; lia|]. split; [exact Heq|].
    intros x y _ Hy. cbn in Hy. apply lookup_lt_Some in Hy. lia.
  - destruct (lookup_lt_is_Some_2 array lo ltac:(lia)) as [x Hx].
    destruct (lookup_lt_is_Some_2 array hi ltac:(lia)) as [y Hy].
    rewrite Hx, Hy. destruct (equal x y) eqn:Exy.
    + destruct (IH (S hi)) as (hi' & Hs & Hle & Hrun); [lia..| |].
      * intros i x' y' Hi Hx' Hy'.
        destruct (decide (i = hi)) as [->|Hi'].
        -- congruence.
        -- apply (Heq i); [lia|assumption..].
      * exists hi'. split; [exact Hs|]. split; [lia|exact Hrun].
    + exists hi. split; [reflexivity|]. split; [lia|].
      split; [cbn; lia|]. split; [exact Heq|].
      intros x' y' Hx' Hy'. cbn in Hx', Hy'. congruence.
Qed.

(** The outer loop calls [func] on the runs from [lo] on, in order, and
    stops at the first call that throws. *)
Lemma ranges_loop_runs array fuel : forall lo,
  lo <= length array -> length array - lo < fuel ->
  exists runs,
    chain lo runs (length array) /\ Forall (isRun equal array) runs /\
    forall (B : Type) (func : nat -> nat -> list A -> Result B) res,
      ranges_loop equal fuel array func lo res =
      (rs ← mapM (fun r => func r.1 r.2 array) runs; Ok (res ++ rs)).
Proof.
  induction fuel as [|fuel IH]; intros lo Hlo Hfuel; [lia|].
  destruct (Nat.eqb_spec lo (length array)) as [E|Hne].
  - exists []. split; [exact E|]. split; [constructor|].
    intros B func res. cbn. rewrite (proj2 (Nat.eqb_eq _ _) E).
    rewrite app_nil_r. reflexivity.
  - destruct (scan_run array lo (length array) (1 + lo))
      as (hi & Hs & Hle & Hrun); [lia..| |].
    { intros i x y Hi. lia. }
    pose proof Hrun as ((_ & Hhi) & _). cbn in Hhi.
    destruct (IH hi) as (runs & Hc & Hruns & Hf); [lia..|].
    exists ((lo, hi) :: runs). split; [cbn; repeat split; [lia|exact Hc]|].
    split; [constructor; assumption|].
    intros B func res. cbn [ranges_loop].
    rewrite (proj2 (Nat.eqb_neq _ _) Hne), Hs. cbn.
    destruct (func lo hi array) as [r|e]; cbn; [|reflexivity].
    rewrite Hf. destruct (mapM _ runs) as [rs|e]; cbn; [|reflexivity].
    rewrite <- app_assoc. reflexivity.
Qed.

Lemma mapM_Ok_pair runs :
  mapM (M := Result) (fun r : nat * nat => Ok (r.1, r.2)) runs = Ok runs.
Proof.
  induction runs as [|[lo hi] runs IH]; [reflexivity|].
  cbn. cbn in IH. rewrite IH. reflexivity.
Qed.

Lemma forEachUniqueRange_ranges array :
  chain 0 (ranges equal array) (length array) /\
  Forall (isRun equal array) (ranges equal array) /\
  forall (B : Type) (func : nat -> nat -> list A -> Result B),
    forEachUniqueRange equal array func =
    mapM (fun r => func r.1 r.2 array) (ranges equal array).
Proof.
  destruct (ranges_loop_runs array (S (length array)) 0)
    as (runs & Hc & Hruns & Hf); [lia..|].
  assert (E : ranges equal array = runs).
  { unfold ranges, forEachUniqueRange. rewrite Hf.
    rewrite mapM_Ok_pair. reflexivity. }
  rewrite E. split; [exact Hc|]. split; [exact Hruns|].
  intros B func. unfold forEachUniqueRange. rewrite Hf.
  destruct (mapM _ runs); reflexivity.
Qed.

End RangeFacts.

(** C2: for every array and every [equal], [forEachUniqueRange] calls
    [func] once per interval of [ranges], in order; these intervals follow
    one another from 0 to [array.length], each is a run and none is empty,
    their slices concatenated give the array back, every index lies in
    exactly one of them, and on the empty array the result is the empty
    list. *)
Theorem forEachUniqueRange_partitions {A B : Type} (equal : A -> A -> bool)
    (array : list A) (func : nat -> nat -> list A -> Result B) :
  forEachUniqueRange equal array func =
    mapM (fun r => func r.1 r.2 array) (ranges equal array) /\
  chain 0 (ranges equal array) (length array) /\
  Forall (fun r => isRun equal array r /\ slice r.1 r.2 array <> [])
    (ranges equal array) /\
  concat (map (fun r => slice r.1 r.2 array) (ranges equal array)) = array /\
  (forall i, i < length array ->
     exists k r, ranges equal array !! k = Some r /\ r.1 <= i < r.2 /\
       forall k' r', ranges equal array !! k' = Some r' ->
                     r'.1 <= i < r'.2 -> k' = k) /\
  forEachUniqueRange equal [] func = Ok [].
Proof.
  destruct (forEachUniqueRange_ranges equal array) as (Hc & Hruns & Hf).
  split; [apply Hf|]. split; [exact Hc|]. split; [|split; [|split]].
  - eapply Forall_impl; [exact Hruns|]. intros r Hrun. split; [exact Hrun|].
    destruct Hrun as (Hr & _).
    intros E. apply (f_equal length) in E.
    rewrite slice_length in E by lia. cbn in E. lia.
  - rewrite (chain_concat array _ _ _ Hc). apply slice_all.
  - intros i Hi.
    destruct (chain_cover _ _ _ i Hc ltac:(lia)) as (k & r & Hk & Hr).
    exists k, r. split; [exact Hk|]. split; [exact Hr|].
    intros k' r' Hk' Hr'. eapply chain_disjoint; eauto.
  - reflexivity.
Qed.

(** ** [mergeLines] *)

Section MergeFacts.
Context {num : Type}.
Implicit Types (walks : list (Properties num (list string) * list (list num))).

Lemma walkTimes_Ok (w : Properties num (list string) * list (list num)) ts :
  walkTimes w = Ok ts <->
  coordTimes w.1 = Some ts /\ length ts = length w.2.
Proof.
  unfold walkTimes. destruct (coordTimes w.1) as [ts'|]; [|split; [|intros []]; discriminate].
  destruct (Nat.eqb_spec (length ts') (length w.2)) as [Hlen|Hlen]; cbn.
  - split; [intros [= <-]; split; [reflexivity | exact Hlen]|].
    intros [[= <-] _]. reflexivity.
  - split; [discriminate|]. intros [[= <-] H]. contradiction.
Qed.

Lemma walkTimes_Throw (w : Properties num (list string) * list (list num)) e :
  walkTimes w = Throw e -> is_Some (coordTimes w.1) -> e = AssertionError.
Proof.
  unfold walkTimes. intros H [ts Hw]. rewrite Hw in H.
  destruct (length ts =? length w.2); cbn in H; congruence.
Qed.

(** Every element carries [coordTimes], as long as its positions. *)
Lemma mapM_walkTimes_Ok walks tss :
  Forall2 (fun w ts => coordTimes w.1 = Some ts /\ length ts = length w.2)
    walks tss ->
  mapM walkTimes walks = Ok tss.
Proof.
  induction 1 as [|w ts walks tss Hw _ IH]; [reflexivity|].
  rewrite mapM_Result_cons, IH. apply walkTimes_Ok in Hw. rewrite Hw.
  reflexivity.
Qed.

Lemma mapM_walkTimes_inv walks : forall tss,
  mapM walkTimes walks = Ok tss ->
  Forall2 (fun w ts => coordTimes w.1 = Some ts /\ length ts = length w.2)
    walks tss.
Proof.
  induction walks as [|w walks IH]; intros tss H.
  - injection H as <-. constructor.
  - rewrite mapM_Result_cons in H.
    destruct (walkTimes w) as [ts|] eqn:Hw; [|discriminate].
    destruct (mapM walkTimes walks) as [tss'|] eqn:Hm; [|discriminate].
    injection H as <-. constructor; [apply walkTimes_Ok, Hw|].
    apply IH. reflexivity.
Qed.

Lemma mapM_walkTimes_Throw walks : forall e,
  mapM walkTimes walks = Throw e ->
  Forall (fun w => is_Some (coordTimes w.1)) walks ->
  e = AssertionError.
Proof.
  induction walks as [|w walks IH]; intros e H Hall; [discriminate|].
  apply Forall_cons in Hall as [Hw Hall].
  rewrite mapM_Result_cons in H.
  destruct (walkTimes w) as [ts|e'] eqn:Hts.
  - destruct (mapM walkTimes walks) as [tss'|e'] eqn:Hm; [discriminate|].
    injection H as <-. apply IH; [reflexivity | exact Hall].
  - injection H as <-. eapply walkTimes_Throw; eassumption.
Qed.

Lemma mapM_asLine (fs : list (Feature num)) walks :
  Forall2 (fun f w => exists b, f = LineFeature b w.1 w.2) fs walks ->
  mapM asLine fs = Some walks.
Proof.
  intros H. apply mapM_Some_2. eapply Forall2_impl; [exact H|].
  intros f [p c] [b ->]. reflexivity.
Qed.

(** On two indices or more apart and LineStrings in between, [mergeLines]
    takes its second branch. *)
Lemma mergeLines_lines lo hi (features : list (Feature num)) first others :
  2 <= hi - lo ->
  Forall2 (fun f w => exists b, f = LineFeature b w.1 w.2)
    (slice lo hi features) (first :: others) ->
  mergeLines lo hi features =
  match coordTimes first.1 with
  | Some _ =>
      tss ← mapM walkTimes (first :: others);
      Ok (Some (MultiLineFeature None
            (mkProperties (tss !! 0 ≫= head) (Some tss) (date first.1)
               None None [])
            ((first :: others).*2)))
  | None =>
      Ok (Some (MultiLineFeature None
            (mkProperties None None (date first.1) None None [])
            ((first :: others).*2)))
  end.
Proof.
  intros Hrun Hlines.
  unfold mergeLines. rewrite (mapM_asLine _ _ Hlines).
  destruct (Nat.leb_spec (hi - lo) 1) as [Hle|_]; [lia|]. reflexivity.
Qed.

End MergeFacts.

(** C7: a run of exactly one feature is returned as it is, the very same
    feature: a LineString stays a LineString and no property changes. *)
Theorem mergeLines_single {num : Type} (features : list (Feature num))
    (lo hi : nat) (f : Feature num) :
  hi - lo = 1 -> features !! lo = Some f ->
  mergeLines lo hi features = Ok (Some f) /\
  (forall b p c, f = LineFeature b p c ->
     mergeLines lo hi features = Ok (Some (LineFeature b p c))).
Proof.
  intros Hrun Hf. unfold mergeLines. rewrite Hrun, Hf. cbn.
  split; [reflexivity|]. intros b p c ->. reflexivity.
Qed.

Lemma mergeLines_single_witness :
  mergeLines 0 1 [overnight; shortTimes] = Ok (Some overnight).
Proof.
  apply (mergeLines_single [overnight; shortTimes] 0 1 overnight);
    reflexivity.
Defined.

(** [slice.map] stops at the first element whose callback throws. *)
Lemma mapM_walkTimes_stops {num : Type}
    (before : list (Properties num (list string) * list (list num)))
    (w : Properties num (list string) * list (list num))
    (after : list (Properties num (list string) * list (list num)))
    (e : Error) :
  Forall (fun v => exists ts, coordTimes v.1 = Some ts /\
                              length ts = length v.2) before ->
  walkTimes w = Throw e ->
  mapM walkTimes (before ++ w :: after) = Throw e.
Proof.
  intros Hbefore Hw. induction Hbefore as [|v before (ts & Hts) _ IH].
  - cbn [app]. rewrite mapM_Result_cons, Hw. reflexivity.
  - cbn [app]. rewrite mapM_Result_cons, IH.
    rewrite (proj2 (walkTimes_Ok v ts) Hts). reflexivity.
Qed.

(** C5, as amended: a run of two or more LineString features is merged
    into one MultiLineString feature with the parts in run order and the
    first element's [date], provided that, when the first element carries
    [coordTimes], every element carries [coordTimes] as long as its
    positions: the result's [coordTimes] are then the elements' in order
    and its [time] is the first element's first timestamp, and when the
    first element has no [coordTimes] the result has none.  When the first
    element carries [coordTimes] and another element does not carry them
    as long as its positions, no feature is returned: the merge throws at
    the first such element, a TypeError when it has no [coordTimes], the
    assertion on the lengths when it has. *)
Theorem mergeLines_merges {num : Type} (lo hi : nat)
    (features : list (Feature num))
    (first : Properties num (list string) * list (list num))
    (others : list (Properties num (list string) * list (list num))) :
  2 <= hi - lo ->
  Forall2 (fun f w => exists b, f = LineFeature b w.1 w.2)
    (slice lo hi features) (first :: others) ->
  let walks := first :: others in
  let aligned := fun tss =>
    Forall2 (fun w ts => coordTimes w.1 = Some ts /\ length ts = length w.2)
      walks tss in
  (coordTimes first.1 = None ->
     mergeLines lo hi features =
     Ok (Some (MultiLineFeature None
                 (mkProperties None None (date first.1) None None [])
                 (walks.*2)))) /\
  (is_Some (coordTimes first.1) ->
     (forall tss, aligned tss ->
        mergeLines lo hi features =
        Ok (Some (MultiLineFeature None
                    (mkProperties (coordTimes first.1 ≫= head) (Some tss)
                       (date first.1) None None [])
                    (walks.*2)))) /\
     (~ (exists tss, aligned tss) ->
        exists e, mergeLines lo hi features = Throw e /\
          (Forall (fun w => is_Some (coordTimes w.1)) walks ->
           e = AssertionError)) /\
     (forall before w after,
        walks = before ++ w :: after ->
        Forall (fun v => exists ts, coordTimes v.1 = Some ts /\
                                    length ts = length v.2) before ->
        (coordTimes w.1 = None ->
         mergeLines lo hi features = Throw TypeError) /\
        (forall ts, coordTimes w.1 = Some ts -> length ts <> length w.2 ->
           mergeLines lo hi features = Throw AssertionError))).
Proof.
  intros Hrun Hlines walks aligned.
  pose proof (mergeLines_lines lo hi features first others Hrun Hlines) as Hm.
  fold walks in Hm.
  split.
  - intros Hnone. rewrite Hm, Hnone. reflexivity.
  - intros [ts0 Hsome]. rewrite Hm, Hsome. split; [|split].
    + intros tss Hal. rewrite (mapM_walkTimes_Ok _ _ Hal). cbn.
      unfold aligned, walks in Hal.
      apply Forall2_cons_inv_l in Hal as (ts & tss' & [Hts _] & _ & ->).
      rewrite Hsome in Hts. injection Hts as <-. reflexivity.
    + intros Hnot. destruct (mapM walkTimes walks) as [tss|e] eqn:Hw.
      * exfalso. apply Hnot. exists tss. apply mapM_walkTimes_inv, Hw.
      * exists e. split; [reflexivity|].
        intros Hall. eapply mapM_walkTimes_Throw; eassumption.
    + intros before w after -> Hbefore. split.
      * intros Hnone.
        rewrite (mapM_walkTimes_stops before w after TypeError Hbefore);
          [reflexivity|].
        unfold walkTimes. rewrite Hnone. reflexivity.
      * intros ts Hts Hlen.
        rewrite (mapM_walkTimes_stops before w after AssertionError Hbefore);
          [reflexivity|].
        unfold walkTimes. rewrite Hts.
        rewrite (proj2 (Nat.eqb_neq _ _) Hlen). reflexivity.
Qed.

Lemma mergeLines_merges_witness :
  mergeLines 0 2 sameDate =
  Ok (Some (MultiLineFeature None
              (mkProperties (Some "2017-06-10T08:00:00Z")
                 (Some [["2017-06-10T08:00:00Z"; "2017-06-10T08:30:00Z"];
                        ["2017-06-10T18:00:00Z"; "2017-06-10T18:30:00Z"]])
                 (Some "2017-06-10") None None [])
              [[[0; 0]; [0; 2]]; [[5; 5]; [6; 5]]]%Z)).
Proof.
  refine (proj1 (proj2 (mergeLines_merges 0 2 sameDate morning [evening] _ _)
                   _) _ _).
  - cbn. lia.
  - repeat constructor; exists None; reflexivity.
  - eexists. reflexivity.
  - repeat constructor.
Defined.

(** C5 fails as stated: [timedThenUntimed] is a run of two LineStrings of
    one date whose first element carries [coordTimes] and whose second
    does not; [mergeLines] reads [coordTimes.length] of the second and
    throws a TypeError instead of returning a feature.  The two recordings
    reach [mergeLines] in this order through the script, which ends in the
    same TypeError. *)
Lemma mergeLines_throws_on_untimed :
  map isLineString timedThenUntimed = [true; true] /\
  map featureDate timedThenUntimed =
    [Some "2017-06-10"; Some "2017-06-10"] /\
  map hasCoordTimes timedThenUntimed = [true; false] /\
  mergeLines 0 2 timedThenUntimed = Throw TypeError /\
  pipeline planarHost timedAndUntimed = Throw TypeError.
Proof. repeat split. Qed.

(** ** [dateSplit] *)

Lemma sameDay_true lhs rhs : sameDay lhs rhs = true <-> day lhs = day rhs.
Proof. unfold sameDay. apply String.eqb_eq. Qed.

Lemma sameDay_false lhs rhs : sameDay lhs rhs = false <-> day lhs <> day rhs.
Proof. unfold sameDay. apply String.eqb_neq. Qed.

Lemma mapM_Ok_Forall2 {X Y : Type} (f : X -> Result Y) (P : Y -> X -> Prop)
    (l : list X) :
  Forall (fun x => exists y, f x = Ok y /\ P y x) l ->
  exists ys, mapM f l = Ok ys /\ Forall2 P ys l.
Proof.
  induction 1 as [|x l (y & Hy & HP) _ (ys & Hys & IH)].
  - exists []. split; [reflexivity | constructor].
  - exists (y :: ys). rewrite mapM_Result_cons, Hy, Hys.
    split; [reflexivity | constructor; assumption].
Qed.

Lemma chain_next runs : forall from to k r r',
  chain from runs to -> runs !! k = Some r -> runs !! S k = Some r' ->
  r'.1 = r.2.
Proof.
  intros from to k r r' Hc Hk Hk'.
  destruct (chain_lookup _ _ _ _ _ Hc Hk) as (_ & _ & _ & Hd).
  assert (E : drop (S k) runs !! 0 = Some r').
  { rewrite lookup_drop, Nat.add_0_r. exact Hk'. }
  destruct (drop (S k) runs) as [|[lo hi] rest]; [discriminate|].
  injection E as <-. cbn in Hd. destruct Hd as (-> & _). reflexivity.
Qed.

(** A sequence of timestamps of one day followed by timestamps of another
    day has exactly two runs. *)
Lemma runs_of_two_days (ts1 ts2 : list string) (d1 d2 : string) runs :
  ts1 <> [] -> ts2 <> [] ->
  Forall (fun t => day t = d1) ts1 -> Forall (fun t => day t = d2) ts2 ->
  d1 <> d2 ->
  chain 0 runs (length (ts1 ++ ts2)) ->
  Forall (isRun sameDay (ts1 ++ ts2)) runs ->
  runs = [(0, length ts1); (length ts1, length (ts1 ++ ts2))].
Proof.
  intros Hne1 Hne2 Hd1 Hd2 Hd Hc Hruns.
  set (ts := ts1 ++ ts2) in *.
  assert (Hm : 0 < length ts1) by (destruct ts1; [contradiction | cbn; lia]).
  assert (Hn : length ts = length ts1 + length ts2)
    by (unfold ts; apply length_app).
  assert (Hn2 : 0 < length ts2) by (destruct ts2; [contradiction | cbn; lia]).
  assert (Hl : forall i x, i < length ts1 -> ts !! i = Some x -> day x = d1).
  { intros i x Hi Hx. unfold ts in Hx. rewrite lookup_app_l in Hx by exact Hi.
    eapply (proj1 (Forall_lookup _ _) Hd1); exact Hx. }
  assert (Hr : forall i x, length ts1 <= i -> ts !! i = Some x -> day x = d2).
  { intros i x Hi Hx. unfold ts in Hx. rewrite lookup_app_r in Hx by exact Hi.
    eapply (proj1 (Forall_lookup _ _) Hd2); exact Hx. }
  assert (Hget : forall i, i < length ts -> exists x, ts !! i = Some x).
  { intros i Hi. apply lookup_lt_is_Some_2. exact Hi. }
  destruct runs as [|[lo hi] rest]; cbn in Hc; [lia|].
  destruct Hc as (-> & Hlt & Hc).
  apply Forall_cons in Hruns as [((_ & Hhi) & Hhom & Hmax) Hruns].
  cbn in Hhi, Hhom, Hmax.
  destruct (Hget 0 ltac:(lia)) as [x0 Hx0].
  assert (hi = length ts1) as ->.
  { destruct (Nat.lt_trichotomy hi (length ts1)) as [H|[H|H]]; [|exact H|].
    - destruct (Hget hi ltac:(lia)) as [y Hy].
      pose proof (Hmax _ _ Hx0 Hy) as Hf. apply sameDay_false in Hf.
      rewrite (Hl 0 x0 Hm Hx0), (Hl hi y H Hy) in Hf. contradiction.
    - destruct (Hget (length ts1) ltac:(lia)) as [y Hy].
      pose proof (Hhom (length ts1) x0 y (conj Hm H) Hx0 Hy) as Ht.
      apply sameDay_true in Ht.
      rewrite (Hl 0 x0 Hm Hx0), (Hr (length ts1) y (Nat.le_refl _) Hy) in Ht.
      contradiction. }
  destruct rest as [|[lo2 hi2] rest]; cbn in Hc; [lia|].
  destruct Hc as (-> & Hlt2 & Hc).
  apply Forall_cons in Hruns as [((_ & Hhi2) & _ & Hmax2) Hruns].
  cbn in Hhi2, Hmax2.
  assert (hi2 = length ts) as ->.
  { destruct (decide (hi2 = length ts)) as [H|H]; [exact H|].
    destruct (Hget (length ts1) ltac:(lia)) as [x Hx].
    destruct (Hget hi2 ltac:(lia)) as [y Hy].
    pose proof (Hmax2 _ _ Hx Hy) as Hf. apply sameDay_false in Hf.
    rewrite (Hr (length ts1) x (Nat.le_refl _) Hx) in Hf.
    rewrite (Hr hi2 y ltac:(lia) Hy) in Hf.
    contradiction. }
  destruct rest as [|[lo3 hi3] rest]; [reflexivity|].
  cbn in Hc. destruct Hc as (-> & Hlt3 & Hc). apply chain_le in Hc. lia.
Qed.

Section DateSplitFacts.
Context {num : Type}.
Variables (p : Properties num (list string)) (ts : list string)
  (coordinates : list (list num)).

Lemma daySegment_run r :
  isRun sameDay ts r ->
  exists g, daySegment p ts coordinates r.1 r.2 = Ok g /\ isDaySegment p ts coordinates g r.
Proof.
  intros ((Hlt & Hhi) & Hhom & _).
  destruct (lookup_lt_is_Some_2 ts r.1 ltac:(lia)) as [t Ht].
  assert (Hhead : head (slice r.1 r.2 ts) = Some t).
  { rewrite head_lookup, slice_lookup by lia. rewrite Nat.add_0_r. exact Ht. }
  unfold daySegment. cbv zeta. rewrite Hhead.
  eexists. split; [reflexivity|]. exists t. split; [exact Ht|].
  split; [reflexivity|].
  apply Forall_lookup. intros j t' Hj.
  assert (Hjlt : j < r.2 - r.1).
  { apply lookup_lt_Some in Hj. rewrite slice_length in Hj by lia. exact Hj. }
  rewrite slice_lookup in Hj by exact Hjlt.
  destruct j as [|j].
  - rewrite Nat.add_0_r in Hj. congruence.
  - symmetry. apply sameDay_true. apply (Hhom (r.1 + S j)); [lia|assumption..].
Qed.

Lemma dateSplit_segments b :
  coordTimes p = Some ts -> length ts = length coordinates ->
  exists days,
    dateSplit (LineFeature b p coordinates) = Ok days /\
    Forall2 (isDaySegment p ts coordinates) days (ranges sameDay ts).
Proof.
  intros Hct Hlen. unfold dateSplit. rewrite Hct, Hlen, Nat.eqb_refl.
  cbn [negb].
  destruct (forEachUniqueRange_ranges sameDay ts) as (_ & Hruns & Hf).
  rewrite Hf. apply mapM_Ok_Forall2.
  eapply Forall_impl; [exact Hruns|]. intros r Hr. apply daySegment_run, Hr.
Qed.

Lemma segments_coordinates days runs :
  Forall2 (isDaySegment p ts coordinates) days runs ->
  map lineCoordinates days = map (fun r => slice r.1 r.2 coordinates) runs /\
  map lineTimes days = map (fun r => slice r.1 r.2 ts) runs.
Proof.
  induction 1 as [|g r days runs (t & _ & -> & _) _ [IH1 IH2]].
  - split; reflexivity.
  - cbn. rewrite IH1, IH2. split; reflexivity.
Qed.

End DateSplitFacts.

(** C4: a LineString feature whose [coordTimes] are as many as its
    positions is split into one feature per run of timestamps of one
    calendar day.  Each feature holds exactly its run's slice of the
    positions and of the timestamps, and its [date] is the day of every
    timestamp in it; the runs follow one another from the first index to
    the last, so that every point lies in exactly one feature and the
    features put together give the input back; neighbouring features have
    different dates (the runs are maximal); and timestamps of one day
    followed by timestamps of another day give exactly two features. *)
Theorem dateSplit_by_day {num : Type} (b : option (list (option num)))
    (p : Properties num (list string)) (coordinates : list (list num))
    (ts : list string) :
  coordTimes p = Some ts -> length ts = length coordinates ->
  exists days,
    dateSplit (LineFeature b p coordinates) = Ok days /\
    Forall2 (isDaySegment p ts coordinates) days (ranges sameDay ts) /\
    chain 0 (ranges sameDay ts) (length ts) /\
    Forall (isRun sameDay ts) (ranges sameDay ts) /\
    concat (map lineCoordinates days) = coordinates /\
    concat (map lineTimes days) = ts /\
    (forall i, i < length coordinates ->
       exists k g r,
         days !! k = Some g /\ ranges sameDay ts !! k = Some r /\
         r.1 <= i < r.2 /\
         forall k' r', ranges sameDay ts !! k' = Some r' ->
                       r'.1 <= i < r'.2 -> k' = k) /\
    (forall k g g', days !! k = Some g -> days !! S k = Some g' ->
       featureDate g <> featureDate g') /\
    (forall ts1 ts2 d1 d2,
       ts = ts1 ++ ts2 -> ts1 <> [] -> ts2 <> [] ->
       Forall (fun t => day t = d1) ts1 ->
       Forall (fun t => day t = d2) ts2 -> d1 <> d2 ->
       length days = 2).
Proof.
  intros Hct Hlen.
  destruct (dateSplit_segments p ts coordinates b Hct Hlen)
    as (days & Hsplit & Hseg).
  destruct (forEachUniqueRange_ranges sameDay ts) as (Hc & Hruns & _).
  destruct (segments_coordinates p ts coordinates _ _ Hseg) as [Hcs Hts].
  exists days. split; [exact Hsplit|]. split; [exact Hseg|].
  split; [exact Hc|]. split; [exact Hruns|].
  split; [|split; [|split; [|split]]].
  - rewrite Hcs, (chain_concat coordinates _ _ _ Hc), Hlen. apply slice_all.
  - rewrite Hts, (chain_concat ts _ _ _ Hc). apply slice_all.
  - intros i Hi.
    destruct (chain_cover _ _ _ i Hc ltac:(lia)) as (k & r & Hk & Hr).
    destruct (Forall2_lookup_r _ _ _ _ _ Hseg Hk) as (g & Hg & _).
    exists k, g, r. split; [exact Hg|]. split; [exact Hk|].
    split; [exact Hr|].
    intros k' r' Hk' Hr'. eapply chain_disjoint; eauto.
  - intros k g g' Hg Hg'.
    destruct (Forall2_lookup_l _ _ _ _ _ Hseg Hg) as (r & Hk & t & Ht & -> & _).
    destruct (Forall2_lookup_l _ _ _ _ _ Hseg Hg')
      as (r' & Hk' & t' & Ht' & -> & _).
    rewrite (chain_next _ _ _ _ _ _ Hc Hk Hk') in Ht'.
    pose proof (proj1 (Forall_lookup _ _) Hruns _ _ Hk) as (_ & _ & Hmax).
    pose proof (Hmax _ _ Ht Ht') as Hf. apply sameDay_false in Hf.
    cbn. congruence.
  - intros ts1 ts2 d1 d2 -> Hne1 Hne2 Hd1 Hd2 Hd.
    rewrite (Forall2_length _ _ _ Hseg).
    rewrite (runs_of_two_days ts1 ts2 d1 d2 _ Hne1 Hne2 Hd1 Hd2 Hd Hc Hruns).
    reflexivity.
Qed.

Lemma dateSplit_by_day_witness :
  exists days, dateSplit overnight = Ok days /\ length days = 2.
Proof.
  destruct (dateSplit_by_day None
              (track (Some "2017-06-10T23:50:00Z")
                 (Some ["2017-06-10T23:50:00Z"; "2017-06-10T23:55:00Z";
                        "2017-06-11T00:05:00Z"; "2017-06-11T00:10:00Z"])
                 "overnight.gpx")
              [[0; 0]; [1; 0]; [1; 1]; [2; 1]]%Z
              ["2017-06-10T23:50:00Z"; "2017-06-10T23:55:00Z";
               "2017-06-11T00:05:00Z"; "2017-06-11T00:10:00Z"]
              eq_refl eq_refl)
    as (days & Hsplit & _ & _ & _ & _ & _ & _ & _ & Htwo).
  exists days. split; [exact Hsplit|].
  apply (Htwo ["2017-06-10T23:50:00Z"; "2017-06-10T23:55:00Z"]
              ["2017-06-11T00:05:00Z"; "2017-06-11T00:10:00Z"]
              "2017-06-10" "2017-06-11").
  - reflexivity.
  - discriminate.
  - discriminate.
  - repeat constructor.
  - repeat constructor.
  - discriminate.
Defined.

(** ** [addBbox] *)

Section BboxFacts.
Context {num : Type} (host : Host num).

Lemma bboxOf_Ok sw ne (first : list num) bbox :
  bboxOf host sw ne first = Ok bbox -> length first = 2 \/ length first = 3.
Proof.
  unfold bboxOf. cbv zeta.
  destruct (Nat.eqb_spec (length first) 3) as [E|_]; [right; exact E|].
  destruct (Nat.eqb_spec (length first) 2) as [E|_]; [left; exact E|].
  discriminate.
Qed.

Lemma bboxOf_returns sw ne (first : list num) :
  length first = 2 \/ length first = 3 ->
  exists bbox, bboxOf host sw ne first = Ok bbox.
Proof.
  unfold bboxOf. cbv zeta. intros [E|E]; rewrite E; cbn; eexists; reflexivity.
Qed.

Lemma bboxOf_asserts sw ne (first : list num) :
  length first <> 2 -> length first <> 3 ->
  bboxOf host sw ne first = Throw AssertionError.
Proof.
  unfold bboxOf. cbv zeta. intros H2 H3.
  destruct (Nat.eqb_spec (length first) 3) as [E|_]; [contradiction|].
  destruct (Nat.eqb_spec (length first) 2) as [E|_]; [contradiction|].
  reflexivity.
Qed.

(** [addBbox] on a line or multi-line feature, once Leaflet has converted
    the positions and found bounds. *)
Lemma addBbox_lines (f : Feature num) cs latLngs sw ne first :
  positions f = Some cs ->
  coordsToLatLngs host cs = Ok latLngs ->
  getBounds host latLngs = Some (sw, ne) ->
  firstOf cs = Some first ->
  addBbox host (Some f) =
  (bbox ← bboxOf host sw ne first; Ok (enrich host f bbox latLngs)).
Proof.
  intros Hp Hl Hb Hf. unfold addBbox. rewrite Hp, Hl, bind_Ok, Hb, Hf.
  reflexivity.
Qed.

Lemma addBbox_Ok_inv (f g : Feature num) cs :
  positions f = Some cs -> addBbox host (Some f) = Ok g ->
  exists latLngs sw ne first bbox,
    coordsToLatLngs host cs = Ok latLngs /\
    getBounds host latLngs = Some (sw, ne) /\
    firstOf cs = Some first /\
    bboxOf host sw ne first = Ok bbox /\
    g = enrich host f bbox latLngs.
Proof.
  intros Hp H. unfold addBbox in H. rewrite Hp in H.
  destruct (coordsToLatLngs host cs) as [latLngs|] eqn:Hl; [|discriminate].
  rewrite bind_Ok in H.
  destruct (getBounds host latLngs) as [[sw ne]|] eqn:Hb; [|discriminate].
  destruct (firstOf cs) as [first|] eqn:Hf; [|discriminate].
  destruct (bboxOf host sw ne first) as [bbox|] eqn:Hbox; [|discriminate].
  injection H as <-. exists latLngs, sw, ne, first, bbox. auto.
Qed.

(** Whatever [addBbox] returns for a line or multi-line feature has
    neither [coordTimes] nor [time]. *)
Lemma enrich_drops_times (f : Feature num) cs bbox latLngs :
  positions f = Some cs ->
  hasCoordTimes (enrich host f bbox latLngs) = false /\
  featureTime (enrich host f bbox latLngs) = None /\
  featureDate (enrich host f bbox latLngs) = featureDate f /\
  featureBbox (enrich host f bbox latLngs) = Some bbox /\
  featureDistance (enrich host f bbox latLngs) =
    Some (Math_round host (distanceOf host latLngs)).
Proof.
  destruct f; intros Hp; [| |discriminate]; cbn; repeat split.
Qed.

End BboxFacts.

(** C8, as amended: of the positions of a line or multi-line feature,
    [addBbox] looks at the number of members of the first one alone (the
    first of the first part for a MultiLineString).  If it returns, that
    position has two or three members; once Leaflet has converted the
    positions and found their bounds, it fails with an assertion exactly
    when that position has neither two nor three members, and returns
    otherwise, whatever the other positions are. *)
Theorem addBbox_checks_first_position {num : Type} (host : Host num)
    (feature : Feature num) (cs : Lines (list num)) :
  positions feature = Some cs ->
  (forall g, addBbox host (Some feature) = Ok g ->
     exists first, firstOf cs = Some first /\
                   (length first = 2 \/ length first = 3)) /\
  (forall latLngs bounds first,
     coordsToLatLngs host cs = Ok latLngs ->
     getBounds host latLngs = Some bounds ->
     firstOf cs = Some first ->
     (length first <> 2 -> length first <> 3 ->
      addBbox host (Some feature) = Throw AssertionError) /\
     (length first = 2 \/ length first = 3 ->
      exists g, addBbox host (Some feature) = Ok g)).
Proof.
  intros Hp. split.
  - intros g Hg.
    destruct (addBbox_Ok_inv host _ _ _ Hp Hg)
      as (latLngs & sw & ne & first & bbox & _ & _ & Hf & Hbox & _).
    exists first. split; [exact Hf|]. eapply bboxOf_Ok, Hbox.
  - intros latLngs [sw ne] first Hl Hb Hf.
    rewrite (addBbox_lines host _ _ _ _ _ _ Hp Hl Hb Hf). split.
    + intros H2 H3. rewrite (bboxOf_asserts host sw ne first H2 H3).
      reflexivity.
    + intros Hdim. destruct (bboxOf_returns host sw ne first Hdim) as [bbox E].
      rewrite E. eexists. reflexivity.
Qed.

Lemma addBbox_checks_first_position_witness :
  addBbox planarHost (Some fourDims) = Throw AssertionError.
Proof.
  refine (proj1 (proj2 (addBbox_checks_first_position planarHost fourDims
                          (Flat [[0; 0; 0; 0]; [1; 1]]%Z) eq_refl)
                   (Flat [(0, 0, Some 0); (1, 1, None)]%Z)
                   ((0, 0, None), (1, 1, None))%Z
                   [0; 0; 0; 0]%Z eq_refl eq_refl eq_refl) _ _);
    cbn; lia.
Defined.

(** C8 fails as stated: the positions of [mixedDims] have two and three
    members, and [addBbox] returns a feature for it, as it does with any
    Leaflet that converts these positions and finds their bounds. *)
Lemma addBbox_accepts_mixed_dimensions :
  positions mixedDims = Some (Flat [[0; 0]; [1; 1; 5]]%Z) /\
  addBbox planarHost (Some mixedDims) =
    Ok (LineFeature (Some [Some 0; Some 0; Some 1; Some 1]%Z)
          (mkProperties None None None None (Some 2%Z) [])
          [[0; 0]; [1; 1; 5]]%Z) /\
  (forall (host : Host Z) latLngs bounds,
     coordsToLatLngs host (Flat [[0; 0]; [1; 1; 5]]%Z) = Ok latLngs ->
     getBounds host latLngs = Some bounds ->
     exists g, addBbox host (Some mixedDims) = Ok g).
Proof.
  split; [reflexivity|]. split; [reflexivity|].
  intros host latLngs [sw ne] Hl Hb.
  erewrite addBbox_lines; [|reflexivity|exact Hl|exact Hb|reflexivity].
  eexists. reflexivity.
Qed.

(** C9, as amended: two or more LineString features of one run, each with
    [coordTimes] as long as its positions, are merged into a feature that
    carries the nested [coordTimes] and a [time]; the feature that
    [addBbox] then returns (Leaflet having converted the positions and
    found bounds, the first position having two or three members) carries
    the [date], the bounding box and the rounded distance, and neither
    [coordTimes] nor [time]. *)
Theorem merged_feature_enriched {num : Type} (host : Host num) (lo hi : nat)
    (features : list (Feature num))
    (first : Properties num (list string) * list (list num))
    (others : list (Properties num (list string) * list (list num)))
    (tss : list (list string)) (latLngs : Lines (LatLng host))
    (sw ne : LatLng host) (position : list num) :
  2 <= hi - lo ->
  Forall2 (fun f w => exists b, f = LineFeature b w.1 w.2)
    (slice lo hi features) (first :: others) ->
  Forall2 (fun w ts => coordTimes w.1 = Some ts /\ length ts = length w.2)
    (first :: others) tss ->
  coordsToLatLngs host (Nested ((first :: others).*2)) = Ok latLngs ->
  getBounds host latLngs = Some (sw, ne) ->
  firstOf (Nested ((first :: others).*2)) = Some position ->
  length position = 2 \/ length position = 3 ->
  exists m g bbox,
    mergeLines lo hi features = Ok (Some m) /\
    hasCoordTimes m = true /\
    featureTime m = coordTimes first.1 ≫= head /\
    addBbox host (Some m) = Ok g /\
    bboxOf host sw ne position = Ok bbox /\
    g = MultiLineFeature (Some bbox)
          (mkProperties None None (date first.1) None
             (Some (Math_round host (distanceOf host latLngs))) [])
          ((first :: others).*2) /\
    hasCoordTimes g = false /\ featureTime g = None.
Proof.
  intros Hrun Hlines Hal Hl Hb Hf Hdim.
  pose proof (mergeLines_lines lo hi features first others Hrun Hlines) as Hm.
  rewrite (mapM_walkTimes_Ok _ _ Hal) in Hm.
  pose proof Hal as Hal'.
  apply Forall2_cons_inv_l in Hal' as (ts & tss' & [Hts _] & _ & ->).
  rewrite Hts, bind_Ok in Hm.
  destruct (bboxOf_returns host sw ne position Hdim) as [bbox Hbox].
  eexists _, _, bbox. split; [exact Hm|].
  split; [reflexivity|].
  split; [rewrite Hts; reflexivity|].
  split; [|split; [exact Hbox|]].
  - erewrite addBbox_lines; [|reflexivity|exact Hl|exact Hb|exact Hf].
    rewrite Hbox. reflexivity.
  - repeat split.
Qed.

Lemma merged_feature_enriched_witness :
  exists m g,
    mergeLines 0 2 sameDate = Ok (Some m) /\
    addBbox planarHost (Some m) = Ok g /\
    featureDate g = Some "2017-06-10" /\ featureDistance g = Some 3%Z.
Proof.
  destruct (merged_feature_enriched planarHost 0 2 sameDate morning [evening]
              [["2017-06-10T08:00:00Z"; "2017-06-10T08:30:00Z"];
               ["2017-06-10T18:00:00Z"; "2017-06-10T18:30:00Z"]]
              (Nested [[(0, 0, None); (2, 0, None)];
                       [(5, 5, None); (5, 6, None)]]%Z)
              (0, 0, None)%Z (5, 6, None)%Z [0; 0]%Z)
    as (m & g & bbox & Hm & _ & _ & Hg & _ & -> & _).
  - cbn. lia.
  - repeat constructor; exists None; reflexivity.
  - repeat constructor.
  - reflexivity.
  - reflexivity.
  - reflexivity.
  - left. reflexivity.
  - exists m. eexists. split; [exact Hm|]. split; [exact Hg|].
    split; reflexivity.
Defined.

(** C9 fails as stated: the two segments of [sameDate] carry [coordTimes];
    merged they still do, with a [time]; after [addBbox] both are gone,
    whatever Leaflet computes. *)
Lemma enriched_feature_has_no_times :
  exists m g,
    mergeLines 0 2 sameDate = Ok (Some m) /\
    hasCoordTimes m = true /\
    featureTime m = Some "2017-06-10T08:00:00Z" /\
    addBbox planarHost (Some m) = Ok g /\
    hasCoordTimes g = false /\ featureTime g = None /\
    (forall (host : Host Z) g',
       addBbox host (Some m) = Ok g' ->
       hasCoordTimes g' = false /\ featureTime g' = None).
Proof.
  eexists _, _. do 6 (split; [reflexivity|]).
  intros host g' H.
  eapply addBbox_Ok_inv in H as (? & ? & ? & ? & ? & _ & _ & _ & _ & ->);
    [|reflexivity].
  split; reflexivity.
Qed.

(** ** [multiSplit] and the pipeline *)

Section PipelineFacts.
Context {num : Type}.

(** A [map] whose callback throws nothing but [err] throws [err] as soon
    as the callback throws on one element. *)
Lemma mapM_Throw_elem {X Y : Type} (f : X -> Result Y) (err : Error)
    (l : list X) x :
  (forall y e, f y = Throw e -> e = err) ->
  x ∈ l -> f x = Throw err -> mapM f l = Throw err.
Proof.
  intros Herr Hx Hfx. induction l as [|y l IH]; [inversion Hx|].
  rewrite mapM_Result_cons. destruct (f y) as [v|e] eqn:Hy.
  - apply elem_of_cons in Hx as [->|Hx]; [congruence|].
    rewrite (IH Hx). reflexivity.
  - rewrite (Herr _ _ Hy). reflexivity.
Qed.

Lemma mapi_from_error {X Y : Type} (f : nat -> X -> Result Y) (err : Error)
    (l : list X) :
  (forall j y e, f j y = Throw e -> e = err) ->
  forall start e, mapi_from start f l = Throw e -> e = err.
Proof.
  intros Herr. induction l as [|y l IH]; intros start e H; [discriminate|].
  cbn [mapi_from] in H. destruct (f start y) as [v|e'] eqn:Hy.
  - rewrite bind_Ok in H.
    destruct (mapi_from (S start) f l) as [k|e'] eqn:Hk; [discriminate|].
    injection H as <-. eapply IH, Hk.
  - injection H as <-. eapply Herr, Hy.
Qed.

Lemma mapi_from_Throw {X Y : Type} (f : nat -> X -> Result Y) (err : Error)
    (l : list X) :
  (forall j y e, f j y = Throw e -> e = err) ->
  forall start i x,
    l !! i = Some x -> f (start + i) x = Throw err ->
    mapi_from start f l = Throw err.
Proof.
  intros Herr. induction l as [|y l IH]; intros start i x Hi Hx;
    [discriminate|].
  cbn [mapi_from]. destruct (f start y) as [v|e] eqn:Hy.
  - destruct i as [|i]; cbn in Hi.
    + injection Hi as ->. rewrite Nat.add_0_r in Hx. congruence.
    + rewrite bind_Ok, (IH (S start) i x Hi); [reflexivity|].
      rewrite <- Hx. f_equal. lia.
  - rewrite (Herr _ _ _ Hy). reflexivity.
Qed.

Lemma splitPart_error (p : Properties num (list (list string))) i
    (coordinates : list (list num)) e :
  splitPart p i coordinates = Throw e -> e = AssertionError.
Proof.
  unfold splitPart. destruct (coordTimes p) as [tss|]; [|discriminate].
  destruct (tss !! i) as [ts|]; [|congruence].
  destruct (length ts =? length coordinates); cbn; [|congruence].
  destruct (eqStr _ _); cbn; [discriminate | congruence].
Qed.

Lemma multiSplit_error (f : Feature num) e :
  multiSplit f = Throw e -> e = AssertionError.
Proof.
  destruct f; cbn; try discriminate.
  apply mapi_from_error. intros j y e'. apply splitPart_error.
Qed.

End PipelineFacts.

(** C3, as amended: a MultiLineString feature with [coordTimes], one part
    of which has a number of timestamps different from its number of
    positions, makes [multiSplit], and with it the whole pipeline, fail
    with an assertion, and nothing is printed; a LineString feature with
    such a mismatch does not make [dateSplit] fail: it comes out whole,
    with the [date] of its [time] or of its file name. *)
Theorem pipeline_aborts_on_short_part {num : Type} (host : Host num)
    (features : list (Feature num)) (b : option (list (option num)))
    (p : Properties num (list (list string)))
    (coordinates : list (list (list num))) (tss : list (list string))
    (i : nat) (ts : list string) (part : list (list num)) :
  MultiLineFeature b p coordinates ∈ features ->
  coordTimes p = Some tss ->
  tss !! i = Some ts -> coordinates !! i = Some part ->
  length ts <> length part ->
  multiSplit (MultiLineFeature b p coordinates) = Throw AssertionError /\
  pipeline host features = Throw AssertionError /\
  (forall b' (p' : Properties num (list string)) c' ts',
     coordTimes p' = Some ts' -> length ts' <> length c' ->
     dateSplit (LineFeature b' p' c') =
     (d ← fileDate p'; Ok [LineFeature None (withDate p' d) c'])).
Proof.
  intros Hin Hct Hts Hpart Hlen.
  assert (Hsplit : multiSplit (MultiLineFeature b p coordinates) =
                   Throw AssertionError).
  { cbn [multiSplit].
    apply (mapi_from_Throw _ _ _ (splitPart_error p) 0 i part Hpart).
    unfold splitPart. rewrite Hct. cbn [Nat.add]. rewrite Hts.
    rewrite (proj2 (Nat.eqb_neq _ _) Hlen). reflexivity. }
  split; [exact Hsplit|]. split.
  - unfold pipeline, flatMap.
    rewrite (mapM_Throw_elem multiSplit AssertionError features _
               multiSplit_error Hin Hsplit).
    reflexivity.
  - intros b' p' c' ts' Hct' Hlen'. unfold dateSplit. rewrite Hct'.
    rewrite (proj2 (Nat.eqb_neq _ _) Hlen'). reflexivity.
Qed.

Lemma pipeline_aborts_on_short_part_witness :
  pipeline planarHost [overnight; shortPart] = Throw AssertionError.
Proof.
  refine (proj1 (proj2 (pipeline_aborts_on_short_part planarHost
            [overnight; shortPart] None
            (mkProperties (Some "2017-06-10T10:00:00Z")
               (Some [["2017-06-10T10:00:00Z"; "2017-06-10T10:05:00Z"];
                      ["2017-06-10T11:00:00Z"]])
               None (Some "parts.gpx") None [])
            [[[0; 0]; [1; 0]]; [[1; 1]; [2; 1]]]%Z
            [["2017-06-10T10:00:00Z"; "2017-06-10T10:05:00Z"];
             ["2017-06-10T11:00:00Z"]]
            1 ["2017-06-10T11:00:00Z"] [[1; 1]; [2; 1]]%Z _ _ _ _ _))).
  - apply list_elem_of_further, list_elem_of_here.
  - reflexivity.
  - reflexivity.
  - reflexivity.
  - cbn. lia.
Defined.

(** C3 fails as stated: [shortTimes] is a LineString of two positions with
    one timestamp; [dateSplit] hands it on with a [date], and the pipeline
    prints a feature for it.  With any Leaflet the pipeline gets as far as
    [addBbox], which does not read [coordTimes]. *)
Lemma pipeline_accepts_short_coordTimes :
  lineTimes shortTimes = ["2017-06-10T10:00:00Z"] /\
  lineCoordinates shortTimes = [[0; 0]; [3; 4]]%Z /\
  dateSplit shortTimes =
    Ok [LineFeature None
          (mkProperties (Some "2017-06-10T10:00:00Z")
             (Some ["2017-06-10T10:00:00Z"]) (Some "2017-06-10")
             (Some "short.gpx") None [("name", "walk")])
          [[0; 0]; [3; 4]]%Z] /\
  pipeline planarHost [shortTimes] =
    Ok [LineFeature (Some [Some 0; Some 0; Some 3; Some 4]%Z)
          (mkProperties None None (Some "2017-06-10") None (Some 7%Z) [])
          [[0; 0]; [3; 4]]%Z] /\
  (forall host : Host Z,
     pipeline host [shortTimes] =
     (g ← addBbox host
            (Some (LineFeature None
                     (mkProperties (Some "2017-06-10T10:00:00Z")
                        (Some ["2017-06-10T10:00:00Z"]) (Some "2017-06-10")
                        (Some "short.gpx") None [("name", "walk")])
                     [[0; 0]; [3; 4]]%Z));
      Ok [g])).
Proof.
  do 4 (split; [reflexivity|]). intros host. reflexivity.
Qed.

(** * Part III: further facts about the code *)

(** ** Strings *)

Lemma ltb_negb_leb (x y : string) : String.ltb x y = negb (String.leb y x).
Proof.
  unfold String.ltb, String.leb. rewrite (String.compare_antisym y x).
  destruct (String.compare x y); reflexivity.
Qed.

Lemma leb_refl (x : string) : String.leb x x = true.
Proof. apply Is_true_true. change (String.le x x). reflexivity. Qed.

Lemma leb_trans (x y z : string) :
  String.leb x y = true -> String.leb y z = true -> String.leb x z = true.
Proof.
  intros H1 H2. apply Is_true_true.
  change (String.le x z). transitivity y; apply Is_true_true; assumption.
Qed.

Lemma ltb_leb (x y : string) : String.ltb x y = true -> String.leb x y = true.
Proof.
  rewrite ltb_negb_leb. intros H.
  destruct (String.leb_total x y) as [E|E]; [exact E|].
  rewrite E in H. discriminate.
Qed.

Lemma eqStr_eq (a b : option string) : eqStr a b = true <-> a = b.
Proof.
  destruct a as [x|], b as [y|]; cbn; try (split; congruence).
  rewrite String.eqb_eq. split; congruence.
Qed.

Lemma substring_0_idem (n : nat) : forall s,
  substring 0 n (substring 0 n s) = substring 0 n s.
Proof.
  induction n as [|n IH]; intros [|a s]; cbn; try reflexivity.
  rewrite IH. reflexivity.
Qed.

Lemma day_idem (s : string) : day (day s) = day s.
Proof. apply substring_0_idem. Qed.

(** Taking a prefix respects the order of strings. *)
Lemma substring_0_mono (n : nat) : forall x y,
  String.leb x y = true ->
  String.leb (substring 0 n x) (substring 0 n y) = true.
Proof.
  induction n as [|n IH]; intros x y H.
  - destruct x, y; reflexivity.
  - destruct x as [|a x], y as [|b y]; try reflexivity; [discriminate|].
    unfold String.leb in *. cbn in *.
    destruct (Ascii.compare a b); try assumption.
    apply IH. exact H.
Qed.

Lemma day_mono (x y : string) :
  String.leb x y = true -> String.leb (day x) (day y) = true.
Proof. apply substring_0_mono. Qed.

(** ** More on [forEachUniqueRange] *)

(** When every element is [equal] to the first one there is one run. *)
Lemma ranges_single {A : Type} (equal : A -> A -> bool) (l : list A) :
  l <> [] ->
  (forall x y, l !! 0 = Some x -> y ∈ l -> equal x y = true) ->
  ranges equal l = [(0, length l)].
Proof.
  intros Hne Hall.
  destruct (forEachUniqueRange_ranges equal l) as (Hc & Hruns & _).
  assert (Hn : 0 < length l) by (destruct l; [contradiction | cbn; lia]).
  destruct (ranges equal l) as [|[lo hi] rest]; cbn in Hc; [lia|].
  destruct Hc as (-> & Hlt & Hc).
  apply Forall_cons in Hruns as [((_ & Hhi) & _ & Hmax) _]. cbn in Hhi, Hmax.
  assert (hi = length l) as ->.
  { destruct (decide (hi = length l)) as [E|E]; [exact E|].
    destruct (lookup_lt_is_Some_2 l 0 Hn) as [x Hx].
    destruct (lookup_lt_is_Some_2 l hi ltac:(lia)) as [y Hy].
    pose proof (Hmax x y Hx Hy) as Hf.
    rewrite (Hall x y Hx) in Hf; [discriminate|].
    eapply list_elem_of_lookup_2, Hy. }
  destruct rest as [|[lo2 hi2] rest]; [reflexivity|].
  cbn in Hc. destruct Hc as (-> & Hlt2 & Hc). apply chain_le in Hc. lia.
Qed.

(** ** More on [dateSplit] *)

Section DateSplitMore.
Context {num : Type}.
Implicit Types (f g : Feature num).

Lemma fileDate_withDate {T : Type} (p : Properties num T) d :
  fileDate (withDate p d) = fileDate p.
Proof. reflexivity. Qed.

(** The first branch of [dateSplit] returns its own result unchanged. *)
Lemma dated_fixpoint f gs g :
  dated f = Ok gs -> g ∈ gs -> dated g = Ok [g].
Proof.
  destruct f as [b p c|b p c|ty p]; cbn [dated]; intros H Hg;
    destruct (fileDate p) as [d|] eqn:Hd; try discriminate;
    injection H as <-; apply list_elem_of_singleton in Hg as ->;
    cbn [dated]; rewrite fileDate_withDate, Hd; reflexivity.
Qed.

(** A day segment is a LineString with as many timestamps as positions,
    all of one day. *)
Lemma daySegment_fixpoint (p : Properties num (list string)) ts
    (coordinates : list (list num)) g r :
  length ts = length coordinates ->
  isRun sameDay ts r -> isDaySegment p ts coordinates g r ->
  dateSplit g = Ok [g].
Proof.
  intros Hlen ((Hlt & Hhi) & _) (t & Ht & -> & Hday).
  set (cts := slice r.1 r.2 ts) in *.
  set (cs := slice r.1 r.2 coordinates).
  assert (Hn : length cts = r.2 - r.1) by (apply slice_length; lia).
  assert (Hn' : length cs = r.2 - r.1) by (apply slice_length; lia).
  assert (Hhead : cts !! 0 = Some t).
  { unfold cts. rewrite slice_lookup by lia. rewrite Nat.add_0_r. exact Ht. }
  assert (Hruns : ranges sameDay cts = [(0, length cts)]).
  { apply ranges_single.
    - intros E. rewrite E in Hhead. discriminate.
    - intros x y Hx Hy. rewrite Hhead in Hx. injection Hx as <-.
      apply sameDay_true. symmetry.
      apply (proj1 (Forall_forall _ _) Hday y Hy). }
  assert (Hsame : length cts = length cs) by congruence.
  unfold dateSplit. cbn [coordTimes]. rewrite Hsame, Nat.eqb_refl.
  cbn [negb].
  destruct (forEachUniqueRange_ranges sameDay cts) as (_ & _ & Hf).
  rewrite Hf, Hruns. rewrite mapM_Result_cons. cbn [fst snd].
  unfold daySegment. cbv zeta. rewrite slice_all, Hsame, slice_all.
  rewrite head_lookup, Hhead. reflexivity.
Qed.

End DateSplitMore.

(** X1: what [dateSplit] returns it leaves alone: splitting a returned
    feature again gives that one feature back, identical. *)
Theorem dateSplit_fixpoint {num : Type} (f : Feature num)
    (gs : list (Feature num)) :
  dateSplit f = Ok gs -> forall g, g ∈ gs -> dateSplit g = Ok [g].
Proof.
  intros H g Hg.
  destruct f as [b p c|b p c|ty p].
  - unfold dateSplit in H.
    assert (Hfall : dated (LineFeature b p c) = Ok gs ->
              coordTimes p = None \/
              (exists ts, coordTimes p = Some ts /\ length ts <> length c) ->
              dateSplit g = Ok [g]).
    { intros Hd Hcase. pose proof (dated_fixpoint _ _ _ Hd Hg) as Hfix.
      cbn [dated] in Hd. destruct (fileDate p) as [d|]; [|discriminate].
      injection Hd as <-. apply list_elem_of_singleton in Hg as ->.
      unfold dateSplit. cbn [coordTimes withDate].
      destruct Hcase as [-> | (ts & -> & Hne)]; [exact Hfix|].
      rewrite (proj2 (Nat.eqb_neq _ _) Hne). exact Hfix. }
    destruct (coordTimes p) as [ts|] eqn:Hct; [|apply Hfall; auto].
    destruct (Nat.eqb_spec (length ts) (length c)) as [Hlen|Hlen];
      cbn [negb] in H; [|apply Hfall; [exact H | right; eauto]].
    destruct (dateSplit_segments p ts c b Hct Hlen) as (days & Hsplit & Hseg).
    unfold dateSplit in Hsplit. rewrite Hct, Hlen, Nat.eqb_refl in Hsplit.
    cbn [negb] in Hsplit. rewrite H in Hsplit.
    injection Hsplit as <-.
    destruct (forEachUniqueRange_ranges sameDay ts) as (_ & Hruns & _).
    apply list_elem_of_lookup in Hg as [k Hk].
    destruct (Forall2_lookup_l _ _ _ _ _ Hseg Hk) as (r & Hr & Hgr).
    eapply daySegment_fixpoint; [exact Hlen| |exact Hgr].
    eapply (proj1 (Forall_lookup _ _) Hruns), Hr.
  - cbn [dateSplit dated] in H.
    destruct (fileDate p) as [d|] eqn:Hd; [|discriminate].
    injection H as <-. apply list_elem_of_singleton in Hg as ->.
    cbn [dateSplit dated]. rewrite fileDate_withDate, Hd. reflexivity.
  - cbn [dateSplit dated] in H.
    destruct (fileDate p) as [d|] eqn:Hd; [|discriminate].
    injection H as <-. apply list_elem_of_singleton in Hg as ->.
    cbn [dateSplit dated]. rewrite fileDate_withDate, Hd. reflexivity.
Qed.

Lemma dateSplit_fixpoint_witness :
  dateSplit
    (LineFeature None
       (mkProperties (Some "2017-06-10T10:00:00Z")
          (Some ["2017-06-10T10:00:00Z"]) (Some "2017-06-10")
          (Some "short.gpx") None [("name", "walk")])
       [[0; 0]; [3; 4]]%Z) =
  Ok [LineFeature None
        (mkProperties (Some "2017-06-10T10:00:00Z")
           (Some ["2017-06-10T10:00:00Z"]) (Some "2017-06-10")
           (Some "short.gpx") None [("name", "walk")])
        [[0; 0]; [3; 4]]%Z].
Proof.
  eapply (dateSplit_fixpoint shortTimes); [reflexivity|].
  apply list_elem_of_here.
Defined.

Section DateSplitDates.
Context {num : Type}.

Lemma dated_dates (f : Feature num) gs :
  dated f = Ok gs ->
  Forall (fun g => exists k, timeKey g = Some k /\
                             featureDate g = Some (day k)) gs.
Proof.
  assert (Hkey : forall (t g : option string) s,
            orElse t g = Some s ->
            exists k, orElse t (Some (day s)) = Some k /\ day s = day k).
  { intros t g s H. destruct t as [t|]; cbn in *.
    - destruct (String.eqb t "").
      + exists (day s). split; [reflexivity | symmetry; apply day_idem].
      + injection H as <-. exists t. split; reflexivity.
    - exists (day s). split; [reflexivity | symmetry; apply day_idem]. }
  destruct f as [b p c|b p c|ty p]; cbn [dated]; unfold fileDate;
    destruct (orElse (time p) (gpxFileName p)) as [s|] eqn:Hs;
    try discriminate; intros [= <-];
    destruct (Hkey _ _ _ Hs) as (k & Hk & Hday);
    constructor; [|constructor| |constructor| |constructor];
    exists k; (split; [exact Hk | cbn; congruence]).
Qed.

Lemma daySegment_dates (p : Properties num (list string)) ts
    (coordinates : list (list num)) g r :
  isDaySegment p ts coordinates g r ->
  exists k, timeKey g = Some k /\ featureDate g = Some (day k).
Proof.
  intros (t & _ & -> & _). unfold timeKey. cbn.
  destruct (String.eqb_spec t "") as [->|_].
  - exists (day ""). split; reflexivity.
  - exists t. split; reflexivity.
Qed.

End DateSplitDates.

(** X2: every feature that [dateSplit] returns has a [date], and it is the
    first ten characters of [time || date], the value by which
    [timeCompare] then sorts the features. *)
Theorem dateSplit_dates {num : Type} (f : Feature num)
    (gs : list (Feature num)) :
  dateSplit f = Ok gs ->
  Forall (fun g => exists k, timeKey g = Some k /\
                             featureDate g = Some (day k)) gs.
Proof.
  intros H. destruct f as [b p c|b p c|ty p]; [|exact (dated_dates _ _ H)..].
  unfold dateSplit in H.
  destruct (coordTimes p) as [ts|] eqn:Hct; [|exact (dated_dates _ _ H)].
  destruct (Nat.eqb_spec (length ts) (length c)) as [Hlen|Hlen];
    cbn [negb] in H; [|exact (dated_dates _ _ H)].
  destruct (dateSplit_segments p ts c b Hct Hlen) as (days & Hsplit & Hseg).
  unfold dateSplit in Hsplit. rewrite Hct, Hlen, Nat.eqb_refl in Hsplit.
  cbn [negb] in Hsplit. rewrite H in Hsplit. injection Hsplit as <-.
  apply Forall_lookup. intros k g Hk.
  destruct (Forall2_lookup_l _ _ _ _ _ Hseg Hk) as (r & _ & Hgr).
  eapply daySegment_dates, Hgr.
Qed.

Lemma dateSplit_dates_witness :
  Forall (fun g : Feature Z =>
            exists k, timeKey g = Some k /\ featureDate g = Some (day k))
    [LineFeature None
       (mkProperties None None (Some "2017-06-10")
          (Some "2017-06-10-loop.gpx") None [("name", "walk")])
       [[0; 0]; [1; 1; 5]]%Z].
Proof. apply (dateSplit_dates mixedDims). reflexivity. Defined.

(** X3: [dateSplit] throws only in its first branch, a TypeError, and only
    for a feature that has neither a non-empty [time] nor a [gpxFileName];
    a feature that has one of the two is always split. *)
Theorem dateSplit_throws {num : Type} (f : Feature num) :
  (orElse (featureTime f) (featureFileName f) <> None ->
   exists gs, dateSplit f = Ok gs) /\
  (forall e, dateSplit f = Throw e ->
     e = TypeError /\ orElse (featureTime f) (featureFileName f) = None).
Proof.
  assert (Hd : forall f' : Feature num,
            featureTime f' = featureTime f ->
            featureFileName f' = featureFileName f ->
            (orElse (featureTime f) (featureFileName f) <> None ->
             exists gs, dated f' = Ok gs) /\
            (forall e, dated f' = Throw e ->
               e = TypeError /\
               orElse (featureTime f) (featureFileName f) = None)).
  { intros f' <- <-. destruct f' as [b p c|b p c|ty p]; cbn; unfold fileDate;
      destruct (orElse (time p) (gpxFileName p)) as [s|]; cbn;
      (split; [intros H; try contradiction; eexists; reflexivity|]);
      intros e [= <-]; split; reflexivity. }
  destruct f as [b p c|b p c|ty p]; [|apply (Hd _ eq_refl eq_refl)..].
  unfold dateSplit.
  destruct (coordTimes p) as [ts|] eqn:Hct; [|apply (Hd _ eq_refl eq_refl)].
  destruct (Nat.eqb_spec (length ts) (length c)) as [Hlen|Hlen];
    cbn [negb]; [|apply (Hd _ eq_refl eq_refl)].
  destruct (dateSplit_segments p ts c b Hct Hlen) as (days & Hsplit & _).
  unfold dateSplit in Hsplit. rewrite Hct, Hlen, Nat.eqb_refl in Hsplit.
  cbn [negb] in Hsplit.
  split; [intros _; exists days; exact Hsplit|].
  intros e He. rewrite He in Hsplit. discriminate.
Qed.

(** ** More on [multiSplit] *)

Section MultiSplitMore.
Context {num : Type}.
Variable p : Properties num (list (list string)).

Lemma splitPart_without (i : nat) (c : list (list num)) :
  coordTimes p = None -> splitPart p i c = Ok (partWithoutTimes p c).
Proof. intros H. unfold splitPart. rewrite H. reflexivity. Qed.

Lemma splitPart_with tss (i : nat) (c : list (list num)) g :
  coordTimes p = Some tss ->
  splitPart p i c = Ok g <->
  exists ts, tss !! i = Some ts /\ length ts = length c /\
             time p = tss !! 0 ≫= head /\ g = partWithTimes p c ts.
Proof.
  intros H. unfold splitPart. rewrite H.
  destruct (tss !! i) as [ts|]; [|split; [discriminate|intros (? & ? & _); discriminate]].
  destruct (Nat.eqb_spec (length ts) (length c)) as [Hlen|Hlen]; cbn.
  - destruct (eqStr (time p) (tss !! 0 ≫= head)) eqn:Ht; cbn.
    + apply eqStr_eq in Ht. split.
      * intros [= <-]. exists ts. repeat split; assumption.
      * intros (ts' & [= <-] & _ & _ & ->). reflexivity.
    + split; [discriminate|]. intros (ts' & _ & _ & Ht' & _).
      apply eqStr_eq in Ht'. congruence.
  - split; [discriminate|]. intros (ts' & [= <-] & Hlen' & _). contradiction.
Qed.

Lemma mapi_from_without (css : list (list (list num))) :
  coordTimes p = None ->
  forall i, mapi_from i (splitPart p) css = Ok (map (partWithoutTimes p) css).
Proof.
  intros H. induction css as [|c css IH]; intros i; [reflexivity|].
  cbn [mapi_from map]. rewrite (splitPart_without i c H), bind_Ok, IH.
  reflexivity.
Qed.

Lemma mapi_from_with tss (css : list (list (list num))) :
  coordTimes p = Some tss ->
  forall i gs,
    mapi_from i (splitPart p) css = Ok gs <->
    (css = [] \/ time p = tss !! 0 ≫= head) /\
    length css <= length (drop i tss) /\
    Forall2 (fun ct g => length ct.2 = length ct.1 /\
                         g = partWithTimes p ct.1 ct.2)
      (zip css (drop i tss)) gs.
Proof.
  intros H. induction css as [|c css IH]; intros i gs.
  - cbn. split.
    + intros [= <-]. split; [left; reflexivity|]. split; [lia|constructor].
    + intros (_ & _ & HF). inversion HF. reflexivity.
  - cbn [mapi_from]. split.
    + intros Hm.
      destruct (splitPart p i c) as [g|] eqn:Hg; [|discriminate].
      rewrite bind_Ok in Hm.
      destruct (mapi_from (S i) (splitPart p) css) as [k|] eqn:Hk;
        [|discriminate].
      injection Hm as <-.
      apply (splitPart_with tss) in Hg as (ts & Hts & Hlen & Ht & ->);
        [|exact H].
      apply IH in Hk as (_ & Hle & HF).
      rewrite (drop_S _ _ _ Hts). cbn [length zip zip_with].
      split; [right; exact Ht|]. split; [lia|].
      constructor; [split; [exact Hlen | reflexivity] | exact HF].
    + intros ([Hnil|Ht] & Hle & HF); [discriminate|].
      destruct (tss !! i) as [ts|] eqn:Hts.
      * rewrite (drop_S _ _ _ Hts) in Hle, HF. cbn in Hle, HF.
        apply Forall2_cons_inv_l in HF as (g & k & [Hlen ->] & HF & ->).
        cbn in Hlen.
        rewrite (proj2 (splitPart_with tss i c _ H)), bind_Ok
          by (exists ts; auto).
        rewrite (proj2 (IH (S i) k)); [reflexivity|].
        split; [right; exact Ht|]. split; [lia | exact HF].
      * apply lookup_ge_None in Hts. rewrite drop_ge in Hle by exact Hts.
        cbn in Hle. lia.
Qed.

Lemma parts_with_times (css : list (list (list num))) :
  forall tss gs,
    length css <= length tss ->
    Forall2 (fun ct g => length ct.2 = length ct.1 /\
                         g = partWithTimes p ct.1 ct.2)
      (zip css tss) gs ->
    Forall (fun g => isLineString g = true /\
              (hasCoordTimes g = true ->
               length (lineTimes g) = length (lineCoordinates g))) gs /\
    map lineCoordinates gs = css.
Proof.
  induction css as [|c css IH]; intros tss gs Hle HF.
  - inversion HF. split; [constructor | reflexivity].
  - destruct tss as [|ts tss]; [cbn in Hle; lia|]. cbn in Hle, HF.
    apply Forall2_cons_inv_l in HF as (g & k & [Hlen ->] & HF & ->).
    destruct (IH tss k ltac:(lia) HF) as [IH1 IH2].
    split; [constructor; [split; [reflexivity | intros _; exact Hlen]
                         | exact IH1]|].
    cbn. rewrite IH2. reflexivity.
Qed.

End MultiSplitMore.

(** X4: [multiSplit] makes one LineString per part of a MultiLineString,
    in order, each with the scalar properties of the feature.  Without
    [coordTimes] it always succeeds.  With [coordTimes] it succeeds exactly
    when there is an array of timestamps for every part, as long as the
    part, and (unless there is no part at all) the feature's [time] is the
    first timestamp of the first array; part [i] then gets the [i]-th
    array as [coordTimes] and its first timestamp as [time], and arrays
    beyond the last part are ignored. *)
Theorem multiSplit_parts {num : Type} (b : option (list (option num)))
    (p : Properties num (list (list string)))
    (coordinates : list (list (list num))) :
  match coordTimes p with
  | None =>
      multiSplit (MultiLineFeature b p coordinates) =
      Ok (map (partWithoutTimes p) coordinates)
  | Some tss =>
      forall gs,
        multiSplit (MultiLineFeature b p coordinates) = Ok gs <->
        (coordinates = [] \/ time p = tss !! 0 ≫= head) /\
        length coordinates <= length tss /\
        Forall2 (fun ct g => length ct.2 = length ct.1 /\
                             g = partWithTimes p ct.1 ct.2)
          (zip coordinates tss) gs
  end.
Proof.
  destruct (coordTimes p) as [tss|] eqn:H.
  - intros gs. cbn [multiSplit].
    rewrite (mapi_from_with p tss coordinates H 0 gs), drop_0. reflexivity.
  - cbn [multiSplit]. apply mapi_from_without, H.
Qed.

(** X5: when [multiSplit] returns for a MultiLineString, every feature it
    returns is a LineString (the pipeline's filter keeps them all) whose
    [coordTimes], if it has any, are as many as its positions ([dateSplit]
    will split it by day), and the returned positions, put together, are
    those of the parts, in order. *)
Theorem multiSplit_keeps_points {num : Type} (b : option (list (option num)))
    (p : Properties num (list (list string)))
    (coordinates : list (list (list num))) (gs : list (Feature num)) :
  multiSplit (MultiLineFeature b p coordinates) = Ok gs ->
  Forall (fun g => isLineString g = true /\
                   (hasCoordTimes g = true ->
                    length (lineTimes g) = length (lineCoordinates g))) gs /\
  map lineCoordinates gs = coordinates /\
  filter (fun g => isLineString g = true) gs = gs.
Proof.
  intros H. cbn [multiSplit] in H.
  assert (Hall : Forall (fun g => isLineString g = true /\
                   (hasCoordTimes g = true ->
                    length (lineTimes g) = length (lineCoordinates g))) gs /\
                 map lineCoordinates gs = coordinates).
  { destruct (coordTimes p) as [tss|] eqn:Hct.
    - pose proof (proj1 (mapi_from_with p tss coordinates Hct 0 gs) H)
        as (_ & Hle & HF).
      rewrite drop_0 in Hle, HF.
      exact (parts_with_times p coordinates tss gs Hle HF).
    - rewrite (mapi_from_without p coordinates Hct 0) in H.
      injection H as <-. split.
      + apply Forall_fmap, Forall_forall. intros c _.
        split; [reflexivity | discriminate].
      + rewrite <- list_fmap_compose. apply list_fmap_id. }
  destruct Hall as [Hall Hcs]. split; [exact Hall|]. split; [exact Hcs|].
  clear H Hcs. induction Hall as [|g gs [Hg _] _ IH]; [reflexivity|].
  rewrite filter_cons_True by exact Hg. rewrite IH. reflexivity.
Qed.

Lemma multiSplit_keeps_points_witness :
  map lineCoordinates
    [partWithoutTimes
       (mkProperties None None None (Some "parts.gpx") None [])
       [[0; 0]; [1; 0]]%Z;
     partWithoutTimes
       (mkProperties None None None (Some "parts.gpx") None [])
       [[1; 1]; [2; 1]]%Z] =
  [[[0; 0]; [1; 0]]; [[1; 1]; [2; 1]]]%Z.
Proof.
  refine (proj1 (proj2 (multiSplit_keeps_points None
            (mkProperties None None None (Some "parts.gpx") None [])
            [[[0; 0]; [1; 0]]; [[1; 1]; [2; 1]]]%Z _ _))).
  reflexivity.
Defined.

(** ** [timeCompare] *)

Section TimeCompareFacts.
Context {num : Type}.
Implicit Types (lhs rhs : Feature num).

Lemma ltStr_asym (a b : option string) :
  ltStr a b = true -> ltStr b a = false.
Proof.
  destruct a as [x|], b as [y|]; cbn; try discriminate.
  rewrite !ltb_negb_leb. intros H.
  destruct (String.leb_total x y) as [E|E]; rewrite E in *;
    [reflexivity | discriminate].
Qed.

(** On features that have a key, [timeCompare] is the order of the keys. *)
Lemma timeCompare_leb lhs rhs x y :
  timeKey lhs = Some x -> timeKey rhs = Some y ->
  (timeCompare lhs rhs <=? 0)%Z = String.leb x y.
Proof.
  unfold timeKey, timeCompare. intros -> ->. cbv zeta. cbn [ltStr].
  rewrite !ltb_negb_leb.
  destruct (String.leb_total x y) as [E|E]; rewrite E; cbn.
  - destruct (String.leb y x); reflexivity.
  - destruct (String.leb x y); reflexivity.
Qed.

End TimeCompareFacts.

(** X6: [timeCompare] orders features by their key [time || date]:
    swapping the arguments negates the result; on two features that have
    a key it is negative, zero or positive as the first key is below,
    equal to or above the second in the order of strings, and so
    transitive on features that all have a key; a feature without key
    compares equal to every feature, so that with one such feature
    equality is no longer transitive: the comparator is consistent on
    features with keys, and not on all features. *)
Theorem timeCompare_orders_keys {num : Type} (lhs rhs : Feature num) :
  timeCompare rhs lhs = (- timeCompare lhs rhs)%Z /\
  (forall x y, timeKey lhs = Some x -> timeKey rhs = Some y ->
     (timeCompare lhs rhs = (-1)%Z <-> String.ltb x y = true) /\
     (timeCompare lhs rhs = 0%Z <-> x = y) /\
     (timeCompare lhs rhs = 1%Z <-> String.ltb y x = true)) /\
  (forall third,
     is_Some (timeKey lhs) -> is_Some (timeKey rhs) ->
     is_Some (timeKey third) ->
     (timeCompare lhs rhs <= 0)%Z -> (timeCompare rhs third <= 0)%Z ->
     (timeCompare lhs third <= 0)%Z) /\
  (timeKey lhs = None \/ timeKey rhs = None -> timeCompare lhs rhs = 0%Z) /\
  (exists a b c : Feature num,
     timeCompare a b = 0%Z /\ timeCompare b c = 0%Z /\
     timeCompare a c = (-1)%Z).
Proof.
  split; [|split; [|split; [|split]]].
  - unfold timeCompare. cbv zeta.
    set (a := orElse (featureTime lhs) (featureDate lhs)).
    set (b := orElse (featureTime rhs) (featureDate rhs)).
    destruct (ltStr a b) eqn:Hab.
    + rewrite (ltStr_asym _ _ Hab). reflexivity.
    + destruct (ltStr b a); reflexivity.
  - unfold timeKey, timeCompare. cbv zeta. intros x y -> ->. cbn [ltStr].
    destruct (String.ltb x y) eqn:Hxy.
    + pose proof (ltStr_asym (Some x) (Some y) Hxy) as Hyx. cbn in Hyx.
      rewrite Hyx. repeat split; try discriminate; try reflexivity.
      intros ->. rewrite Hxy in Hyx. discriminate.
    + destruct (String.ltb y x) eqn:Hyx.
      * repeat split; try discriminate; try reflexivity.
        intros ->. rewrite Hxy in Hyx. discriminate.
      * repeat split; try discriminate; try reflexivity.
        intros _. rewrite ltb_negb_leb in Hxy, Hyx.
        apply String.leb_antisym.
        -- destruct (String.leb x y); [reflexivity | discriminate].
        -- destruct (String.leb y x); [reflexivity | discriminate].
  - intros third [x Hx] [y Hy] [z Hz] Hxy Hyz.
    apply Z.leb_le in Hxy, Hyz. apply Z.leb_le.
    rewrite (timeCompare_leb _ _ x y Hx Hy) in Hxy.
    rewrite (timeCompare_leb _ _ y z Hy Hz) in Hyz.
    rewrite (timeCompare_leb _ _ x z Hx Hz).
    eapply leb_trans; eassumption.
  - unfold timeKey, timeCompare. cbv zeta.
    set (a := orElse (featureTime lhs) (featureDate lhs)).
    set (b := orElse (featureTime rhs) (featureDate rhs)).
    intros [-> | ->]; cbn.
    + destruct b; reflexivity.
    + destruct a; reflexivity.
  - exists (OtherFeature Point (mkProperties (Some "a") None None None None [])),
      (OtherFeature Point (mkProperties None None None None None [])),
      (OtherFeature Point (mkProperties (Some "b") None None None None [])).
    repeat split.
Qed.

(** ** [distance] *)

Section DistanceFacts.
Context {num : Type} (host : Host num).
Implicit Types (seg : list (LatLng host)) (parts : list (list (LatLng host))).

Lemma distanceOf_Nested parts :
  distanceOf host (Nested parts) = foldl (addSegment host) (zero host) parts.
Proof. destruct parts; reflexivity. Qed.

Lemma distanceOf_Flat seg :
  distanceOf host (Flat seg) = addSegment host (zero host) seg.
Proof. destruct seg; reflexivity. Qed.

Lemma addSegment_short d seg : length seg <= 1 -> addSegment host d seg = d.
Proof.
  intros H. unfold addSegment.
  destruct (Nat.ltb_spec 1 (length seg)); [lia | reflexivity].
Qed.

Lemma foldl_addSegment_filter parts : forall d,
  foldl (addSegment host) d parts =
  foldl (addSegment host) d
    (filter (fun seg => 1 < length seg) parts).
Proof.
  induction parts as [|seg parts IH]; intros d; [reflexivity|].
  cbn [foldl]. destruct (decide (1 < length seg)) as [H|H].
  - rewrite filter_cons_True by exact H. cbn [foldl]. apply IH.
  - rewrite filter_cons_False by exact H.
    rewrite addSegment_short by lia. apply IH.
Qed.

Lemma foldl_steps (l : list (LatLng host)) : forall d p,
  (foldl (fun '(d, p) q => (plus host d (Earth_distance host p q), q))
     (d, p) l).1 =
  foldl (plus host) d (zip_with (Earth_distance host) (p :: l) l).
Proof.
  induction l as [|x l IH]; intros d p; [reflexivity|].
  cbn [foldl zip_with]. apply IH.
Qed.

End DistanceFacts.

(** X7: parts of no point or of one point do not count: the distance of
    a multi-part line is that of its parts of two or more points, and a
    line of fewer than two points has the distance [0]. *)
Theorem distance_ignores_short_parts {num : Type} (host : Host num)
    (parts : list (list (LatLng host))) :
  distanceOf host (Nested parts) =
    distanceOf host (Nested (filter (fun seg => 1 < length seg) parts)) /\
  (forall points, length points <= 1 ->
     distanceOf host (Flat points) = zero host).
Proof.
  split.
  - rewrite !distanceOf_Nested. apply foldl_addSegment_filter.
  - intros points H. rewrite distanceOf_Flat. apply addSegment_short, H.
Qed.

(** X8: the distance of a line is that of the multi-part line made of
    this one part, and the distance of parts followed by more parts is
    the running total of the first parts carried on through the others. *)
Theorem distance_runs_on {num : Type} (host : Host num)
    (points : list (LatLng host)) (parts more : list (list (LatLng host))) :
  distanceOf host (Flat points) = distanceOf host (Nested [points]) /\
  distanceOf host (Nested (parts ++ more)) =
    foldl (addSegment host) (distanceOf host (Nested parts)) more.
Proof.
  split.
  - rewrite distanceOf_Flat, distanceOf_Nested. reflexivity.
  - rewrite !distanceOf_Nested. apply foldl_app.
Qed.

(** X9: for a part of [n >= 2] points the running total grows by [n]
    terms, added one after the other: first the distance of the last point
    to itself, then the distance between each two neighbours, from the end
    of the part to its start. *)
Theorem addSegment_steps {num : Type} (host : Host num) (dist : num)
    (seg : list (LatLng host)) :
  1 < length seg ->
  addSegment host dist seg = foldl (plus host) dist (steps host seg) /\
  length (steps host seg) = length seg /\
  (forall a b c, seg = [a; b; c] ->
     steps host seg = [Earth_distance host c c; Earth_distance host c b;
                       Earth_distance host b a]).
Proof.
  intros H. unfold addSegment, steps.
  rewrite (proj2 (Nat.ltb_lt _ _) H).
  pose proof (length_reverse seg) as Hrev.
  destruct (reverse seg) as [|last before] eqn:E; [cbn in Hrev; lia|].
  split; [|split].
  - rewrite foldl_steps. reflexivity.
  - rewrite length_zip_with, <- Hrev. cbn [length]. lia.
  - intros a b c ->. cbn in E. injection E as <- <-. reflexivity.
Qed.

Lemma addSegment_steps_witness :
  addSegment planarHost 0%Z [(0, 0, None); (0, 3, None); (4, 3, None)]%Z =
  7%Z.
Proof.
  refine (eq_trans (proj1 (addSegment_steps planarHost 0%Z
            [(0, 0, None); (0, 3, None); (4, 3, None)]%Z _)) _).
  - cbn. lia.
  - reflexivity.
Defined.

(** ** The sum of the parts *)

Section DistanceSums.
Context {num : Type} (host : Host num).
Implicit Types (seg : list (LatLng host)) (parts : list (list (LatLng host))).

Section Laws.
Hypothesis plus_assoc : forall a b c,
  plus host a (plus host b c) = plus host (plus host a b) c.
Hypothesis plus_zero_l : forall a, plus host (zero host) a = a.
Hypothesis plus_zero_r : forall a, plus host a (zero host) = a.




End Laws.

Section Signs.
Variable nonneg : num -> Prop.
Hypothesis nonneg_plus : forall a b,
  nonneg a -> nonneg b -> nonneg (plus host a b).
Hypothesis nonneg_distance : forall p q, nonneg (Earth_distance host p q).





End Signs.
End DistanceSums.




(** ** [gpxToJson] *)

Lemma append_nil_l (s : string) : ("" ++ s)%string = s.
Proof. reflexivity. Qed.

Lemma append_cons (a : ascii) (s1 s2 : string) :
  (String a s1 ++ s2)%string = String a (s1 ++ s2).
Proof. reflexivity. Qed.

Section BaseNameFacts.
Variable c : ascii.

Lemma lastIndexFrom_absent s : forall i found,
  contains c s = false -> lastIndexFrom c s i found = found.
Proof.
  induction s as [|a s IH]; intros i found H; [reflexivity|].
  cbn in *. apply orb_false_iff in H as [Ha Hs]. rewrite Ha. apply IH, Hs.
Qed.

Lemma lastIndexFrom_app pre post : forall i found,
  lastIndexFrom c (pre ++ String c post) i found =
  lastIndexFrom c post (i + Z.of_nat (String.length pre) + 1)
    (i + Z.of_nat (String.length pre)).
Proof.
  induction pre as [|a pre IH]; intros i found.
  - rewrite append_nil_l. cbn. rewrite Ascii.eqb_refl. f_equal; lia.
  - rewrite append_cons. cbn [lastIndexFrom String.length]. rewrite IH.
    f_equal; lia.
Qed.

(** A string without [c], or what is before and after its last [c]. *)
Lemma last_occurrence s :
  contains c s = false \/
  exists pre post, s = (pre ++ String c post)%string /\
                   contains c post = false.
Proof.
  induction s as [|a s IH]; [left; reflexivity|].
  destruct IH as [Hs|(pre & post & -> & Hpost)].
  - destruct (Ascii.eqb_spec a c) as [->|Hne].
    + right. exists ""%string, s. split; [reflexivity | exact Hs].
    + left. cbn. rewrite Hs. apply orb_false_iff. split; [|reflexivity].
      apply Ascii.eqb_neq, Hne.
  - right. exists (String a pre), post. split; [reflexivity | exact Hpost].
Qed.

End BaseNameFacts.

Lemma substring_0_all (s : string) : substring 0 (String.length s) s = s.
Proof. induction s as [|a s IH]; cbn; [reflexivity | rewrite IH; reflexivity]. Qed.

Lemma substring_skip (pre s : string) (m : nat) :
  substring (String.length pre) m (pre ++ s) = substring 0 m s.
Proof. induction pre as [|a pre IH]; [reflexivity | exact IH]. Qed.

Lemma length_append (s1 s2 : string) :
  String.length (s1 ++ s2) = String.length s1 + String.length s2.
Proof.
  induction s1 as [|a s1 IH]; [reflexivity|].
  rewrite append_cons. cbn [String.length]. rewrite IH. reflexivity.
Qed.

Lemma baseName_after_slash (pre post : string) :
  contains "/" post = false ->
  baseName (pre ++ String "/" post) = post.
Proof.
  intros H. unfold baseName, lastIndexOf.
  rewrite lastIndexFrom_app, (lastIndexFrom_absent _ _ _ _ H).
  replace (Z.to_nat (1 + (0 + Z.of_nat (String.length pre))))
    with (String.length (pre ++ "/")) by (rewrite length_append; cbn; lia).
  unfold substrFrom.
  replace (pre ++ String "/" post)%string with ((pre ++ "/") ++ post)%string.
  - rewrite substring_skip, length_append.
    replace (String.length (pre ++ "/") + String.length post
             - String.length (pre ++ "/")) with (String.length post) by lia.
    apply substring_0_all.
  - clear. induction pre as [|a pre IH]; [reflexivity|].
    rewrite !append_cons, IH. reflexivity.
Qed.

Lemma baseName_no_slash (s : string) : contains "/" s = false -> baseName s = s.
Proof.
  intros H. unfold baseName, lastIndexOf.
  rewrite (lastIndexFrom_absent _ _ _ _ H). cbn [Z.add Z.to_nat].
  unfold substrFrom. change (Z.to_nat (1 + -1)) with 0.
  rewrite Nat.sub_0_r. apply substring_0_all.
Qed.

(** X10: the file name that [gpxToJson] records is what follows the last
    slash of the path: for [`${GPXDIR}/${file}`] with a [file] without
    slash it is [file], for a path without slash it is the path, and it
    never contains a slash. *)
Theorem baseName_is_file_name (path : string) :
  (forall dir file, path = (dir ++ "/" ++ file)%string ->
     contains "/" file = false -> baseName path = file) /\
  (contains "/" path = false -> baseName path = path) /\
  contains "/" (baseName path) = false.
Proof.
  split; [|split].
  - intros dir file -> H. apply baseName_after_slash, H.
  - apply baseName_no_slash.
  - destruct (last_occurrence "/" path) as [H|(pre & post & -> & H)].
    + rewrite baseName_no_slash by exact H. exact H.
    + rewrite baseName_after_slash by exact H. exact H.
Qed.

(** ** [gpxToJson] and the stages of the script *)

Lemma mapM_Ok_inv {X Y : Type} (fn : X -> Result Y) (l : list X) : forall ys,
  mapM fn l = Ok ys -> Forall2 (fun x y => fn x = Ok y) l ys.
Proof.
  induction l as [|x l IH]; intros ys H.
  - injection H as <-. constructor.
  - rewrite mapM_Result_cons in H.
    destruct (fn x) as [y|] eqn:Hy; [|discriminate].
    rewrite bind_Ok in H.
    destruct (mapM fn l) as [k|] eqn:Hk; [|discriminate].
    injection H as <-. constructor; [exact Hy | apply IH; reflexivity].
Qed.

Lemma mapM_Ok_intro {X Y : Type} (fn : X -> Result Y) (l : list X) ys :
  Forall2 (fun x y => fn x = Ok y) l ys -> mapM fn l = Ok ys.
Proof.
  induction 1 as [|x y l ys Hy _ IH]; [reflexivity|].
  rewrite mapM_Result_cons, Hy, bind_Ok, IH. reflexivity.
Qed.

(** What [flatMap] returns is made of what the callback returned. *)
Lemma flatMap_Forall {X Y : Type} (fn : X -> Result (list Y))
    (P : X -> Prop) (Q : Y -> Prop) (l : list X) ys :
  (forall x r, P x -> fn x = Ok r -> Forall Q r) ->
  Forall P l -> flatMap fn l = Ok ys -> Forall Q ys.
Proof.
  intros Hfn HP H. unfold flatMap in H.
  destruct (mapM fn l) as [rs|] eqn:Hrs; [|discriminate].
  injection H as <-. apply mapM_Ok_inv in Hrs.
  apply Forall_concat.
  induction Hrs as [|x r l rs Hx _ IH]; [constructor|].
  apply Forall_cons in HP as [HPx HP].
  constructor; [exact (Hfn x r HPx Hx) | exact (IH HP)].
Qed.

Section StageFacts.
Context {num : Type}.
Implicit Types (f g : Feature num).

Lemma withFileName_name name f :
  featureFileName (withFileName name f) = Some name.
Proof. destruct f; reflexivity. Qed.

Lemma multiSplit_fileName f gs :
  multiSplit f = Ok gs ->
  Forall (fun g => featureFileName g = featureFileName f) gs.
Proof.
  destruct f as [b p c|b p c|ty p]; cbn [multiSplit].
  - intros [= <-]. repeat constructor.
  - destruct (coordTimes p) as [tss|] eqn:Hct.
    + intros H.
      pose proof (proj1 (mapi_from_with p tss c Hct 0 gs) H) as (_ & _ & HF).
      apply (Forall2_Forall_r _ _ _ _ HF).
      apply Forall_true. intros ct g [_ ->]. reflexivity.
    + rewrite (mapi_from_without p c Hct). intros [= <-].
      apply Forall_map, Forall_true. intros part. reflexivity.
  - intros [= <-]. repeat constructor.
Qed.

(** A feature with a file name is always dated. *)
Lemma dateSplit_named f :
  is_Some (featureFileName f) -> exists gs, dateSplit f = Ok gs.
Proof.
  intros [name Hname].
  assert (Hd : forall f', featureFileName f' = Some name ->
                 exists gs, dated f' = Ok gs).
  { intros f' H. destruct f' as [b p c|b p c|ty p]; cbn in H; cbn [dated];
      unfold fileDate; rewrite H;
      (destruct (time p) as [t|]; cbn; [destruct (String.eqb t "")|]);
      eexists; reflexivity. }
  destruct f as [b p c|b p c|ty p]; [|apply Hd; exact Hname..].
  unfold dateSplit.
  destruct (coordTimes p) as [ts|] eqn:Hct; [|apply Hd; exact Hname].
  destruct (Nat.eqb_spec (length ts) (length c)) as [Hlen|Hlen];
    cbn [negb]; [|apply Hd; exact Hname].
  destruct (dateSplit_segments p ts c b Hct Hlen) as (days & Hsplit & _).
  unfold dateSplit in Hsplit. rewrite Hct, Hlen, Nat.eqb_refl in Hsplit.
  exists days. exact Hsplit.
Qed.

Lemma dateSplit_days f gs :
  isLineString f = true -> dateSplit f = Ok gs -> Forall isDay gs.
Proof.
  intros Hline H. destruct f as [b p c|b p c|ty p]; try discriminate.
  assert (Hd : dated (LineFeature b p c) = Ok gs -> Forall isDay gs).
  { intros Hd. pose proof (dated_dates _ _ Hd) as Hk.
    cbn [dated] in Hd. destruct (fileDate p) as [d|]; [|discriminate].
    injection Hd as <-. apply Forall_inv in Hk.
    constructor; [split; [reflexivity | exact Hk] | constructor]. }
  unfold dateSplit in H.
  destruct (coordTimes p) as [ts|] eqn:Hct; [|exact (Hd H)].
  destruct (Nat.eqb_spec (length ts) (length c)) as [Hlen|Hlen];
    cbn [negb] in H; [|exact (Hd H)].
  destruct (dateSplit_segments p ts c b Hct Hlen) as (days & Hsplit & Hseg).
  unfold dateSplit in Hsplit. rewrite Hct, Hlen, Nat.eqb_refl in Hsplit.
  cbn [negb] in Hsplit. rewrite H in Hsplit. injection Hsplit as <-.
  apply Forall_lookup. intros k g Hk.
  destruct (Forall2_lookup_l _ _ _ _ _ Hseg Hk) as (r & _ & Hgr).
  split; [|eapply daySegment_dates, Hgr].
  destruct Hgr as (t & _ & -> & _). reflexivity.
Qed.

End StageFacts.

(** The script's own part of [gpxToJson]. *)
Lemma fileFeatures_spec {num : Type} (path : string) (gpx : Gpx num) :
  (forall fs, fileFeatures path gpx = Ok fs <->
     gpxType gpx = "FeatureCollection" /\
     Forall (fun tf => tf.1 = "Feature") (gpxFeatures gpx) /\
     fs = map (fun tf => withFileName (baseName path) tf.2)
            (gpxFeatures gpx)) /\
  (forall fs, fileFeatures path gpx = Ok fs ->
     length fs = length (gpxFeatures gpx) /\
     Forall (fun f => featureFileName f = Some (baseName path)) fs) /\
  (forall e, fileFeatures path gpx = Throw e -> e = AssertionError).
Proof.
  unfold fileFeatures.
  set (fn := fun tf : string * Feature num =>
               _ ← assert (String.eqb tf.1 "Feature");
               Ok (withFileName (baseName path) tf.2)).
  assert (Hm : forall l,
            (forall fs, mapM fn l = Ok fs <->
               Forall (fun tf => tf.1 = "Feature") l /\
               fs = map (fun tf => withFileName (baseName path) tf.2) l) /\
            (forall e, mapM fn l = Throw e -> e = AssertionError)).
  { assert (Hfn : forall ty f,
              fn (ty, f) =
              if String.eqb ty "Feature"
              then Ok (withFileName (baseName path) f)
              else Throw AssertionError).
    { intros ty f. unfold fn. cbn [fst snd].
      destruct (String.eqb ty "Feature"); reflexivity. }
    induction l as [|[ty f] l [IH1 IH2]].
    - split; [|discriminate]. intros fs. split.
      + intros [= <-]. split; [constructor | reflexivity].
      + intros [_ ->]. reflexivity.
    - rewrite mapM_Result_cons, Hfn.
      destruct (String.eqb_spec ty "Feature") as [->|Hty].
      + rewrite bind_Ok.
        destruct (mapM fn l) as [k|e'] eqn:Hk.
        * rewrite bind_Ok. pose proof (proj1 (IH1 k) eq_refl) as [HF ->].
          split; [|discriminate]. intros fs. split.
          -- intros [= <-]. split; [constructor; [reflexivity | exact HF]|].
             reflexivity.
          -- intros [_ ->]. reflexivity.
        * rewrite bind_Throw. split.
          -- intros fs. split; [discriminate|]. intros [HF ->].
             apply Forall_cons in HF as [_ HF].
             pose proof (proj2 (IH1 _) (conj HF eq_refl)). discriminate.
          -- intros e [= <-]. apply IH2. reflexivity.
      + rewrite bind_Throw. split.
        * intros fs. split; [discriminate|]. intros [HF _].
          apply Forall_cons in HF as [E _]. contradiction.
        * intros e [= <-]. reflexivity. }
  destruct (Hm (gpxFeatures gpx)) as [Hm1 Hm2].
  destruct (String.eqb_spec (gpxType gpx) "FeatureCollection") as [E|E];
    cbn [assert].
  - rewrite bind_Ok. split; [|split].
    + intros fs. rewrite Hm1. tauto.
    + intros fs H. apply Hm1 in H as [_ ->]. rewrite length_map.
      split; [reflexivity|]. apply Forall_map, Forall_true.
      intros tf. apply withFileName_name.
    + exact Hm2.
  - rewrite bind_Throw. split; [|split].
    + intros fs. split; [discriminate|]. intros [E' _]. contradiction.
    + discriminate.
    + intros e [= <-]. reflexivity.
Qed.

(** X11: [gpxToJson] passes on what reading or parsing the file throws;
    once the file is parsed it returns the features of the collection, one
    for one and in order, each with the base name of the path as
    [gpxFileName], exactly when the [type] of the collection is
    ['FeatureCollection'] and that of each of its features is ['Feature'];
    the only exception of its own is an AssertionError. *)
Theorem gpxToJson_features {num : Type} (path : string)
    (parsed : Parsed num) :
  match parsed with
  | ParseThrows what => gpxToJson path parsed = LibraryThrown what
  | ParsedGpx gpx =>
      (forall fs, gpxToJson path parsed = Returned fs <->
         gpxType gpx = "FeatureCollection" /\
         Forall (fun tf => tf.1 = "Feature") (gpxFeatures gpx) /\
         fs = map (fun tf => withFileName (baseName path) tf.2)
                (gpxFeatures gpx)) /\
      (forall fs, gpxToJson path parsed = Returned fs ->
         length fs = length (gpxFeatures gpx) /\
         Forall (fun f => featureFileName f = Some (baseName path)) fs) /\
      (forall e, gpxToJson path parsed = Thrown e -> e = AssertionError) /\
      (forall what, gpxToJson path parsed <> LibraryThrown what)
  end.
Proof.
  destruct parsed as [what|gpx]; [reflexivity|]. cbn [gpxToJson].
  destruct (fileFeatures_spec path gpx) as (Hok & Hnames & Hthrow).
  destruct (fileFeatures path gpx) as [features|e'].
  - split; [|split; [|split]].
    + intros fs. rewrite <- Hok. split; intros [= ->]; reflexivity.
    + intros fs [= <-]. apply Hnames. reflexivity.
    + discriminate.
    + discriminate.
  - split; [|split; [|split]].
    + intros fs. rewrite <- Hok. split; discriminate.
    + discriminate.
    + intros e [= <-]. apply Hthrow. reflexivity.
    + discriminate.
Qed.

(** X12: the features that [gpxToJson] returns all have a file name; for
    such features, once [multiSplit] has split them, the [dateSplit] stage
    of the script cannot throw, and what it returns are LineStrings that
    have a key to sort by and the day of that key as [date]. *)
Theorem named_features_are_dated {num : Type}
    (features parts : list (Feature num)) :
  Forall (fun f => is_Some (featureFileName f)) features ->
  flatMap multiSplit features = Ok parts ->
  exists days,
    flatMap dateSplit (filter (fun f => isLineString f = true) parts) =
      Ok days /\
    Forall isDay days.
Proof.
  intros Hnamed Hparts.
  assert (Hp : Forall (fun f => is_Some (featureFileName f)) parts).
  { refine (flatMap_Forall multiSplit _ _ features parts _ Hnamed Hparts).
    intros f r Hf Hr. apply multiSplit_fileName in Hr.
    eapply Forall_impl; [exact Hr|]. intros g ->. exact Hf. }
  set (lines := filter (fun f => isLineString f = true) parts).
  assert (Hl : Forall (fun f => isLineString f = true /\
                               is_Some (featureFileName f)) lines).
  { apply Forall_forall. intros f Hf.
    apply list_elem_of_filter in Hf as [Hline Hf].
    split; [exact Hline|]. exact (proj1 (Forall_forall _ _) Hp f Hf). }
  destruct (mapM_Ok_Forall2 dateSplit (fun _ _ => True) lines)
    as (rs & Hrs & _).
  { eapply Forall_impl; [exact Hl|]. intros f [_ Hf].
    destruct (dateSplit_named f Hf) as [gs Hgs]. exists gs. auto. }
  exists (concat rs).
  assert (E : flatMap dateSplit lines = Ok (concat rs)).
  { unfold flatMap. rewrite Hrs. reflexivity. }
  split; [exact E|].
  refine (flatMap_Forall dateSplit _ _ lines _ _ Hl E).
  intros f r [Hline _]. apply dateSplit_days, Hline.
Qed.

Lemma named_features_are_dated_witness :
  exists days,
    flatMap dateSplit
      (filter (fun f => isLineString f = true) [overnight; mixedDims]) =
      Ok days /\
    Forall isDay days.
Proof.
  apply (named_features_are_dated [overnight; mixedDims]).
  - repeat constructor; eexists; reflexivity.
  - reflexivity.
Defined.

(** ** The sort *)

Section SortFacts.
Context {X : Type} (cmp : X -> X -> Z).

Lemma insertSorted_perm x l : insertSorted cmp x l ≡ₚ x :: l.
Proof.
  induction l as [|y l IH]; [reflexivity|]. cbn.
  destruct (cmp x y <=? 0)%Z; [reflexivity|].
  rewrite IH. apply Permutation_swap.
Qed.

Lemma sort_perm l : sort cmp l ≡ₚ l.
Proof.
  induction l as [|x l IH]; [reflexivity|].
  unfold sort in *. cbn [foldr]. rewrite insertSorted_perm, IH. reflexivity.
Qed.

(** When the comparator decides an order [R] on the elements that satisfy
    [P], sorting such elements gives a list in that order. *)
Lemma insertSorted_sorted (R : X -> X -> Prop) (P : X -> Prop)
    `{!Transitive R} :
  (forall a b, P a -> P b -> (cmp a b <=? 0)%Z = true -> R a b) ->
  (forall a b, P a -> P b -> (cmp a b <=? 0)%Z = false -> R b a) ->
  forall x l, P x -> Forall P l -> StronglySorted R l ->
    StronglySorted R (insertSorted cmp x l).
Proof.
  intros Hle Hgt x l Hx. induction l as [|y l IH]; intros HP Hs.
  - cbn. repeat constructor.
  - apply Forall_cons in HP as [Hy HP].
    apply StronglySorted_cons in Hs as [Hyl Hs]. cbn.
    destruct (cmp x y <=? 0)%Z eqn:E.
    + pose proof (Hle x y Hx Hy E) as Hxy.
      constructor; [constructor; assumption|].
      constructor; [exact Hxy|].
      eapply Forall_impl; [exact Hyl|]. intros z Hz. etransitivity; eassumption.
    + constructor; [exact (IH HP Hs)|].
      rewrite insertSorted_perm. constructor; [|exact Hyl].
      exact (Hgt x y Hx Hy E).
Qed.

Lemma sort_sorted (R : X -> X -> Prop) (P : X -> Prop) `{!Transitive R} :
  (forall a b, P a -> P b -> (cmp a b <=? 0)%Z = true -> R a b) ->
  (forall a b, P a -> P b -> (cmp a b <=? 0)%Z = false -> R b a) ->
  forall l, Forall P l -> StronglySorted R (sort cmp l).
Proof.
  intros Hle Hgt l. induction l as [|x l IH]; intros HP.
  - constructor.
  - apply Forall_cons in HP as [Hx HP]. unfold sort in *. cbn [foldr].
    apply (insertSorted_sorted R P Hle Hgt); [exact Hx| |exact (IH HP)].
    change (Forall P (sort cmp l)). rewrite sort_perm. exact HP.
Qed.

Lemma StronglySorted_lookup_lt (R : X -> X -> Prop) l : forall i j x y,
  StronglySorted R l -> i < j -> l !! i = Some x -> l !! j = Some y -> R x y.
Proof.
  induction l as [|z l IH]; intros i j x y Hs Hij Hi Hj; [discriminate|].
  apply StronglySorted_cons in Hs as [Hz Hs].
  destruct j as [|j]; [lia|]. cbn in Hj.
  destruct i as [|i]; cbn in Hi.
  - injection Hi as <-. eapply (proj1 (Forall_forall _ _) Hz).
    eapply list_elem_of_lookup_2, Hj.
  - eapply (IH i j); [exact Hs | lia | exact Hi | exact Hj].
Qed.

End SortFacts.

Lemma keyLe_trans {num : Type} : Transitive (@keyLe num).
Proof.
  intros a b c (x & y & Hx & Hy & Hxy) (y' & z & Hy' & Hz & Hyz).
  exists x, z. split; [exact Hx|]. split; [exact Hz|].
  assert (y' = y) as -> by congruence. eapply leb_trans; eassumption.
Qed.

Lemma ltb_trans (x y z : string) :
  String.ltb x y = true -> String.ltb y z = true -> String.ltb x z = true.
Proof.
  intros Hxy Hyz. rewrite ltb_negb_leb.
  destruct (String.leb z x) eqn:E; [|reflexivity].
  pose proof (leb_trans _ _ _ E (ltb_leb _ _ Hxy)) as Hzy.
  rewrite ltb_negb_leb, Hzy in Hyz. discriminate.
Qed.

Lemma leb_neq_ltb (x y : string) :
  String.leb x y = true -> x <> y -> String.ltb x y = true.
Proof.
  intros Hxy Hne. rewrite ltb_negb_leb.
  destruct (String.leb y x) eqn:E; [|reflexivity].
  destruct Hne. apply String.leb_antisym; assumption.
Qed.

(** ** The script's main part *)

Section PipelineMore.
Context {num : Type} (host : Host num).
Implicit Types (f g : Feature num) (walks : list (Feature num)).

Lemma pipeline_stages (features out : list (Feature num)) :
  pipeline host features = Ok out ->
  exists parts days merged,
    flatMap multiSplit features = Ok parts /\
    flatMap dateSplit (filter (fun f => isLineString f = true) parts) =
      Ok days /\
    forEachUniqueRange
      (fun lhs rhs => eqStr (featureDate lhs) (featureDate rhs))
      (sort timeCompare days) mergeLines = Ok merged /\
    mapM (addBbox host) merged = Ok out.
Proof.
  unfold pipeline. intros H.
  destruct (flatMap multiSplit features) as [parts|] eqn:Hp; [|discriminate].
  rewrite bind_Ok in H.
  destruct (flatMap dateSplit _) as [days|] eqn:Hd; [|discriminate].
  rewrite bind_Ok in H. cbv zeta in H.
  destruct (forEachUniqueRange _ _ _) as [merged|] eqn:Hm; [|discriminate].
  rewrite bind_Ok in H. exists parts, days, merged. auto.
Qed.

Lemma stage_days (parts days : list (Feature num)) :
  flatMap dateSplit (filter (fun f => isLineString f = true) parts) =
    Ok days ->
  Forall isDay days.
Proof.
  intros H.
  refine (flatMap_Forall dateSplit (fun f => isLineString f = true) _ _ _
            _ _ H).
  - intros f r. apply dateSplit_days.
  - apply Forall_forall. intros f Hf.
    apply list_elem_of_filter in Hf as [Hline _]. exact Hline.
Qed.

Lemma sorted_days (days : list (Feature num)) :
  Forall isDay days ->
  Forall isDay (sort timeCompare days) /\
  StronglySorted keyLe (sort timeCompare days).
Proof.
  intros Hd. split; [rewrite sort_perm; exact Hd|].
  apply (@sort_sorted _ timeCompare keyLe isDay keyLe_trans); [| |exact Hd].
  - intros a b (_ & x & Hx & _) (_ & y & Hy & _) E.
    rewrite (timeCompare_leb a b x y Hx Hy) in E. exists x, y. auto.
  - intros a b (_ & x & Hx & _) (_ & y & Hy & _) E.
    rewrite (timeCompare_leb a b x y Hx Hy) in E. exists y, x.
    split; [exact Hy|]. split; [exact Hx|].
    destruct (String.leb_total x y) as [E'|E']; [congruence | exact E'].
Qed.

Lemma slice_one {A : Type} (l : list A) lo x :
  l !! lo = Some x -> slice lo (S lo) l = [x].
Proof.
  intros H. unfold slice. rewrite (drop_S _ _ _ H).
  replace (S lo - lo) with 1 by lia. reflexivity.
Qed.

Lemma asLine_coordinates (fs : list (Feature num)) ws :
  Forall2 (fun f w => asLine f = Some w) fs ws ->
  map lineCoordinates fs = ws.*2.
Proof.
  induction 1 as [|f [p c] fs ws Hf _ IH]; [reflexivity|].
  cbn. unfold lineCoordinates at 1. rewrite Hf, IH. reflexivity.
Qed.

(** What [mergeLines] returns for a non-empty interval of LineStrings. *)
Lemma mergeLines_run walks lo hi m :
  Forall (fun f => isLineString f = true) walks ->
  lo < hi <= length walks ->
  mergeLines lo hi walks = Ok m ->
  exists f first,
    m = Some f /\ walks !! lo = Some first /\
    featureDate f = featureDate first /\
    is_Some (positions f) /\
    partsOf f = map lineCoordinates (slice lo hi walks).
Proof.
  intros Hlines [Hlo Hhi] H.
  destruct (lookup_lt_is_Some_2 walks lo ltac:(lia)) as [first Hfirst].
  pose proof (proj1 (Forall_lookup _ _) Hlines lo first Hfirst) as Hline.
  destruct first as [b p c|?|?]; try discriminate.
  unfold mergeLines in H. destruct (Nat.leb_spec (hi - lo) 1) as [Hone|Htwo].
  - injection H as <-. rewrite Hfirst.
    eexists _, _. split; [reflexivity|]. split; [reflexivity|].
    split; [reflexivity|]. split; [eexists; reflexivity|].
    replace hi with (S lo) by lia. rewrite (slice_one _ _ _ Hfirst).
    reflexivity.
  - destruct (mapM asLine (slice lo hi walks)) as [ws|] eqn:Hws;
      [|discriminate].
    apply mapM_Some_1 in Hws.
    pose proof (asLine_coordinates _ _ Hws) as Hcs.
    assert (H0 : slice lo hi walks !! 0 = Some (LineFeature b p c)).
    { rewrite slice_lookup by lia. rewrite Nat.add_0_r. exact Hfirst. }
    destruct (Forall2_lookup_l _ _ _ _ _ Hws H0) as (w & Hw & Hlw).
    destruct ws as [|w' others]; [discriminate|].
    injection Hw as ->. cbn in Hlw. injection Hlw as <-.
    cbv zeta in H. cbn [fst] in H.
    assert (Hm : exists q,
              m = Some (MultiLineFeature None q (((p, c) :: others).*2)) /\
              date q = date p).
    { destruct (coordTimes p) as [ts|].
      - destruct (mapM walkTimes ((p, c) :: others)) as [tss|];
          [|discriminate].
        rewrite bind_Ok in H. injection H as <-. eexists.
        split; reflexivity.
      - injection H as <-. eexists. split; reflexivity. }
    destruct Hm as (q & -> & Hq).
    eexists _, _. split; [reflexivity|]. split; [exact Hfirst|].
    split; [exact Hq|]. split; [eexists; reflexivity|].
    cbn [partsOf]. symmetry. exact Hcs.
Qed.

(** What [addBbox] makes of a line or multi-line feature. *)
Lemma addBbox_output f g :
  is_Some (positions f) -> addBbox host (Some f) = Ok g ->
  featureDate g = featureDate f /\
  partsOf g = partsOf f /\
  positions g = positions f /\
  is_Some (featureBbox g) /\
  is_Some (featureDistance g) /\
  hasCoordTimes g = false /\
  featureTime g = None /\
  featureFileName g = None.
Proof.
  intros [cs Hcs] H.
  destruct (addBbox_Ok_inv host f g cs Hcs H)
    as (latLngs & sw & ne & first & bbox & _ & _ & _ & _ & ->).
  destruct f as [b p c|b p c|ty p]; [| |discriminate];
    cbn; repeat split; eexists; reflexivity.
Qed.

(** The output of the script, run by run of the sorted day segments. *)
Lemma pipeline_runs (features out : list (Feature num)) :
  pipeline host features = Ok out ->
  exists parts days,
    flatMap multiSplit features = Ok parts /\
    flatMap dateSplit (filter (fun f => isLineString f = true) parts) =
      Ok days /\
    Forall isDay (sort timeCompare days) /\
    StronglySorted keyLe (sort timeCompare days) /\
    Forall2
      (fun r g => exists f first,
         sort timeCompare days !! r.1 = Some first /\
         featureDate f = featureDate first /\
         is_Some (positions f) /\
         partsOf f =
           map lineCoordinates (slice r.1 r.2 (sort timeCompare days)) /\
         addBbox host (Some f) = Ok g)
      (ranges (fun lhs rhs => eqStr (featureDate lhs) (featureDate rhs))
         (sort timeCompare days))
      out.
Proof.
  intros H.
  destruct (pipeline_stages _ _ H) as (parts & days & merged & Hp & Hd & Hm & Ho).
  exists parts, days. split; [exact Hp|]. split; [exact Hd|].
  destruct (sorted_days days (stage_days _ _ Hd)) as [Hdays Hsorted].
  split; [exact Hdays|]. split; [exact Hsorted|].
  set (walks := sort timeCompare days) in *.
  set (dateEq := fun lhs rhs : Feature num =>
                   eqStr (featureDate lhs) (featureDate rhs)) in *.
  destruct (forEachUniqueRange_ranges dateEq walks) as (_ & Hruns & Hf).
  rewrite Hf in Hm. apply mapM_Ok_inv in Hm. apply mapM_Ok_inv in Ho.
  assert (Hlines : Forall (fun f => isLineString f = true) walks).
  { eapply Forall_impl; [exact Hdays|]. intros f [Hline _]. exact Hline. }
  apply Forall2_same_length_lookup. split.
  { rewrite (Forall2_length _ _ _ Hm). exact (Forall2_length _ _ _ Ho). }
  intros k r g Hr Hg.
  destruct (Forall2_lookup_l _ _ _ _ _ Hm Hr) as (m & Hmk & Hmr).
  destruct (Forall2_lookup_l _ _ _ _ _ Ho Hmk) as (g' & Hg' & Hmg).
  assert (g' = g) as -> by congruence.
  pose proof (proj1 (Forall_lookup _ _) Hruns k r Hr) as (Hrange & _).
  destruct (mergeLines_run walks r.1 r.2 m Hlines Hrange Hmr)
    as (f & first & -> & Hfirst & Hdate & Hpos & Hparts).
  exists f, first. auto.
Qed.

End PipelineMore.

Lemma ltb_Transitive :
  Transitive (fun a b : string => String.ltb a b = true).
Proof. intros x y z. apply ltb_trans. Qed.

Section RunDates.
Context {num : Type}.
Variable walks : list (Feature num).
Hypothesis Hdays : Forall isDay walks.
Hypothesis Hsorted : StronglySorted keyLe walks.

(** In the sorted day segments a later one has a later or the same date. *)
Lemma sorted_dates i j (a b : Feature num) x y :
  i < j -> walks !! i = Some a -> walks !! j = Some b ->
  featureDate a = Some x -> featureDate b = Some y ->
  String.leb x y = true.
Proof.
  intros Hij Ha Hb Hx Hy.
  destruct (StronglySorted_lookup_lt keyLe walks i j a b Hsorted Hij Ha Hb)
    as (k & k' & Hk & Hk' & Hle).
  destruct (proj1 (Forall_lookup _ _) Hdays i a Ha) as (_ & k1 & Hk1 & Hd1).
  destruct (proj1 (Forall_lookup _ _) Hdays j b Hb) as (_ & k2 & Hk2 & Hd2).
  assert (k1 = k) as -> by congruence. assert (k2 = k') as -> by congruence.
  assert (x = day k) as -> by congruence.
  assert (y = day k') as -> by congruence.
  apply day_mono, Hle.
Qed.

Lemma run_dates runs : forall from,
  chain from runs (length walks) ->
  Forall (isRun (fun lhs rhs => eqStr (featureDate lhs) (featureDate rhs))
            walks) runs ->
  exists dates,
    Forall2 (fun r d => exists first,
               walks !! r.1 = Some first /\ featureDate first = Some d)
      runs dates /\
    Sorted (fun a b => String.ltb a b = true) dates.
Proof.
  induction runs as [|[lo hi] runs IH]; intros from Hc Hruns.
  - exists []. split; constructor.
  - cbn in Hc. destruct Hc as (-> & Hlt & Hc).
    apply Forall_cons in Hruns as [(_ & _ & Hmax) Hruns]. cbn in Hmax.
    destruct (IH hi Hc Hruns) as (dates & HF & Hs).
    pose proof (chain_le _ _ _ Hc) as Hhi.
    destruct (lookup_lt_is_Some_2 walks from ltac:(lia)) as [first Hfirst].
    destruct (proj1 (Forall_lookup _ _) Hdays from first Hfirst)
      as (_ & k & _ & Hd).
    exists (day k :: dates). split.
    + constructor; [|exact HF]. exists first. split; assumption.
    + constructor; [exact Hs|].
      destruct runs as [|[lo' hi'] runs'].
      { apply Forall2_nil_inv_l in HF as ->. constructor. }
      apply Forall2_cons_inv_l in HF
        as (d' & dates' & (next & Hnext & Hd') & _ & ->).
      constructor. cbn in Hc. destruct Hc as (-> & _). cbn in Hnext.
      apply leb_neq_ltb.
      * exact (sorted_dates from hi first next (day k) d' Hlt Hfirst Hnext
                 Hd Hd').
      * intros E. pose proof (Hmax first next Hfirst Hnext) as Hne.
        rewrite Hd, Hd', E in Hne. cbn in Hne.
        rewrite String.eqb_refl in Hne. discriminate.
Qed.

Lemma run_dates_out (runs : list (nat * nat)) (out : list (Feature num)) :
  forall dates,
  Forall2 (fun r g => exists first,
             walks !! r.1 = Some first /\
             featureDate g = featureDate first) runs out ->
  Forall2 (fun r d => exists first,
             walks !! r.1 = Some first /\ featureDate first = Some d)
    runs dates ->
  map featureDate out = map Some dates.
Proof.
  intros dates H. revert dates.
  induction H as [|r g runs out (first & Hf & Hg) _ IH]; intros dates Hd.
  - apply Forall2_nil_inv_l in Hd as ->. reflexivity.
  - apply Forall2_cons_inv_l in Hd as (d & dates' & (first' & Hf' & Hd') & Hd & ->).
    cbn. rewrite (IH dates' Hd). f_equal. congruence.
Qed.

End RunDates.

(** X13: every feature that the script prints is a line or a multi-line
    feature with a [date], a [bbox] and a [distance], and without [time],
    [coordTimes] and [gpxFileName]. *)
Theorem pipeline_output_shape {num : Type} (host : Host num)
    (features out : list (Feature num)) :
  pipeline host features = Ok out ->
  Forall (fun g => is_Some (positions g) /\
                   is_Some (featureDate g) /\
                   is_Some (featureBbox g) /\
                   is_Some (featureDistance g) /\
                   hasCoordTimes g = false /\
                   featureTime g = None /\
                   featureFileName g = None) out.
Proof.
  intros H.
  destruct (pipeline_runs host features out H)
    as (parts & days & _ & _ & Hdays & _ & HF).
  apply (Forall2_Forall_r _ _ _ _ HF), Forall_true.
  intros r g (f & first & Hfirst & Hdate & Hpos & _ & Hg).
  destruct (addBbox_output host f g Hpos Hg)
    as (Hd & _ & Hp & Hb & Hdist & Hct & Ht & Hn).
  destruct (proj1 (Forall_lookup _ _) Hdays _ _ Hfirst) as (_ & k & _ & Hk).
  split; [rewrite Hp; exact Hpos|].
  split; [rewrite Hd, Hdate, Hk; eexists; reflexivity|]. auto.
Qed.

Lemma pipeline_output_shape_witness :
  Forall (fun g : Feature Z =>
            is_Some (positions g) /\
            is_Some (featureDate g) /\
            is_Some (featureBbox g) /\
            is_Some (featureDistance g) /\
            hasCoordTimes g = false /\
            featureTime g = None /\
            featureFileName g = None)
    [LineFeature (Some [Some 0; Some 0; Some 3; Some 4]%Z)
       (mkProperties None None (Some "2017-06-10") None (Some 7%Z) [])
       [[0; 0]; [3; 4]]%Z].
Proof.
  apply (pipeline_output_shape planarHost [shortTimes]). reflexivity.
Defined.

(** X14: the script prints one feature per calendar day on which
    something was recorded, in the order of the days: the dates of the
    printed features are strictly ascending, and they are the dates of
    the day segments that [dateSplit] returned. *)
Theorem pipeline_one_feature_per_day {num : Type} (host : Host num)
    (features out : list (Feature num)) :
  pipeline host features = Ok out ->
  exists parts days dates,
    flatMap multiSplit features = Ok parts /\
    flatMap dateSplit (filter (fun f => isLineString f = true) parts) =
      Ok days /\
    map featureDate out = map Some dates /\
    StronglySorted (fun a b => String.ltb a b = true) dates /\
    (forall d, d ∈ dates <-> exists g, g ∈ days /\ featureDate g = Some d).
Proof.
  intros H.
  destruct (pipeline_runs host features out H)
    as (parts & days & Hp & Hd & Hdays & Hsorted & HF).
  set (walks := sort timeCompare days) in *.
  set (dateEq := fun lhs rhs : Feature num =>
                   eqStr (featureDate lhs) (featureDate rhs)) in *.
  destruct (forEachUniqueRange_ranges dateEq walks) as (Hc & Hruns & _).
  destruct (run_dates walks Hdays Hsorted _ 0 Hc Hruns) as (dates & Hdates & Hs).
  exists parts, days, dates. split; [exact Hp|]. split; [exact Hd|].
  split; [|split].
  - apply (run_dates_out walks (ranges dateEq walks)); [|exact Hdates].
    eapply Forall2_impl; [exact HF|].
    intros r g (f & first & Hfirst & Hdate & Hpos & _ & Hg).
    destruct (addBbox_output host f g Hpos Hg) as (Hgd & _).
    exists first. split; [exact Hfirst | congruence].
  - apply Sorted_StronglySorted; [apply ltb_Transitive | exact Hs].
  - intros d. split.
    + intros Hin. apply list_elem_of_lookup in Hin as [k Hk].
      destruct (Forall2_lookup_r _ _ _ _ _ Hdates Hk)
        as (r & _ & first & Hfirst & Hdate).
      exists first. split; [|exact Hdate].
      rewrite <- (sort_perm timeCompare days).
      eapply list_elem_of_lookup_2, Hfirst.
    + intros (g & Hg & Hdate).
      rewrite <- (sort_perm timeCompare days) in Hg.
      apply list_elem_of_lookup in Hg as [i Hi].
      change (walks !! i = Some g) in Hi.
      pose proof (lookup_lt_Some _ _ _ Hi) as Hlen.
      destruct (chain_cover _ _ _ i Hc (conj (Nat.le_0_l i) Hlen))
        as (k & r & Hr & Hri).
      destruct (Forall2_lookup_l _ _ _ _ _ Hdates Hr)
        as (d' & Hd' & first & Hfirst & Hfd).
      assert (d' = d) as ->; [|eapply list_elem_of_lookup_2, Hd'].
      pose proof (proj1 (Forall_lookup _ _) Hruns k r Hr) as (_ & Hrun & _).
      destruct (decide (i = r.1)) as [->|Hne]; [congruence|].
      pose proof (Hrun i first g ltac:(lia) Hfirst Hi) as E.
      apply eqStr_eq in E. congruence.
Qed.

Lemma pipeline_one_feature_per_day_witness :
  exists parts days dates,
    flatMap multiSplit [overnight] = Ok parts /\
    flatMap dateSplit (filter (fun f => isLineString f = true) parts) =
      Ok days /\
    map featureDate
      [LineFeature (Some [Some 0; Some 0; Some 1; Some 0]%Z)
         (mkProperties None None (Some "2017-06-10") None (Some 1%Z) [])
         [[0; 0]; [1; 0]]%Z;
       LineFeature (Some [Some 1; Some 1; Some 2; Some 1]%Z)
         (mkProperties None None (Some "2017-06-11") None (Some 1%Z) [])
         [[1; 1]; [2; 1]]%Z] = map Some dates /\
    StronglySorted (fun a b => String.ltb a b = true) dates /\
    (forall d, d ∈ dates <-> exists g, g ∈ days /\ featureDate g = Some d).
Proof.
  apply (pipeline_one_feature_per_day planarHost [overnight]). reflexivity.
Defined.

(** X15: between [dateSplit] and the output no line is lost, added or
    changed: the lines of the printed features, in order, are the lines of
    the day segments in sorted order, and sorting only rearranges the day
    segments. *)
Theorem pipeline_keeps_lines {num : Type} (host : Host num)
    (features out : list (Feature num)) :
  pipeline host features = Ok out ->
  exists parts days,
    flatMap multiSplit features = Ok parts /\
    flatMap dateSplit (filter (fun f => isLineString f = true) parts) =
      Ok days /\
    concat (map partsOf out) = map lineCoordinates (sort timeCompare days) /\
    sort timeCompare days ≡ₚ days.
Proof.
  intros H.
  destruct (pipeline_runs host features out H)
    as (parts & days & Hp & Hd & Hdays & Hsorted & HF).
  exists parts, days. split; [exact Hp|]. split; [exact Hd|].
  split; [|apply sort_perm].
  set (walks := sort timeCompare days) in *.
  set (dateEq := fun lhs rhs : Feature num =>
                   eqStr (featureDate lhs) (featureDate rhs)) in *.
  destruct (forEachUniqueRange_ranges dateEq walks) as (Hc & _ & _).
  rewrite <- (slice_all walks) at 1.
  rewrite <- (chain_concat walks _ _ _ Hc), concat_map, map_map.
  f_equal. clear Hc H.
  induction HF as [|r g runs out' (f & first & _ & _ & Hpos & Hparts & Hg) _ IH];
    [reflexivity|].
  cbn. rewrite IH. f_equal.
  destruct (addBbox_output host f g Hpos Hg) as (_ & -> & _). exact Hparts.
Qed.

Lemma pipeline_keeps_lines_witness :
  exists parts days,
    flatMap multiSplit [overnight] = Ok parts /\
    flatMap dateSplit (filter (fun f => isLineString f = true) parts) =
      Ok days /\
    concat (map partsOf
      [LineFeature (Some [Some 0; Some 0; Some 1; Some 0]%Z)
         (mkProperties None None (Some "2017-06-10") None (Some 1%Z) [])
         [[0; 0]; [1; 0]]%Z;
       LineFeature (Some [Some 1; Some 1; Some 2; Some 1]%Z)
         (mkProperties None None (Some "2017-06-11") None (Some 1%Z) [])
         [[1; 1]; [2; 1]]%Z]) =
      map lineCoordinates (sort timeCompare days) /\
    sort timeCompare days ≡ₚ days.
Proof.
  apply (pipeline_keeps_lines planarHost [overnight]). reflexivity.
Defined.

(** ** [multiSplit] and [mergeLines] *)

Section SplitMerge.
Context {num : Type}.
Variable p : Properties num (list (list string)).

Lemma parts_without_lines (cs : list (list (list num))) :
  Forall2 (fun f w => exists b, f = LineFeature b w.1 w.2)
    (map (partWithoutTimes p) cs)
    (map (fun c => (mkProperties (time p) None (date p) (gpxFileName p)
                      (distance p) (rest p), c)) cs).
Proof.
  induction cs as [|c cs IH]; [constructor|].
  constructor; [eexists; reflexivity | exact IH].
Qed.

Lemma parts_with_lines (cts : list (list (list num) * list string)) gs :
  Forall2 (fun ct g => length ct.2 = length ct.1 /\
                       g = partWithTimes p ct.1 ct.2) cts gs ->
  Forall2 (fun f w => exists b, f = LineFeature b w.1 w.2) gs
    (map (fun ct => (mkProperties (head ct.2) (Some ct.2) (date p)
                       (gpxFileName p) (distance p) (rest p), ct.1)) cts) /\
  Forall2 (fun w ts => coordTimes w.1 = Some ts /\ length ts = length w.2)
    (map (fun ct => (mkProperties (head ct.2) (Some ct.2) (date p)
                       (gpxFileName p) (distance p) (rest p), ct.1)) cts)
    (cts.*2).
Proof.
  induction 1 as [|ct g cts gs [Hlen ->] _ [IH1 IH2]].
  - split; constructor.
  - split; constructor; try assumption.
    + eexists. reflexivity.
    + split; [reflexivity | exact Hlen].
Qed.

End SplitMerge.

(** X23: [mergeLines] puts back together what [multiSplit] took apart:
    merging all the parts of a MultiLineString of two parts or more gives
    a MultiLineString with the same coordinates and the same [date]; when
    the feature has [coordTimes], with the timestamp arrays of the parts
    and the same [time], else with neither; [gpxFileName], [distance] and
    the other properties are not kept. *)
Theorem mergeLines_undoes_multiSplit {num : Type}
    (b : option (list (option num)))
    (p : Properties num (list (list string)))
    (coordinates : list (list (list num))) (gs : list (Feature num)) :
  2 <= length coordinates ->
  multiSplit (MultiLineFeature b p coordinates) = Ok gs ->
  mergeLines 0 (length gs) gs =
  Ok (Some (MultiLineFeature None
              (mkProperties (coordTimes p ≫= fun _ => time p)
                 (take (length coordinates) <$> coordTimes p) (date p)
                 None None [])
              coordinates)).
Proof.
  intros Hlen H. cbn [multiSplit] in H.
  destruct (coordTimes p) as [tss|] eqn:Hct.
  - pose proof (proj1 (mapi_from_with p tss coordinates Hct 0 gs) H)
      as (Ht & Hle & HF).
    rewrite drop_0 in Hle, HF.
    destruct Ht as [->|Ht]; [cbn in Hlen; lia|].
    pose proof (Forall2_length _ _ _ HF) as Hgs.
    rewrite length_zip in Hgs.
    destruct (parts_with_lines p _ _ HF) as [Hlines Htimes].
    destruct coordinates as [|c0 coordinates]; [cbn in Hlen; lia|].
    destruct tss as [|ts0 tss]; [cbn in Hle; lia|].
    cbn [zip zip_with map fst snd] in Hlines, Htimes.
    rewrite <- (slice_all gs) in Hlines.
    rewrite (mergeLines_lines 0 (length gs) gs _ _
               ltac:(cbn in *; lia) Hlines).
    cbn [fst snd coordTimes].
    rewrite (mapM_walkTimes_Ok _ _ Htimes), bind_Ok.
    cbn [fmap option_fmap option_map mbind option_bind].
    repeat f_equal.
    + cbn. cbn in Ht. symmetry. exact Ht.
    + cbn [length take fmap list_fmap snd]. f_equal.
      clear -Hle. cbn in Hle. revert tss Hle.
      induction coordinates as [|c cs IH]; intros [|ts tss] Hle;
        cbn in *; try reflexivity; try lia.
      f_equal. apply IH. lia.
    + cbn [fmap list_fmap fst snd]. f_equal.
      rewrite <- list_fmap_compose.
      change (((fun ct : list (list num) * list string => ct.1) <$>
                zip coordinates tss) = coordinates).
      apply fst_zip. cbn in Hle. lia.
  - rewrite (mapi_from_without p coordinates Hct) in H. injection H as <-.
    rewrite length_map.
    destruct coordinates as [|c0 coordinates]; [cbn in Hlen; lia|].
    pose proof (parts_without_lines p (c0 :: coordinates)) as Hlines.
    rewrite <- (slice_all (map _ _)), length_map in Hlines.
    cbn [map] in Hlines. cbn [map].
    rewrite (mergeLines_lines 0 (length (c0 :: coordinates)) _ _ _
               ltac:(cbn in *; lia) Hlines).
    cbn [fst coordTimes fmap option_fmap option_map mbind option_bind].
    repeat f_equal. cbn [fmap list_fmap snd]. f_equal.
    rewrite <- list_fmap_compose. apply list_fmap_id.
Qed.

Lemma mergeLines_undoes_multiSplit_witness :
  mergeLines 0 2
    [LineFeature None
       (mkProperties (Some "2017-06-10T10:00:00Z")
          (Some ["2017-06-10T10:00:00Z"; "2017-06-10T10:05:00Z"])
          None (Some "parts.gpx") None [])
       [[0; 0]; [1; 0]]%Z;
     LineFeature None
       (mkProperties (Some "2017-06-10T11:00:00Z")
          (Some ["2017-06-10T11:00:00Z"; "2017-06-10T11:05:00Z"])
          None (Some "parts.gpx") None [])
       [[1; 1]; [2; 1]]%Z] =
  Ok (Some (MultiLineFeature None
              (mkProperties (Some "2017-06-10T10:00:00Z")
                 (Some [["2017-06-10T10:00:00Z"; "2017-06-10T10:05:00Z"];
                        ["2017-06-10T11:00:00Z"; "2017-06-10T11:05:00Z"]])
                 None None None [])
              [[[0; 0]; [1; 0]]; [[1; 1]; [2; 1]]]%Z)).
Proof.
  apply (mergeLines_undoes_multiSplit None
           (mkProperties (Some "2017-06-10T10:00:00Z")
              (Some [["2017-06-10T10:00:00Z"; "2017-06-10T10:05:00Z"];
                     ["2017-06-10T11:00:00Z"; "2017-06-10T11:05:00Z"]])
              None (Some "parts.gpx") None [])
           [[[0; 0]; [1; 0]]; [[1; 1]; [2; 1]]]%Z
           [LineFeature None
              (mkProperties (Some "2017-06-10T10:00:00Z")
                 (Some ["2017-06-10T10:00:00Z"; "2017-06-10T10:05:00Z"])
                 None (Some "parts.gpx") None [])
              [[0; 0]; [1; 0]]%Z;
            LineFeature None
              (mkProperties (Some "2017-06-10T11:00:00Z")
                 (Some ["2017-06-10T11:00:00Z"; "2017-06-10T11:05:00Z"])
                 None (Some "parts.gpx") None [])
              [[1; 1]; [2; 1]]%Z]).
  - cbn. lia.
  - reflexivity.
Defined.

(** ** The two extremes of [forEachUniqueRange] *)

Section RangeExtremes.
Context {A : Type} (equal : A -> A -> bool).

Lemma singleton_runs (array : list A) runs : forall from,
  (forall i x y, array !! i = Some x -> array !! S i = Some y ->
     equal x y = false) ->
  chain from runs (length array) -> Forall (isRun equal array) runs ->
  runs = map (fun i => (i, S i)) (seq from (length array - from)).
Proof.
  intros from Hadj. revert from.
  induction runs as [|[lo hi] runs IH]; intros from Hc Hruns; cbn in Hc.
  - rewrite Hc, Nat.sub_diag. reflexivity.
  - destruct Hc as (-> & Hlt & Hc).
    apply Forall_cons in Hruns as [((_ & Hhi) & Heq & _) Hruns].
    cbn in Hhi, Heq.
    assert (hi = S from) as ->.
    { destruct (decide (hi = S from)) as [E|Hne]; [exact E|].
      destruct (lookup_lt_is_Some_2 array from ltac:(lia)) as [x Hx].
      destruct (lookup_lt_is_Some_2 array (S from) ltac:(lia)) as [y Hy].
      pose proof (Heq (S from) x y ltac:(lia) Hx Hy) as E.
      rewrite (Hadj from x y Hx Hy) in E. discriminate. }
    replace (length array - from) with (S (length array - S from)) by lia.
    cbn [seq map]. f_equal. apply IH; assumption.
Qed.

Lemma mapM_map {X Y Z : Type} (g : X -> Y) (fn : Y -> Result Z) (l : list X) :
  mapM fn (map g l) = mapM (fun x => fn (g x)) l.
Proof.
  induction l as [|x l IH]; [reflexivity|].
  cbn [map]. rewrite !mapM_Result_cons, IH. reflexivity.
Qed.

End RangeExtremes.

(** X24: the two extremes of [forEachUniqueRange]: when every element is
    [equal] to the first one the callback is called once, on the whole
    array; when no element is [equal] to the one before it the callback is
    called once per element, on the intervals of length one in order. *)
Theorem forEachUniqueRange_extremes {A B : Type} (equal : A -> A -> bool)
    (array : list A) (func : nat -> nat -> list A -> Result B) :
  (array <> [] ->
   (forall x y, array !! 0 = Some x -> y ∈ array -> equal x y = true) ->
   forEachUniqueRange equal array func =
   (r ← func 0 (length array) array; Ok [r])) /\
  ((forall i x y, array !! i = Some x -> array !! S i = Some y ->
      equal x y = false) ->
   forEachUniqueRange equal array func =
   mapM (fun i => func i (S i) array) (seq 0 (length array))).
Proof.
  destruct (forEachUniqueRange_ranges equal array) as (Hc & Hruns & Hf).
  split.
  - intros Hne Hall. rewrite Hf, (ranges_single equal array Hne Hall).
    rewrite mapM_Result_cons. cbn [fst snd].
    destruct (func 0 (length array) array); reflexivity.
  - intros Hadj.
    rewrite Hf, (singleton_runs equal array _ 0 Hadj Hc Hruns).
    rewrite Nat.sub_0_r, mapM_map. reflexivity.
Qed.

(** * Part IV: further facts about js/gpxmap.js *)

(** ** [search] and its callback *)

Section SearchMore.
Local Open Scope Z_scope.
Context {A : Type}.
Implicit Types (array : list A).

Lemma get_of_nat array (i : nat) : get array (Z.of_nat i) = array !! i.
Proof.
  unfold get. destruct (Z.ltb_spec (Z.of_nat i) 0) as [H|_]; [lia|].
  rewrite Nat2Z.id. reflexivity.
Qed.

Lemma get_element array i :
  0 <= i < Z.of_nat (length array) -> exists x, get array i = Some x.
Proof.
  intros Hi. unfold get. destruct (Z.ltb_spec i 0) as [H|_]; [lia|].
  apply lookup_lt_is_Some_2. lia.
Qed.

(** Inside the array a callback that throws on [undefined] only is as
    good as its values on the elements. *)
Lemma search_loop_throwing_pure array (pred : option A -> Result bool)
    (p : option A -> bool) fuel : forall le ri,
  (forall x, pred (Some x) = Ok (p (Some x))) ->
  -1 <= le < ri -> ri <= Z.of_nat (length array) -> ri - le < 2 ^ 31 ->
  search_loop_throwing fuel array pred le ri = search_loop fuel array p le ri.
Proof.
  induction fuel as [|fuel IH]; intros le ri Hp Hle Hri Hw; [reflexivity|].
  cbn [search_loop_throwing search_loop].
  destruct (Z.eqb_spec (1 + le) ri) as [E|Hne]; [reflexivity|].
  pose proof (mi_between le ri Hne ltac:(lia) Hw) as Hmi. cbv zeta.
  destruct (get_element array (le + sar (ri - le) 1) ltac:(lia)) as [x Hx].
  rewrite Hx, Hp, bind_Ok.
  destruct (p (Some x)); apply IH; try exact Hp; lia.
Qed.

(** A predicate that, along the list, stays true once it is true has a
    threshold. *)
Lemma monotone_threshold (p : option A -> bool) array :
  (forall (i j : nat) x y, (i < j)%nat ->
     array !! i = Some x -> array !! j = Some y ->
     p (Some x) = true -> p (Some y) = true) ->
  exists t, threshold array p t.
Proof.
  induction array as [|a array IH]; intros Hmono.
  - exists 0. split; [cbn; lia|]. split; intros i Hi; cbn in Hi; lia.
  - destruct (p (Some a)) eqn:Ha.
    + exists 0. split; [cbn [length]; lia|]. split; [intros i Hi; lia|].
      intros i Hi. destruct (get_element (a :: array) i Hi) as [y Hy].
      rewrite Hy. destruct (decide (i = 0)) as [->|Hne].
      * injection Hy as <-. exact Ha.
      * apply (Hmono 0%nat (Z.to_nat i) a y); [lia|reflexivity| |exact Ha].
        unfold get in Hy. destruct (Z.ltb_spec i 0); [lia | exact Hy].
    + destruct IH as (t & Hb & Hlo & Hhi).
      { intros i j x y Hij Hx Hy. apply (Hmono (S i) (S j)); [lia|exact Hx|exact Hy]. }
      assert (Hshift : forall i, 1 <= i -> get (a :: array) i = get array (i - 1)).
      { intros i Hi. unfold get.
        destruct (Z.ltb_spec i 0), (Z.ltb_spec (i - 1) 0); try lia.
        replace (Z.to_nat i) with (S (Z.to_nat (i - 1))) by lia. reflexivity. }
      exists (t + 1). split; [cbn [length]; lia|]. split.
      * intros i Hi. destruct (decide (i = 0)) as [->|Hne]; [exact Ha|].
        rewrite Hshift by lia. apply Hlo. lia.
      * intros i Hi. rewrite Hshift by lia. apply Hhi.
        cbn [length] in Hi. lia.
Qed.

Lemma threshold_unique (p : option A -> bool) array t t' :
  threshold array p t -> threshold array p t' -> t = t'.
Proof.
  intros (Hb & Hlo & Hhi) (Hb' & Hlo' & Hhi').
  destruct (Z.lt_trichotomy t t') as [H|[H|H]]; [|exact H|].
  - pose proof (Hhi t ltac:(lia)). pose proof (Hlo' t ltac:(lia)). congruence.
  - pose proof (Hhi' t' ltac:(lia)). pose proof (Hlo t' ltac:(lia)). congruence.
Qed.

Lemma search_throwing_pure array (pred : option A -> Result bool)
    (p : option A -> bool) fuel :
  Z.of_nat (length array) < 2 ^ 31 - 1 ->
  (forall x, pred (Some x) = Ok (p (Some x))) ->
  search_throwing fuel array pred = search fuel array p.
Proof.
  intros Hlen Hp. unfold search_throwing, search.
  apply search_loop_throwing_pure; [exact Hp|lia..].
Qed.

Lemma search_threshold (p : option A -> bool) array t fuel :
  threshold array p t ->
  Z.of_nat (length array) < 2 ^ 31 - 1 -> (length array < fuel)%nat ->
  search fuel array p = Ok t.
Proof.
  intros Ht Hlen Hfuel. unfold search.
  pose proof Ht as (Hb & _).
  apply search_loop_threshold; [exact Ht|lia..].
Qed.

End SearchMore.

(** X16: on an array of fewer than 2^31 - 1 elements [search] applies its
    callback to elements only, never to [undefined]: a callback that
    throws on [undefined], as the one of [renderSummary] does, gives what
    its values on the elements give, and with them the search returns an
    index between 0 and the length. *)
Theorem search_reads_elements {A : Type} (array : list A)
    (pred : option A -> Result bool) (p : option A -> bool) (fuel : nat) :
  (Z.of_nat (length array) < 2 ^ 31 - 1)%Z ->
  (forall x, pred (Some x) = Ok (p (Some x))) ->
  search_throwing fuel array pred = search fuel array p /\
  (length array < fuel ->
   exists i, search_throwing fuel array pred = Ok i /\
             (0 <= i <= Z.of_nat (length array))%Z).
Proof.
  intros Hlen Hp.
  pose proof (search_throwing_pure array pred p fuel Hlen Hp) as E.
  split; [exact E|]. intros Hfuel. rewrite E. unfold search.
  destruct (search_loop_returns array p fuel (-1) (Z.of_nat (length array)))
    as (i & Hi & Hb); [lia..|].
  exists i. split; [exact Hi | lia].
Qed.

Lemma search_reads_elements_witness :
  search_throwing 5 someDates
    (fun d => match d with
              | Some d => Ok (3 <=? d)%Z
              | None => Throw TypeError
              end) =
  search 5 someDates (atLeast 3).
Proof.
  refine (proj1 (search_reads_elements someDates _ (atLeast 3) 5 _ _)).
  - cbn. lia.
  - intros x. reflexivity.
Defined.

(** ** [walkPopup] and [renderSummary] *)

Section LookupFacts.
Local Open Scope Z_scope.

Lemma notBefore_threshold (date : string) (l : list string) :
  StronglySorted (fun a b => String.leb a b = true) l ->
  exists t, threshold l (notBefore date) t.
Proof.
  intros Hs. apply monotone_threshold.
  intros i j x y Hij Hx Hy Hp. cbn in *.
  pose proof (StronglySorted_lookup_lt _ l i j x y Hs Hij Hx Hy) as Hxy.
  eapply leb_trans; eassumption.
Qed.

End LookupFacts.

(** X17: in a walk whose dates ascend, [walkPopup] finds the date when it
    is among them and builds the popup from the first index that holds it;
    when the date is not among them it returns nothing. *)
Theorem walkPopup_finds_date (fuel : nat) (date : string) (w : Walk) :
  StronglySorted (fun a b => String.leb a b = true) (dates w) ->
  (Z.of_nat (length (dates w)) < 2 ^ 31 - 1)%Z ->
  length (dates w) < fuel ->
  exists popup,
    walkPopup fuel date (Some w) = Ok popup /\
    match popup with
    | Some (w', idx) =>
        w' = w /\ get (dates w) idx = Some date /\
        (forall j, 0 <= j < idx -> get (dates w) j <> Some date)%Z
    | None => date ∉ dates w
    end.
Proof.
  intros Hs Hlen Hfuel.
  destruct (notBefore_threshold date (dates w) Hs) as (t & Ht).
  cbn [walkPopup].
  rewrite (search_threshold _ _ t fuel Ht Hlen Hfuel), bind_Ok.
  destruct Ht as (Hb & Hlo & Hhi).
  destruct (eqStr (get (dates w) t) (Some date)) eqn:E.
  - apply eqStr_eq in E. eexists. split; [reflexivity|].
    split; [reflexivity|]. split; [exact E|].
    intros j Hj Hget. pose proof (Hlo j Hj) as Hf.
    rewrite Hget in Hf. cbn in Hf. rewrite leb_refl in Hf. discriminate.
  - eexists. split; [reflexivity|]. intros Hin.
    apply list_elem_of_lookup in Hin as [j Hj].
    pose proof (lookup_lt_Some _ _ _ Hj) as Hjlen.
    assert (Htj : (t <= Z.of_nat j)%Z).
    { destruct (Z_lt_le_dec (Z.of_nat j) t) as [Hlt|Hge]; [|exact Hge].
      pose proof (Hlo (Z.of_nat j) ltac:(lia)) as Hf.
      rewrite get_of_nat, Hj in Hf. cbn in Hf.
      rewrite leb_refl in Hf. discriminate. }
    destruct (get_element (dates w) t ltac:(lia)) as [d Hd].
    pose proof (Hhi t ltac:(lia)) as Hdt. rewrite Hd in Hdt. cbn in Hdt.
    assert (Hdd : String.leb d date = true).
    { destruct (decide (t = Z.of_nat j)) as [->|Hne].
      - rewrite get_of_nat, Hj in Hd. injection Hd as <-. apply leb_refl.
      - refine (StronglySorted_lookup_lt _ (dates w) (Z.to_nat t) j d date
                  Hs ltac:(lia) _ Hj).
        rewrite <- get_of_nat, Z2Nat.id by lia. exact Hd. }
    rewrite Hd, (String.leb_antisym _ _ Hdd Hdt) in E. cbn in E.
    rewrite String.eqb_refl in E. discriminate.
Qed.

Lemma walkPopup_finds_date_witness :
  exists popup,
    walkPopup 3 "2017-06-11"
      (Some (mkWalk "Coast" ["2017-06-10"; "2017-06-11"] [12000; 9000]%Z)) =
      Ok popup /\
    match popup with
    | Some (w', idx) =>
        w' = mkWalk "Coast" ["2017-06-10"; "2017-06-11"] [12000; 9000]%Z /\
        get ["2017-06-10"; "2017-06-11"] idx = Some "2017-06-11" /\
        (forall j, 0 <= j < idx ->
           get ["2017-06-10"; "2017-06-11"] j <> Some "2017-06-11")%Z
    | None => "2017-06-11" ∉ ["2017-06-10"; "2017-06-11"]
    end.
Proof.
  apply (walkPopup_finds_date 3 "2017-06-11"
           (mkWalk "Coast" ["2017-06-10"; "2017-06-11"] [12000; 9000]%Z)).
  - repeat constructor.
  - cbn. lia.
  - cbn. lia.
Defined.

(** X18: [renderSummary] looks the selected date up in the last walk that
    does not start after it, in an index of walks sorted by their first
    dates; when every walk of the index starts after the selected date,
    and when the index is empty, it reads [dates] of [walks[-1]] and
    throws a TypeError. *)
Theorem renderSummary_looks_up (fuel : nat) (walks : list Walk)
    (date : string) :
  date <> "" ->
  (Z.of_nat (length walks) < 2 ^ 31 - 1)%Z ->
  length walks < fuel ->
  ((forall w, w ∈ walks -> startsAfter date (Some w) = Ok true) ->
   renderSummary fuel walks (Some date) = Throw TypeError) /\
  (StronglySorted
     (fun a b => exists x y, dates a !! 0 = Some x /\ dates b !! 0 = Some y /\
                             String.leb x y = true) walks ->
   forall k w,
     walks !! k = Some w ->
     startsAfter date (Some w) = Ok false ->
     (forall w', walks !! S k = Some w' ->
        startsAfter date (Some w') = Ok true) ->
     renderSummary fuel walks (Some date) =
     (popup ← walkPopup fuel date (Some w);
      match popup with
      | Some (w', idx) => Ok (WalkDetails w' idx)
      | None => Ok SummaryDetails
      end)).
Proof.
  intros Hdate Hlen Hfuel.
  set (p := fun walk : option Walk =>
              match walk with
              | Some w => ltStr (Some date) (dates w !! 0)
              | None => false
              end).
  assert (Hp : forall w, startsAfter date (Some w) = Ok (p (Some w)))
    by reflexivity.
  pose proof (search_throwing_pure walks (startsAfter date) p fuel Hlen Hp)
    as Hsearch.
  assert (Hrender : forall t,
            threshold walks p t ->
            renderSummary fuel walks (Some date) =
            (popup ← walkPopup fuel date (get walks (t - 1));
             match popup with
             | Some (w', idx) => Ok (WalkDetails w' idx)
             | None => Ok SummaryDetails
             end)).
  { intros t Ht. unfold renderSummary.
    rewrite (proj2 (String.eqb_neq _ _) Hdate), Hsearch.
    rewrite (search_threshold p walks t fuel Ht Hlen Hfuel). reflexivity. }
  split.
  - intros Hall. rewrite (Hrender 0%Z); [reflexivity|].
    split; [lia|]. split; [intros i Hi; lia|].
    intros i Hi. destruct (get_element walks i Hi) as [w Hw]. rewrite Hw.
    assert (Hin : w ∈ walks).
    { unfold get in Hw. destruct (i <? 0)%Z; [discriminate|].
      eapply list_elem_of_lookup_2, Hw. }
    pose proof (Hall w Hin) as E. rewrite Hp in E. congruence.
  - intros Hs k w Hk Hw Hnext.
    destruct (monotone_threshold p walks) as (t & Ht).
    { intros i j x y Hij Hx Hy Hpx.
      destruct (StronglySorted_lookup_lt _ walks i j x y Hs Hij Hx Hy)
        as (dx & dy & Hdx & Hdy & Hle).
      cbn in *. rewrite Hdx in Hpx. rewrite Hdy. cbn in *.
      rewrite ltb_negb_leb in *.
      destruct (String.leb dy date) eqn:E; [|reflexivity].
      rewrite (leb_trans _ _ _ Hle E) in Hpx. discriminate. }
    assert (t = Z.of_nat (S k)) as ->.
    { pose proof Ht as (Hb & Hlo & Hhi).
      pose proof (lookup_lt_Some _ _ _ Hk) as Hklen.
      rewrite Hp in Hw.
      assert (Z.of_nat k < t)%Z.
      { destruct (Z_lt_le_dec (Z.of_nat k) t) as [H|H]; [exact H|].
        pose proof (Hhi (Z.of_nat k) ltac:(lia)) as E.
        rewrite get_of_nat, Hk in E. congruence. }
      destruct (Z_lt_le_dec (Z.of_nat (S k)) t) as [H'|H']; [|lia].
      pose proof (Hlo (Z.of_nat (S k)) ltac:(lia)) as E.
      rewrite get_of_nat in E.
      destruct (lookup_lt_is_Some_2 walks (S k) ltac:(lia)) as [w' Hw'].
      pose proof (Hnext w' Hw') as E'. rewrite Hp in E'.
      rewrite Hw' in E. congruence. }
    rewrite (Hrender _ Ht).
    replace (Z.of_nat (S k) - 1)%Z with (Z.of_nat k) by lia.
    rewrite get_of_nat, Hk. reflexivity.
Qed.

Lemma renderSummary_looks_up_witness :
  renderSummary 3 someWalks (Some "2017-06-11") =
  (popup ← walkPopup 3 "2017-06-11"
             (Some (mkWalk "Coast" ["2017-06-10"; "2017-06-11"]
                      [12000; 9000]%Z));
   match popup with
   | Some (w', idx) => Ok (WalkDetails w' idx)
   | None => Ok SummaryDetails
   end).
Proof.
  refine (proj2 (renderSummary_looks_up 3 someWalks "2017-06-11" _ _ _)
            _ 0 _ _ _ _).
  - discriminate.
  - cbn. lia.
  - cbn. lia.
  - repeat constructor; eexists _, _; repeat split; reflexivity.
  - reflexivity.
  - reflexivity.
  - intros w' [= <-]. reflexivity.
Defined.

(** ** The corners of a bounding box *)

(** X19: the corners that the front end takes from a bounding box are the
    ones that [addBbox] wrote: for a box of four members as for one of six
    (with altitudes) the first corner is the south-west longitude and
    latitude and the second the north-east ones. *)
Theorem corners_of_bbox {num : Type} (host : Host num) (sw ne : LatLng host)
    (first : list num) (bbox : list (option num)) :
  bboxOf host sw ne first = Ok bbox ->
  corners bbox =
  [[Some (Some (lng host sw)); Some (Some (lat host sw))];
   [Some (Some (lng host ne)); Some (Some (lat host ne))]].
Proof.
  unfold bboxOf. destruct (length first =? 3).
  - intros [= <-]. reflexivity.
  - destruct (length first =? 2); [|discriminate].
    intros [= <-]. reflexivity.
Qed.

Lemma corners_of_bbox_witness :
  corners [Some 0; Some 0; None; Some 1; Some 1; None]%Z =
  [[Some (Some 0); Some (Some 0)]; [Some (Some 1); Some (Some 1)]]%Z.
Proof.
  apply (corners_of_bbox planarHost (0, 0, None)%Z (1, 1, None)%Z
           [0; 0; 5]%Z).
  reflexivity.
Defined.

(** ** [yearColour] *)

(** X20: [yearColour] gives different colours to different indices of the
    32-bit range; from index 0 on the hue advances by 45 degrees every
    second index and the lightness alternates between 27 and 54 percent;
    a negative odd index, that is an odd number of years before 2011,
    gets the lightness 0, which is black. *)
Theorem yearColour_distinct :
  (forall idx idx',
     (- 2 ^ 31 <= idx < 2 ^ 31)%Z -> (- 2 ^ 31 <= idx' < 2 ^ 31)%Z ->
     yearColour idx = yearColour idx' -> idx = idx') /\
  (forall idx, (0 <= idx < 2 ^ 31)%Z ->
     yearColour idx =
     (170 + 45 * (idx / 2), 100, if Z.even idx then 27 else 54)%Z) /\
  (forall idx, (- 2 ^ 31 <= idx < 0)%Z -> Z.odd idx = true ->
     (yearColour idx).2 = 0%Z).
Proof.
  unfold yearColour. split; [|split].
  - intros idx idx' Hi Hi' E. rewrite !sar_1_small in E by assumption.
    injection E as Eh El.
    pose proof (Z.quot_rem' idx 2). pose proof (Z.quot_rem' idx' 2).
    pose proof (Z.rem_bound_abs idx 2 ltac:(lia)).
    pose proof (Z.rem_bound_abs idx' 2 ltac:(lia)).
    pose proof (Z.div_mod idx 2 ltac:(lia)).
    pose proof (Z.div_mod idx' 2 ltac:(lia)).
    pose proof (Z.mod_pos_bound idx 2 ltac:(lia)).
    pose proof (Z.mod_pos_bound idx' 2 ltac:(lia)).
    assert (idx / 2 = idx' / 2)%Z by lia.
    assert (Z.rem idx 2 = Z.rem idx' 2) by lia.
    lia.
  - intros idx Hi. rewrite sar_1_small by lia.
    rewrite Z.rem_mod_nonneg by lia.
    rewrite Zmod_even. destruct (Z.even idx); reflexivity.
  - intros idx Hi Hodd. cbn [snd].
    rewrite <- (Z.opp_involutive idx) at 1.
    rewrite Z.rem_opp_l by lia.
    rewrite Z.rem_mod_nonneg by lia.
    rewrite Zmod_odd, Z.odd_opp, Hodd. reflexivity.
Qed.

(** ** [hiddenYear] *)

Lemma leb_Transitive :
  Transitive (fun a b : string => String.leb a b = true).
Proof. intros x y z. apply leb_trans. Qed.

Section HiddenYearFacts.
Implicit Types (y : option (list string)) (l : list string).

Lemma assign_lookup (k k' : string) (v : bool) (h : gmap string bool) :
  assign k v h !! k' =
  if decide (k' = k /\ k <> "__proto__") then Some v else h !! k'.
Proof.
  unfold assign. destruct (String.eqb_spec k "__proto__") as [->|Hk].
  - rewrite decide_False by tauto. reflexivity.
  - destruct (decide (k' = k)) as [->|Hne].
    + rewrite lookup_insert_eq, decide_True by tauto. reflexivity.
    + rewrite lookup_insert_ne by congruence.
      rewrite decide_False by tauto. reflexivity.
Qed.

Lemma years_lookup l : forall (h : gmap string bool) k,
  foldl (fun h k => assign k true h) h l !! k =
  if decide (k ∈ l /\ k <> "__proto__") then Some true else h !! k.
Proof.
  induction l as [|a l IH]; intros h k; cbn [foldl].
  - rewrite decide_False; [reflexivity|]. intros [H _]. inversion H.
  - rewrite IH, assign_lookup.
    destruct (decide (k ∈ l /\ k <> "__proto__")) as [[Hin Hk]|Hnin].
    + rewrite decide_True; [reflexivity|]. split; [right; exact Hin|exact Hk].
    + destruct (decide (k = a /\ a <> "__proto__")) as [[-> Ha]|Hne].
      * rewrite decide_True; [reflexivity|]. split; [left | exact Ha].
      * rewrite decide_False; [reflexivity|]. intros [H Hk].
        apply elem_of_cons in H as [->|H]; tauto.
Qed.

Lemma compareStrings_leb (a b : string) :
  (compareStrings a b <=? 0)%Z = String.leb a b.
Proof.
  unfold compareStrings. rewrite !ltb_negb_leb.
  destruct (String.leb_total a b) as [E|E]; rewrite E; cbn.
  - destruct (String.leb b a); reflexivity.
  - destruct (String.leb a b); reflexivity.
Qed.

Lemma sorted_strict l :
  StronglySorted (fun a b => String.leb a b = true) l -> NoDup l ->
  StronglySorted (fun a b => String.ltb a b = true) l.
Proof.
  induction 1 as [|a l Hs IH Ha]; intros Hnd; [constructor|].
  apply NoDup_cons in Hnd as [Hnin Hnd].
  constructor; [exact (IH Hnd)|].
  apply Forall_forall. intros b Hb. apply leb_neq_ltb.
  - exact (proj1 (Forall_forall _ _) Ha b Hb).
  - intros ->. contradiction.
Qed.

Lemma strict_NoDup l :
  StronglySorted (fun a b => String.ltb a b = true) l -> NoDup l.
Proof.
  induction 1 as [|a l Hs IH Ha]; [constructor|].
  apply NoDup_cons. split; [|exact IH].
  intros Hin. pose proof (proj1 (Forall_forall _ _) Ha a Hin) as E.
  cbv beta in E. rewrite ltb_negb_leb, leb_refl in E. discriminate.
Qed.

Lemma sort_strings l :
  NoDup l ->
  StronglySorted (fun a b => String.ltb a b = true) (sort compareStrings l).
Proof.
  intros Hnd. apply sorted_strict; [|rewrite sort_perm; exact Hnd].
  apply (@sort_sorted _ compareStrings _ (fun _ => True) leb_Transitive).
  - intros a b _ _ E. rewrite compareStrings_leb in E. exact E.
  - intros a b _ _ E. rewrite compareStrings_leb in E.
    destruct (String.leb_total a b) as [E'|E']; [congruence | exact E'].
  - apply Forall_true. intros _. exact I.
Qed.

(** The list that [hiddenYear(year, hidden)] leaves in the state. *)
Lemma setHiddenYear_years y year hidden :
  exists l,
    setHiddenYear y year hidden = match l with [] => None | _ => Some l end /\
    hiddenYears (setHiddenYear y year hidden) = l /\
    StronglySorted (fun a b => String.ltb a b = true) l /\
    (forall k, k ∈ l <->
       k <> "__proto__" /\
       if decide (k = year) then hidden = true else k ∈ hiddenYears y).
Proof.
  unfold setHiddenYear.
  set (years := assign year hidden
                  (foldl (fun h k => assign k true h) ∅ (hiddenYears y))).
  set (kept := filter (fun k => years !! k = Some true)
                 (map_to_list years).*1).
  exists (sort compareStrings kept). cbv zeta.
  split; [reflexivity|]. split; [destruct (sort _ _); reflexivity|].
  split.
  - apply sort_strings, NoDup_filter, NoDup_fst_map_to_list.
  - intros k. rewrite sort_perm. unfold kept.
    rewrite list_elem_of_filter.
    assert (Hkeys : years !! k = Some true -> k ∈ (map_to_list years).*1).
    { intros H. apply list_elem_of_fmap. exists (k, true).
      split; [reflexivity|]. apply elem_of_map_to_list. exact H. }
    assert (Hk : years !! k = Some true <->
                 k <> "__proto__" /\
                 if decide (k = year) then hidden = true
                 else k ∈ hiddenYears y).
    { unfold years. rewrite assign_lookup, years_lookup, lookup_empty.
      destruct (decide (k = year)) as [->|Hne].
      - destruct (decide (year = year /\ year <> "__proto__")) as [[_ Hy]|Hn].
        + split; [intros [= ->]; tauto | intros [_ ->]; reflexivity].
        + assert (year = "__proto__") as ->
            by (destruct (decide (year = "__proto__")); tauto).
          rewrite decide_False by tauto. split; [discriminate | tauto].
      - rewrite decide_False by tauto.
        destruct (decide (k ∈ hiddenYears y /\ k <> "__proto__"))
          as [[Hin Hp]|Hn]; [tauto|].
        split; [discriminate | tauto]. }
    rewrite <- Hk. tauto.
Qed.

End HiddenYearFacts.

(** X21: after [hiddenYear(year, hidden)] the year reads as [hidden] and
    every other year reads as before, but for ['__proto__'], which is
    never stored and reads as not hidden; what is stored is [undefined] or
    a list of years that is not empty and ascends strictly, so that no
    year is stored twice. *)
Theorem hiddenYear_after_set (y : option (list string)) (year : string)
    (hidden : bool) :
  (forall year',
     hiddenYear (setHiddenYear y year hidden) year' =
     if decide (year' = "__proto__") then false
     else if decide (year' = year) then hidden else hiddenYear y year') /\
  storedYears (setHiddenYear y year hidden).
Proof.
  destruct (setHiddenYear_years y year hidden) as (l & Hset & Hl & Hs & Hin).
  split.
  - intros year'. unfold hiddenYear at 1. rewrite Hl.
    pose proof (Hin year') as H.
    destruct (decide (year' = "__proto__")) as [Hp|Hp].
    { apply bool_decide_eq_false. tauto. }
    destruct (decide (year' = year)) as [->|Hne].
    + destruct hidden.
      * apply bool_decide_eq_true. tauto.
      * apply bool_decide_eq_false. intros H'. apply H in H' as [_ H'].
        discriminate.
    + unfold hiddenYear. apply bool_decide_ext. tauto.
  - rewrite Hset. destruct l as [|a l]; [exact I|].
    split; [discriminate | exact Hs].
Qed.

(** X22: setting a year to what it already reads as changes nothing in a
    state that [hiddenYear] wrote. *)
Theorem setHiddenYear_same (y : option (list string)) (year : string) :
  storedYears y -> "__proto__" ∉ hiddenYears y ->
  setHiddenYear y year (hiddenYear y year) = y.
Proof.
  intros Hy Hproto.
  destruct (setHiddenYear_years y year (hiddenYear y year))
    as (l & Hset & _ & Hs & Hin).
  assert (Hs' : StronglySorted (fun a b => String.ltb a b = true)
                  (hiddenYears y)).
  { destruct y as [l'|]; [exact (proj2 Hy) | constructor]. }
  assert (E : l = hiddenYears y).
  { apply (StronglySorted_unique_strong
             (fun a b => String.ltb a b = true)); [|exact Hs|exact Hs'|].
    - intros a b _ _ Hab Hba.
      rewrite ltb_negb_leb, (ltb_leb _ _ Hba) in Hab. discriminate.
    - apply NoDup_Permutation; [apply strict_NoDup, Hs
                               |apply strict_NoDup, Hs'|].
      intros k. rewrite Hin.
      assert (Hk : k ∈ hiddenYears y -> k <> "__proto__") by congruence.
      destruct (decide (k = year)) as [->|_]; [|tauto].
      unfold hiddenYear. rewrite bool_decide_eq_true. tauto. }
  rewrite Hset, E. destruct y as [[|a l']|]; [|reflexivity..].
  destruct Hy as [Hne _]. contradiction.
Qed.

Lemma setHiddenYear_same_witness :
  setHiddenYear (Some ["2015"; "2017"]) "2017"
    (hiddenYear (Some ["2015"; "2017"]) "2017") =
  Some ["2015"; "2017"].
Proof.
  apply (setHiddenYear_same (Some ["2015"; "2017"]) "2017").
  - split; [discriminate | repeat constructor].
  - intros H. repeat (apply elem_of_cons in H as [H|H]; [discriminate|]).
    inversion H.
Defined.
